(** * Range-accrual fixed coupons and their pricers (FX and CMS)

    A shallow embedding of

    - [ql/cashflows/fxrangeaccrualfixed.hpp], [ql/cashflows/fxrangeaccrualfixed.cpp]
      (FX coupon and pricer), and the pricer of the revision of the latter
      that adjusts for the smile,
    - [ql/cashflows/cmsrangeaccrualfixed.cpp] in its two revisions: the one
      whose pricer prices with the closed Bachelier formula, and the later one
      whose pricer can replicate with a Hagan CMS pricer,

    followed by the properties the specification states about them.

    Conventions of the embedding.

    - [Real] (a C++ [double]) is an exact rational number: rounding is outside
      the model, comparisons and the four operations are the mathematical ones.
    - A call either returns, throws a [QuantLib::Error] (what [QL_REQUIRE]
      does) or dereferences a null [shared_ptr]; [result] keeps the three
      apart.
    - A member function that mutates its object is a function from the state
      before to the state after together with the outcome, so that what an
      exception leaves behind is visible.
    - Pricers are shared between coupons through [shared_ptr]: they live in a
      store and a coupon holds an address. *)

From Stdlib Require Import QArith Qcanon ZArith.
From stdpp Require Import gmap strings list fin_maps pretty.

Local Open Scope Qc_scope.

(** * Numbers, dates and outcomes *)

Abbreviation Real := Qc.

(** A decimal literal [n/d]. *)
Definition lit (n : Z) (d : positive) : Real := Q2Qc (n # d).

(** [(Real) n] for a container size [n]. *)
Definition of_size (n : nat) : Real := Q2Qc (inject_Z (Z.of_nat n)).

(** [std::max(a, b)] is [(a < b) ? b : a]. *)
Definition std_max (a b : Real) : Real := if decide (a < b) then b else a.

(** A [Date] is its serial number; [operator>] compares serial numbers. *)
Definition Date : Type := Z.

Inductive TimeUnit : Type := Days | Weeks | Months | Years.

Record Period : Type := { period_length : Z; period_units : TimeUnit }.

(** A calendar is only handed on to the schedule generator; its name stands
    for it. *)
Definition Calendar : Type := string.

Record Schedule : Type := { dates : list Date }.

Inductive result (A : Type) : Type :=
| Ok (a : A)
| Throw (msg : string)
| Undefined.

Arguments Ok {A} a.
Arguments Throw {A} msg.
Arguments Undefined {A}.

#[global] Instance result_ret : MRet result := @Ok.

#[global] Instance result_bind : MBind result := λ A B f r,
  match r with
  | Ok a => f a
  | Throw msg => Throw msg
  | Undefined => Undefined
  end.

#[global] Instance result_fmap : FMap result := λ A B f r,
  match r with
  | Ok a => Ok (f a)
  | Throw msg => Throw msg
  | Undefined => Undefined
  end.

Definition is_Ok {A} (r : result A) : Prop :=
  match r with Ok _ => True | _ => False end.

(** The call failed with a [QuantLib::Error]. *)
Definition is_Throw {A} (r : result A) : Prop :=
  match r with Throw _ => True | _ => False end.

#[global] Instance is_Throw_dec {A} (r : result A) : Decision (is_Throw r) :=
  match r with
  | Ok _ => right (λ H, H)
  | Throw _ => left I
  | Undefined => right (λ H, H)
  end.

#[global] Instance is_Ok_dec {A} (r : result A) : Decision (is_Ok r) :=
  match r with
  | Ok _ => left I
  | Throw _ => right (λ H, H)
  | Undefined => right (λ H, H)
  end.

#[global] Instance result_eq_dec {A} `{EqDecision A} : EqDecision (result A).
Proof. solve_decision. Defined.

(** [QL_REQUIRE(condition, message)]. *)
Definition QL_REQUIRE (condition : bool) (message : string) : result unit :=
  if condition then Ok tt else Throw message.

(** A [Handle<T>] is empty or linked; dereferencing an empty one throws. *)
Definition Handle (T : Type) : Type := option T.

Definition deref {T} (h : Handle T) : result T :=
  match h with
  | Some t => Ok t
  | None => Throw "empty Handle cannot be dereferenced"
  end.

(** ** Member functions: state before, state after, outcome *)

Definition M (S A : Type) : Type := S → S * result A.

#[global] Instance M_ret {S} : MRet (M S) := λ A a s, (s, Ok a).

#[global] Instance M_bind {S} : MBind (M S) := λ A B f m s,
  match m s with
  | (s', Ok a) => f a s'
  | (s', Throw msg) => (s', Throw msg)
  | (s', Undefined) => (s', Undefined)
  end.

Definition get {S} : M S S := λ s, (s, Ok s).
Definition modify {S} (f : S → S) : M S unit := λ s, (f s, Ok tt).
Definition lift {S A} (r : result A) : M S A := λ s, (s, r).

(** A range-based [for] loop with one local accumulator. *)
Fixpoint foreach {S A B} (l : list A) (acc : B) (body : B → A → M S B) : M S B :=
  match l with
  | [] => mret acc
  | x :: l' => acc' ← body acc x; foreach l' acc' body
  end.

(** [try { m } catch (...) { handler; throw; }]. *)
Definition try_rethrow {S A} (m : M S A) (handler : S → S) : M S A := λ s,
  match m s with
  | (s', Ok a) => (s', Ok a)
  | (s', Throw msg) => (handler s', Throw msg)
  | (s', Undefined) => (s', Undefined)
  end.

(** * Collaborators

    The library services the coupons and pricers consume without defining
    them: [std::sqrt], [std::log], [CumulativeNormalDistribution::operator()]
    and [::derivative], the [io::iso_date] formatter and the schedule
    generator behind [MakeSchedule().from(..).to(..).withFrequency(Daily)
    .withCalendar(..).withConvention(Following)], which throws on dates it
    cannot use. *)

Class Library : Type := {
  std_sqrt : Real → Real;
  std_log : Real → Real;
  Phi : Real → Real;
  Phi_derivative : Real → Real;
  iso_date : Date → string;
  MakeSchedule : Date → Date → Calendar → result Schedule
}.

(** [DayCounter::yearFraction]. *)
Definition DayCounter : Type := Date → Date → Real.

(** The [FixedRateCoupon] base object: its constructor arguments. *)
Record FixedRateCoupon : Type := {
  paymentDate : Date;
  nominal : Real;
  rate : Real;
  dayCounter : DayCounter;
  accrualStartDate : Date;
  accrualEndDate : Date
}.

(** Modelled from the spec: [FixedRateCoupon::amount] is defined outside the
    files embedded here; the specification gives the base amount as
    [nominal * rate * dayCountFraction(accrualStart, accrualEnd)]. *)
Definition FixedRateCoupon_amount (c : FixedRateCoupon) : Real :=
  nominal c * rate c * dayCounter c (accrualStartDate c) (accrualEndDate c).

(** Modelled from the spec: [Null<Real>()] comes from [ql/utilities/null.hpp];
    the specification only needs that it is a sentinel no fraction can take.
    QuantLib uses the largest finite single-precision number,
    [2^128 - 2^104]. *)
Definition Null_Real : Real :=
  Q2Qc (inject_Z (2 ^ 128 - 2 ^ 104)).

(** The [Index] interface as far as it is used: [fixing(date)], which throws
    when the date has no fixing and cannot be forecast, and
    [fixingCalendar()]. *)
Class Index (I : Type) : Type := {
  fixing : I → Date → result Real;
  fixingCalendar : I → Calendar
}.

(** One iteration's diagnostics: what a pricer writes down for a date. *)
Record Observation : Type := {
  indexObservation : Real;
  standardDevLow : Real;
  standardDevUpp : Real;
  inRangeProbability : Real
}.

#[global] Instance Observation_eq_dec : EqDecision Observation.
Proof. solve_decision. Defined.

(** What the bookkeeping of [initialize] takes from the result of a loop
    body: the probability it adds to [daysInRange], and the entries it writes
    into the additional results under keys that end in the date. *)
Class Diagnostics (O : Type) : Type := {
  probability : O → Real;
  entries : string → O → gmap string Real → gmap string Real
}.

(** The four per-date entries, in the order the loop writes them. *)
#[global] Instance Observation_Diagnostics : Diagnostics Observation := {|
  probability := inRangeProbability;
  entries date_s o m :=
    <["inRangeProbability_" +:+ date_s := inRangeProbability o]>
      (<["standardDevUpp_" +:+ date_s := standardDevUpp o]>
        (<["standardDevLow_" +:+ date_s := standardDevLow o]>
          (<["indexObservation_" +:+ date_s := indexObservation o]> m)))
|}.

(** Addresses of pricers in the store. *)
Abbreviation loc := positive.

(** * The coupon object

    [FxRangeAccrualFixedCoupon] and [CmsRangeAccrualFixedCoupon] declare the
    same members; [I] is [FxIndex] for the former and [SwapIndex] for the
    latter. The constant members come first, then the pricer binding, the
    [LazyObject] flag and the two [mutable] results. *)

Module Coupon.

Record t (I : Type) : Type := mk {
  base : FixedRateCoupon;
  observationsSchedule_ : Schedule;
  index_ : I;
  lowerTrigger_ : Real;
  upperTrigger_ : Real;
  pricer_ : option loc;
  calculated_ : bool;
  rangeAccrual_ : Real;
  additionalResults_ : gmap string Real
}.

Arguments mk {I}.
Arguments base {I}.
Arguments observationsSchedule_ {I}.
Arguments index_ {I}.
Arguments lowerTrigger_ {I}.
Arguments upperTrigger_ {I}.
Arguments pricer_ {I}.
Arguments calculated_ {I}.
Arguments rangeAccrual_ {I}.
Arguments additionalResults_ {I}.

Section Members.
Context {I : Type}.
Implicit Type c : t I.

Definition observationsSchedule c : Schedule := observationsSchedule_ c.
Definition lowerTrigger c : Real := lowerTrigger_ c.
Definition upperTrigger c : Real := upperTrigger_ c.
(** [Coupon::date()], the payment date. *)
Definition date c : Date := paymentDate (base c).
Definition additionalResults c : gmap string Real := additionalResults_ c.

Definition set_pricer (p : option loc) c : t I :=
  mk (base c) (observationsSchedule_ c) (index_ c) (lowerTrigger_ c)
     (upperTrigger_ c) p (calculated_ c) (rangeAccrual_ c)
     (additionalResults_ c).

Definition set_calculated (b : bool) c : t I :=
  mk (base c) (observationsSchedule_ c) (index_ c) (lowerTrigger_ c)
     (upperTrigger_ c) (pricer_ c) b (rangeAccrual_ c)
     (additionalResults_ c).

Definition set_rangeAccrual (r : Real) c : t I :=
  mk (base c) (observationsSchedule_ c) (index_ c) (lowerTrigger_ c)
     (upperTrigger_ c) (pricer_ c) (calculated_ c) r
     (additionalResults_ c).

Definition set_additionalResults (m : gmap string Real) c : t I :=
  mk (base c) (observationsSchedule_ c) (index_ c) (lowerTrigger_ c)
     (upperTrigger_ c) (pricer_ c) (calculated_ c) (rangeAccrual_ c) m.

(** What the constructors' initialiser lists build once the arguments are
    in hand: [pricer_(0), rangeAccrual_(0.0)], an empty result map and a
    [LazyObject] that has not calculated yet. *)
Definition init (b : FixedRateCoupon) (s : Schedule) (i : I)
    (lower upper : Real) : t I :=
  mk b s i lower upper None false 0 ∅.
End Members.

End Coupon.

(** * The pricer object

    The pricers differ in the market objects they hold ([H]), in how the loop
    body of [initialize] values one date ([observation]) and in what it
    writes down for it ([O]); the bookkeeping around it is the same text in
    all of them. *)

Module Pricer.

Record t (H : Type) : Type := mk {
  market_ : H;
  rangeAccrual_ : Real;
  additionalResults_ : gmap string Real
}.

Arguments mk {H}.
Arguments market_ {H}.
Arguments rangeAccrual_ {H}.
Arguments additionalResults_ {H}.

Section Members.
Context {L : Library} {I H O : Type} {D : Diagnostics O}.
Variable observation : Coupon.t I → H → Date → result O.
Implicit Type p : t H.

(** The constructor: the market handles and [rangeAccrual_(Null<Real>())]. *)
Definition create (market : H) : t H := mk market Null_Real ∅.

Definition rangeAccrual p : Real := rangeAccrual_ p.
Definition additionalResults p : gmap string Real := additionalResults_ p.

Definition set_rangeAccrual (r : Real) p : t H :=
  mk (market_ p) r (additionalResults_ p).

Definition set_additionalResults (m : gmap string Real) p : t H :=
  mk (market_ p) (rangeAccrual_ p) m.

(** [additionalResults_[key] = value]. *)
Definition store (key : string) (value : Real) p : t H :=
  set_additionalResults (<[key := value]> (additionalResults_ p)) p.

(** The per-date entries of one observation. *)
Definition store_observation (date_s : string) (o : O) p : t H :=
  set_additionalResults (entries date_s o (additionalResults_ p)) p.

Definition initialize (coupon : Coupon.t I) : M (t H) unit :=
  modify (set_additionalResults ∅);;
  daysInRange ←
    foreach (dates (Coupon.observationsSchedule coupon)) (0 : Real)
      (λ daysInRange d,
         let date_s := iso_date d in
         this ← get;
         o ← lift (observation coupon (market_ this) d);
         modify (store_observation date_s o);;
         mret (daysInRange + probability o));
  let size := of_size (length (dates (Coupon.observationsSchedule coupon))) in
  modify (set_rangeAccrual (daysInRange / size));;
  modify (store "daysInRange" daysInRange);;
  modify (store "observationDays" size).
End Members.

End Pricer.

(** * The coupon's member functions

    Both coupon classes define the same bodies; [observation] is the loop
    body of the pricer class the coupon is declared with. The state a member
    function runs on is the coupon together with the store of pricers. *)

Module RangeAccrualFixedCoupon.

Section Members.
Context {L : Library} {I H O : Type} {Idx : Index I} {D : Diagnostics O}.
Variable observation : Coupon.t I → H → Date → result O.

Definition World : Type := Coupon.t I * gmap positive (Pricer.t H).

Definition this_ (w : World) : Coupon.t I := w.1.

Definition on_this (f : Coupon.t I → Coupon.t I) : M World unit :=
  modify (λ w, (f w.1, w.2)).

(** [pricer_->m(...)]: run a member function of the pricer at address [l],
    leaving in the store whatever state it ends in. An address with nothing
    behind it is a dangling pointer. *)
Definition on_pricer {A} (l : loc) (m : M (Pricer.t H) A) : M World A := λ w,
  match w.2 !! l with
  | Some p => let '(p', r) := m p in ((w.1, <[l := p']> w.2), r)
  | None => (w, Undefined)
  end.

(** Modelled from the spec: [FixedRateCoupon::performCalculations] is
    defined outside the files embedded here. It caches the base amount, which
    [FixedRateCoupon_amount] recomputes from the constructor arguments, so
    there is nothing for it to do to the state. *)
Definition FixedRateCoupon_performCalculations : M World unit := mret tt.

(** Modelled from the spec: [LazyObject::update] is defined outside the files
    embedded here; it returns the object to Uncalculated. Observer
    registration and notification are not part of the model. *)
Definition update : M World unit := on_this (Coupon.set_calculated false).

Definition performCalculations : M World unit :=
  FixedRateCoupon_performCalculations;;
  w ← get;
  let this := this_ w in
  match Coupon.pricer_ this with
  | Some pricer_ =>
      on_pricer pricer_ (Pricer.initialize observation this);;
      p ← on_pricer pricer_ get;
      on_this (Coupon.set_rangeAccrual (Pricer.rangeAccrual p));;
      on_this (Coupon.set_additionalResults (Pricer.additionalResults p))
  | None =>
      (* calculate fall-back via intrinsic value *)
      inRange ←
        foreach (dates (Coupon.observationsSchedule this)) (0 : Real)
          (λ inRange d,
             indexObservation ← lift (fixing (Coupon.index_ this) d);
             mret (if bool_decide (Coupon.lowerTrigger this ≤ indexObservation)
                      && bool_decide (indexObservation ≤ Coupon.upperTrigger this)
                   then inRange + 1 else inRange));
      on_this (Coupon.set_rangeAccrual
                 (inRange / of_size (length (dates (Coupon.observationsSchedule this)))))
  end.

(** Modelled from the spec: [LazyObject::calculate] is defined outside the
    files embedded here. A coupon is Uncalculated or Calculated; an accessor
    recomputes only in the former state, and a computation that throws leaves
    the coupon Uncalculated. *)
Definition calculate : M World unit :=
  w ← get;
  if Coupon.calculated_ (this_ w) then mret tt
  else
    try_rethrow
      (on_this (Coupon.set_calculated true);; performCalculations)
      (λ w', (Coupon.set_calculated false w'.1, w'.2)).

Definition rangeAccrual : M World Real :=
  calculate;;
  w ← get;
  mret (Coupon.rangeAccrual_ (this_ w)).

Definition amount : M World Real :=
  calculate;;
  w ← get;
  mret (Coupon.rangeAccrual_ (this_ w) * FixedRateCoupon_amount (Coupon.base (this_ w))).

Definition setPricer (pricer : option loc) : M World unit :=
  (* unregisterWith(pricer_) *)
  on_this (Coupon.set_pricer pricer);;
  (* registerWith(pricer_) *)
  update.

End Members.

End RangeAccrualFixedCoupon.

(** * Constructor helpers *)

(** [QL_REQUIRE(ptr, message)] on a [shared_ptr]: the pointee when there is
    one. *)
Definition QL_REQUIRE_ptr {A} (ptr : option A) (message : string) : result A :=
  match ptr with
  | Some a => Ok a
  | None => Throw message
  end.

(** [ptr->member] on a [shared_ptr]: no behaviour is defined for a null one. *)
Definition arrow {A} (ptr : option A) : result A :=
  match ptr with
  | Some a => Ok a
  | None => Undefined
  end.

Definition FixedRateCoupon_create (paymentDate : Date) (nominal rate : Real)
    (dayCounter : DayCounter) (accrualStartDate accrualEndDate : Date)
    : FixedRateCoupon :=
  Build_FixedRateCoupon paymentDate nominal rate dayCounter
    accrualStartDate accrualEndDate.

(** * FX: [ql/cashflows/fxrangeaccrualfixed.cpp] *)

Module Fx.

Record FxIndex : Type := {
  fixing_ : Date → result Real;
  fixingCalendar_ : Calendar
}.

#[global] Instance FxIndex_Index : Index FxIndex :=
  {| fixing := fixing_; fixingCalendar := fixingCalendar_ |}.

(** [BlackVolTermStructure]: [referenceDate()] and
    [blackVariance(date, strike, extrapolate)]. *)
Record BlackVolTermStructure : Type := {
  referenceDate : Date;
  blackVariance : Date → Real → bool → result Real
}.

Abbreviation Coupon := (Coupon.t FxIndex).
Abbreviation Pricer := (Pricer.t (Handle BlackVolTermStructure)).

(** The constructor taking the observation schedule. *)
Definition FxRangeAccrualFixedCoupon
    (paymentDate : Date) (nominal rate : Real) (dayCounter : DayCounter)
    (accrualStartDate accrualEndDate : Date)
    (observationsSchedule : option Schedule) (fxIndex : option FxIndex)
    (lowerTrigger upperTrigger : Real) : result Coupon :=
  let base := FixedRateCoupon_create paymentDate nominal rate dayCounter
                accrualStartDate accrualEndDate in
  observationsSchedule_ ← QL_REQUIRE_ptr observationsSchedule "observationsSchedule_ required.";
  fxIndex_ ← QL_REQUIRE_ptr fxIndex "fxIndex_ required.";
  QL_REQUIRE (bool_decide (0 < lowerTrigger)) "lowerTrigger_ > 0.0 required.";;
  QL_REQUIRE (bool_decide (lowerTrigger < upperTrigger)) "lowerTrigger_ < upperTrigger_ required.";;
  mret (Coupon.init base observationsSchedule_ fxIndex_ lowerTrigger upperTrigger).

(** The constructor deriving a daily schedule from the accrual period. The
    initialiser list calls [fxIndex->fixingCalendar()] before the body checks
    anything. *)
Definition FxRangeAccrualFixedCoupon_daily {L : Library}
    (paymentDate : Date) (nominal rate : Real) (dayCounter : DayCounter)
    (accrualStartDate accrualEndDate : Date)
    (fxIndex : option FxIndex)
    (lowerTrigger upperTrigger : Real) : result Coupon :=
  let base := FixedRateCoupon_create paymentDate nominal rate dayCounter
                accrualStartDate accrualEndDate in
  calendar ← fixingCalendar <$> arrow fxIndex;
  schedule ← MakeSchedule accrualStartDate accrualEndDate calendar;
  observationsSchedule_ ← QL_REQUIRE_ptr (Some schedule) "observationsSchedule_ required.";
  fxIndex_ ← QL_REQUIRE_ptr fxIndex "fxIndex_ required.";
  QL_REQUIRE (bool_decide (0 < lowerTrigger)) "lowerTrigger_ > 0.0 required.";;
  QL_REQUIRE (bool_decide (lowerTrigger < upperTrigger)) "lowerTrigger_ < upperTrigger_ required.";;
  mret (Coupon.init base observationsSchedule_ fxIndex_ lowerTrigger upperTrigger).

Definition FxRangeAccrualFixedCouponPricer
    (fxVolatility : Handle BlackVolTermStructure) : Pricer :=
  Pricer.create fxVolatility.

(** 1% * sqrt(1d) *)
Definition minStd : Real := lit 5 10000.

(** The body of the loop of [FxRangeAccrualFixedCouponPricer::initialize], up
    to the value added to [daysInRange]. *)
Definition observation {L : Library} (coupon : Coupon)
    (fxVolatility_ : Handle BlackVolTermStructure) (d : Date)
    : result Observation :=
  indexObservation ← fixing (Coupon.index_ coupon) d;
  vol ← deref fxVolatility_;
  '(standardDevLow, standardDevUpp) ←
    (if (referenceDate vol <? d)%Z then
       varianceLow ← blackVariance vol d (Coupon.lowerTrigger coupon) true;
       varianceUpp ← blackVariance vol d (Coupon.upperTrigger coupon) true;
       mret (std_sqrt (std_max varianceLow 0), std_sqrt (std_max varianceUpp 0))
     else mret (0, 0));
  let inRangeProbability :=
    if decide (standardDevLow < minStd) then
      (* calculate intrinsic value *)
      if bool_decide (Coupon.lowerTrigger coupon ≤ indexObservation)
         && bool_decide (indexObservation ≤ Coupon.upperTrigger coupon)
      then 1 else 0
    else
      (* put option spread valuation *)
      let d2Lower := std_log (indexObservation / Coupon.lowerTrigger coupon) / standardDevLow
                     - lit 1 2 * standardDevLow in
      let d2Upper := std_log (indexObservation / Coupon.upperTrigger coupon) / standardDevUpp
                     - lit 1 2 * standardDevUpp in
      let putLower := Phi (- d2Lower) in
      let putUpper := Phi (- d2Upper) in
      putUpper - putLower in
  mret (Build_Observation indexObservation standardDevLow standardDevUpp
          inRangeProbability).

Definition initialize {L : Library} : Coupon → M Pricer unit :=
  Pricer.initialize observation.

Abbreviation World := (Coupon * gmap loc Pricer)%type.

Definition performCalculations {L : Library} : M World unit :=
  RangeAccrualFixedCoupon.performCalculations observation.

Definition rangeAccrual {L : Library} : M World Real :=
  RangeAccrualFixedCoupon.rangeAccrual observation.

Definition amount {L : Library} : M World Real :=
  RangeAccrualFixedCoupon.amount observation.

Definition setPricer (pricer : option loc) : M World unit :=
  RangeAccrualFixedCoupon.setPricer pricer.

End Fx.

(** * FX: the revision of [fxrangeaccrualfixed.cpp] with smile adjustment

    The coupon class is that of [Fx]; the pricer reads volatilities instead
    of variances, values each boundary on its own and adds [vega * skew] to
    the digital put. *)

Module FxSmile.

(** [BlackVolTermStructure]: [referenceDate()], [timeFromReference(date)]
    and [blackVol(date, strike, extrapolate)]. *)
Record BlackVolTermStructure : Type := {
  referenceDate : Date;
  timeFromReference : Date → Real;
  blackVol : Date → Real → bool → result Real
}.

Abbreviation Coupon := Fx.Coupon.
Abbreviation Pricer := (Pricer.t (Handle BlackVolTermStructure)).

Definition FxRangeAccrualFixedCouponPricer
    (fxVolatility : Handle BlackVolTermStructure) : Pricer :=
  Pricer.create fxVolatility.

(** 1% * sqrt(1d) *)
Definition minStd : Real := lit 5 10000.

Definition relSkewShift : Real := lit 1 10000.

(** What this revision writes down for a date. *)
Record Observation : Type := {
  indexObservation : Real;
  standardDevLow : Real;
  standardDevUpp : Real;
  vegaLow : Real;
  vegaUpp : Real;
  skewLow : Real;
  skewUpp : Real;
  inRangeProbability : Real
}.

(** One boundary of the band: its vega and its put value. Intrinsic below
    the floor, with the vega left at zero; Black digital put with smile
    otherwise. *)
Definition put {L : Library} (indexObservation t standardDev skew strike : Real)
    : Real * Real :=
  if decide (standardDev < minStd) then
    (* calculate intrinsic value *)
    (0, if decide (indexObservation < strike) then 1 else 0)
  else
    (* Black digital put with smile *)
    let d1 := std_log (indexObservation / strike) / standardDev
              + lit 1 2 * standardDev in
    let d2 := d1 - standardDev in
    let put := Phi (- d2) in
    (* smile ajustment *)
    let vega := indexObservation * Phi_derivative d1 * std_sqrt t in
    (vega, put + vega * skew).

(** The body of the loop of [initialize] in this revision. *)
Definition observation {L : Library} (coupon : Coupon)
    (fxVolatility_ : Handle BlackVolTermStructure) (d : Date)
    : result Observation :=
  let strikeLow := Coupon.lowerTrigger coupon in
  let strikeUpp := Coupon.upperTrigger coupon in
  indexObservation ← fixing (Coupon.index_ coupon) d;
  vol ← deref fxVolatility_;
  let t := timeFromReference vol d in
  '(skewLow, standardDevLow, skewUpp, standardDevUpp) ←
    (if (referenceDate vol <? d)%Z then
       (* low-strike calculations *)
       volLow0 ← blackVol vol d strikeLow true;
       volLow1 ← blackVol vol d ((1 - relSkewShift) * strikeLow) true;
       let sigmaLow0 := std_max volLow0 0 in
       let sigmaLow1 := std_max volLow1 0 in
       (* upp-strike calculations *)
       volUpp0 ← blackVol vol d strikeUpp true;
       volUpp1 ← blackVol vol d ((1 + relSkewShift) * strikeUpp) true;
       let sigmaUpp0 := std_max volUpp0 0 in
       let sigmaUpp1 := std_max volUpp1 0 in
       mret ((sigmaLow0 - sigmaLow1) / (relSkewShift * strikeLow),
             sigmaLow0 * std_sqrt t,
             (sigmaUpp1 - sigmaUpp0) / (relSkewShift * strikeUpp),
             sigmaUpp0 * std_sqrt t)
     else mret (0, 0, 0, 0));
  let '(vegaLow, putLow) := put indexObservation t standardDevLow skewLow strikeLow in
  let '(vegaUpp, putUpp) := put indexObservation t standardDevUpp skewUpp strikeUpp in
  let inRangeProbability := putUpp - putLow in
  mret (Build_Observation indexObservation standardDevLow standardDevUpp
          vegaLow vegaUpp skewLow skewUpp inRangeProbability).

(** The eight per-date entries, in the order the loop writes them; the key
    of the upper skew has no underscore. *)
#[global] Instance Observation_Diagnostics : Diagnostics Observation := {|
  probability := inRangeProbability;
  entries date_s o m :=
    <["inRangeProbability_" +:+ date_s := inRangeProbability o]>
      (<["skewUpp" +:+ date_s := skewUpp o]>
        (<["skewLow_" +:+ date_s := skewLow o]>
          (<["vegaUpp_" +:+ date_s := vegaUpp o]>
            (<["vegaLow_" +:+ date_s := vegaLow o]>
              (<["standardDevUpp_" +:+ date_s := standardDevUpp o]>
                (<["standardDevLow_" +:+ date_s := standardDevLow o]>
                  (<["indexObservation_" +:+ date_s := indexObservation o]> m)))))))
|}.

Definition initialize {L : Library} : Coupon → M Pricer unit :=
  Pricer.initialize observation.

End FxSmile.

(** * CMS: [ql/cashflows/cmsrangeaccrualfixed.cpp], Bachelier revision *)

Module Cms.

Record SwapIndex : Type := {
  fixing_ : Date → result Real;
  fixingCalendar_ : Calendar;
  tenor : Period
}.

#[global] Instance SwapIndex_Index : Index SwapIndex :=
  {| fixing := fixing_; fixingCalendar := fixingCalendar_ |}.

(** [SwaptionVolatilityStructure]: [referenceDate()] and
    [blackVariance(optionDate, swapTenor, strike, extrapolate)]. *)
Record SwaptionVolatilityStructure : Type := {
  referenceDate : Date;
  blackVariance : Date → Period → Real → bool → result Real
}.

Abbreviation Coupon := (Coupon.t SwapIndex).
Abbreviation Pricer := (Pricer.t (Handle SwaptionVolatilityStructure)).

(** The constructor taking the observation schedule. *)
Definition CmsRangeAccrualFixedCoupon
    (paymentDate : Date) (nominal rate : Real) (dayCounter : DayCounter)
    (accrualStartDate accrualEndDate : Date)
    (observationsSchedule : option Schedule) (cmsIndex : option SwapIndex)
    (lowerTrigger upperTrigger : Real) : result Coupon :=
  let base := FixedRateCoupon_create paymentDate nominal rate dayCounter
                accrualStartDate accrualEndDate in
  observationsSchedule_ ← QL_REQUIRE_ptr observationsSchedule "observationsSchedule_ required.";
  cmsIndex_ ← QL_REQUIRE_ptr cmsIndex "cmsIndex_ required.";
  QL_REQUIRE (bool_decide (0 < lowerTrigger)) "lowerTrigger_ > 0.0 required.";;
  QL_REQUIRE (bool_decide (lowerTrigger < upperTrigger)) "lowerTrigger_ < upperTrigger_ required.";;
  mret (Coupon.init base observationsSchedule_ cmsIndex_ lowerTrigger upperTrigger).

(** The constructor deriving a daily schedule from the accrual period. It
    calls [cmsIndex->fixingCalendar()] in the initialiser list and its body
    has three checks: nothing is required of the sign of [lowerTrigger_]. *)
Definition CmsRangeAccrualFixedCoupon_daily {L : Library}
    (paymentDate : Date) (nominal rate : Real) (dayCounter : DayCounter)
    (accrualStartDate accrualEndDate : Date)
    (cmsIndex : option SwapIndex)
    (lowerTrigger upperTrigger : Real) : result Coupon :=
  let base := FixedRateCoupon_create paymentDate nominal rate dayCounter
                accrualStartDate accrualEndDate in
  calendar ← fixingCalendar <$> arrow cmsIndex;
  schedule ← MakeSchedule accrualStartDate accrualEndDate calendar;
  observationsSchedule_ ← QL_REQUIRE_ptr (Some schedule) "observationsSchedule_ required.";
  cmsIndex_ ← QL_REQUIRE_ptr cmsIndex "cmsIndex_ required.";
  QL_REQUIRE (bool_decide (lowerTrigger < upperTrigger)) "lowerTrigger_ < upperTrigger_ required.";;
  mret (Coupon.init base observationsSchedule_ cmsIndex_ lowerTrigger upperTrigger).

Definition CmsRangeAccrualFixedCouponPricer
    (swaptionVolatility : Handle SwaptionVolatilityStructure) : Pricer :=
  Pricer.create swaptionVolatility.

(** 1bp * sqrt(1d) *)
Definition minStd : Real := lit 5 1000000.

(** Both standard deviations of one date: zero unless the date lies after the
    reference date of the volatility structure. The two revisions of the
    pricer share these lines. *)
Definition standardDevs {L : Library} (coupon : Coupon)
    (swaptionVolatility_ : Handle SwaptionVolatilityStructure) (d : Date)
    : result (Real * Real) :=
  let swapTerm := tenor (Coupon.index_ coupon) in
  vol ← deref swaptionVolatility_;
  if (referenceDate vol <? d)%Z then
    varianceLow ← blackVariance vol d swapTerm (Coupon.lowerTrigger coupon) true;
    varianceUpp ← blackVariance vol d swapTerm (Coupon.upperTrigger coupon) true;
    mret (std_sqrt (std_max varianceLow 0), std_sqrt (std_max varianceUpp 0))
  else mret (0, 0).

(** The body of the loop of [CmsRangeAccrualFixedCouponPricer::initialize],
    up to the value added to [daysInRange]. *)
Definition observation {L : Library} (coupon : Coupon)
    (swaptionVolatility_ : Handle SwaptionVolatilityStructure) (d : Date)
    : result Observation :=
  indexObservation ← fixing (Coupon.index_ coupon) d;
  '(standardDevLow, standardDevUpp) ← standardDevs coupon swaptionVolatility_ d;
  let inRangeProbability :=
    if decide (standardDevLow < minStd) then
      (* calculate intrinsic value *)
      if bool_decide (Coupon.lowerTrigger coupon ≤ indexObservation)
         && bool_decide (indexObservation ≤ Coupon.upperTrigger coupon)
      then 1 else 0
    else
      (* put option spread valuation *)
      let hLower := (Coupon.lowerTrigger coupon - indexObservation) / standardDevLow in
      let hUpper := (Coupon.upperTrigger coupon - indexObservation) / standardDevUpp in
      let putLower := Phi hLower in
      let putUpper := Phi hUpper in
      putUpper - putLower in
  mret (Build_Observation indexObservation standardDevLow standardDevUpp
          inRangeProbability).

Definition initialize {L : Library} : Coupon → M Pricer unit :=
  Pricer.initialize observation.

Abbreviation World := (Coupon * gmap loc Pricer)%type.

Definition performCalculations {L : Library} : M World unit :=
  RangeAccrualFixedCoupon.performCalculations observation.

Definition rangeAccrual {L : Library} : M World Real :=
  RangeAccrualFixedCoupon.rangeAccrual observation.

Definition amount {L : Library} : M World Real :=
  RangeAccrualFixedCoupon.amount observation.

Definition setPricer (pricer : option loc) : M World unit :=
  RangeAccrualFixedCoupon.setPricer pricer.

End Cms.

(** * CMS: [ql/cashflows/cmsrangeaccrualfixed.cpp], replication revision

    The coupon class is unchanged from the Bachelier revision, constructors
    included; the pricer gains [haganPricer_], [cmsPutOption] and a loop body
    that values each boundary on its own. *)

Module CmsHagan.

Abbreviation Coupon := Cms.Coupon.

(** 1bp * sqrt(1d) *)
Definition minStd : Real := lit 5 1000000.

(** What a [HaganPricer] initialised for a CMS coupon answers. *)
Record CmsOptionRates : Type := {
  capletRate : Real → result Real;
  floorletRate : Real → result Real
}.

(** [HaganPricer] as it is used: binding it to the one-day CMS coupon fixing
    at [exerciseDate] and paying at [paymentDate], and running that coupon's
    [performCalculations], either throws or leaves the pricer ready to quote
    caplet and floorlet rates. *)
Record HaganPricer : Type := {
  priced : Cms.SwapIndex → Date → Date → result CmsOptionRates
}.

(** [CmsCouponPricer]: its volatility handle, and what
    [dynamic_pointer_cast<HaganPricer>] finds. *)
Record CmsCouponPricer : Type := {
  swaptionVolatility : Handle Cms.SwaptionVolatilityStructure;
  as_HaganPricer : option HaganPricer
}.

(** The pricer's market members. *)
Record Market : Type := {
  swaptionVolatility_ : Handle Cms.SwaptionVolatilityStructure;
  haganPricer_ : option HaganPricer
}.

Abbreviation Pricer := (Pricer.t Market).

Definition CmsRangeAccrualFixedCoupon := Cms.CmsRangeAccrualFixedCoupon.
Definition CmsRangeAccrualFixedCoupon_daily {L : Library} :=
  Cms.CmsRangeAccrualFixedCoupon_daily.

Definition CmsRangeAccrualFixedCouponPricer
    (swaptionVolatility : Handle Cms.SwaptionVolatilityStructure) : Pricer :=
  Pricer.create (Build_Market swaptionVolatility None).

(** The constructor from a [CmsCouponPricer]: the initialiser list reads
    [cmsCouponPricer->swaptionVolatility()] before the body checks the
    pointer. *)
Definition CmsRangeAccrualFixedCouponPricer_hagan
    (cmsCouponPricer : option CmsCouponPricer) : result Pricer :=
  swaptionVolatility_ ← swaptionVolatility <$> arrow cmsCouponPricer;
  cmsCouponPricer' ← QL_REQUIRE_ptr cmsCouponPricer "cmsCouponPricer is required.";
  haganPricer_ ← QL_REQUIRE_ptr (as_HaganPricer cmsCouponPricer')
                   "Cannot down-cast cmsCouponPricer to HaganPricer.";
  mret (Pricer.create (Build_Market swaptionVolatility_ (Some haganPricer_))).

Definition cmsPutOption (haganPricer_ : option HaganPricer)
    (cmsIndex : Cms.SwapIndex) (exerciseDate paymentDate : Date)
    (optionStrike : Real) (spreadWidth : Real) : result Real :=
  hagan ← QL_REQUIRE_ptr haganPricer_ "haganPricer_ required.";
  QL_REQUIRE (bool_decide (0 < spreadWidth)) "spreadWidth > 0.0 required.";;
  rates ← priced hagan cmsIndex exerciseDate paymentDate;
  swapRate ← fixing cmsIndex exerciseDate;
  if decide (swapRate < optionStrike) then
    (* calculate call spread to improve numerical stability *)
    calPlus ← capletRate rates (optionStrike + lit 1 2 * spreadWidth);
    calMins ← capletRate rates (optionStrike - lit 1 2 * spreadWidth);
    mret (1 - (calMins - calPlus) / spreadWidth)
  else
    putPlus ← floorletRate rates (optionStrike + lit 1 2 * spreadWidth);
    putMins ← floorletRate rates (optionStrike - lit 1 2 * spreadWidth);
    mret ((putPlus - putMins) / spreadWidth).

(** Modelled from the spec: the default of [cmsPutOption]'s [spreadWidth]
    argument is declared in the header of this revision, which is not among
    the files embedded here; the source comments it as one basis point. *)
Definition spreadWidth_default : Real := lit 1 10000.

(** One boundary of the band: intrinsic below the floor, replication when a
    Hagan pricer is bound, Bachelier otherwise. *)
Definition put {L : Library} (coupon : Coupon) (market : Market) (d : Date)
    (indexObservation standardDev strike : Real) : result Real :=
  if decide (standardDev < minStd) then
    (* calculate intrinsic value *)
    mret (if decide (indexObservation < strike) then 1 else 0)
  else
    match haganPricer_ market with
    | Some _ =>
        (* replication *)
        cmsPutOption (haganPricer_ market) (Coupon.index_ coupon) d
          (Coupon.date coupon) strike spreadWidth_default
    | None =>
        (* fall-back to Bachelier w/o CMS adjustment *)
        mret (Phi ((strike - indexObservation) / standardDev))
    end.

(** The body of the loop of [initialize] in this revision. *)
Definition observation {L : Library} (coupon : Coupon) (market : Market)
    (d : Date) : result Observation :=
  let strikeLow := Coupon.lowerTrigger coupon in
  let strikeUpp := Coupon.upperTrigger coupon in
  indexObservation ← fixing (Coupon.index_ coupon) d;
  '(standardDevLow, standardDevUpp) ←
    Cms.standardDevs coupon (swaptionVolatility_ market) d;
  putLow ← put coupon market d indexObservation standardDevLow strikeLow;
  putUpp ← put coupon market d indexObservation standardDevUpp strikeUpp;
  let inRangeProbability := putUpp - putLow in
  mret (Build_Observation indexObservation standardDevLow standardDevUpp
          inRangeProbability).

Definition initialize {L : Library} : Coupon → M Pricer unit :=
  Pricer.initialize observation.

Abbreviation World := (Coupon * gmap loc Pricer)%type.

Definition performCalculations {L : Library} : M World unit :=
  RangeAccrualFixedCoupon.performCalculations observation.

Definition rangeAccrual {L : Library} : M World Real :=
  RangeAccrualFixedCoupon.rangeAccrual observation.

Definition amount {L : Library} : M World Real :=
  RangeAccrualFixedCoupon.amount observation.

Definition setPricer (pricer : option loc) : M World unit :=
  RangeAccrualFixedCoupon.setPricer pricer.

End CmsHagan.

(** * What the specification talks about

    Descriptions in the specification's own terms, against which the member
    functions above are compared. *)

Module Described.

Section Described.
Context {L : Library} {I H O : Type} {Idx : Index I} {D : Diagnostics O}.
Variable observation : Coupon.t I → H → Date → result O.

(** The closed trigger band. *)
Definition in_band (lower upper x : Real) : bool :=
  bool_decide (lower ≤ x ∧ x ≤ upper).

(** The intrinsic value of a digital put: 1 strictly below the strike. *)
Definition intrinsic_put (x strike : Real) : Real :=
  if decide (x < strike) then 1 else 0.

(** Whether the fixing of a date exists and lies in the closed band. *)
Definition fixing_in_band (c : Coupon.t I) (d : Date) : bool :=
  match fixing (Coupon.index_ c) d with
  | Ok x => in_band (Coupon.lowerTrigger c) (Coupon.upperTrigger c) x
  | _ => false
  end.

(** The number of observation dates whose fixing lies in the closed band. *)
Definition count_in_band (c : Coupon.t I) : nat :=
  length (List.filter (fixing_in_band c) (dates (Coupon.observationsSchedule c))).

Definition has_fixing (c : Coupon.t I) (d : Date) : Prop :=
  is_Ok (fixing (Coupon.index_ c) d).

#[global] Instance has_fixing_dec c d : Decision (has_fixing c d) :=
  is_Ok_dec (fixing (Coupon.index_ c) d).

(** The fraction a calculated coupon without a pricer holds is the count
    over the schedule length: so it is when the coupon is constructed, and
    every member function keeps it so. *)
Definition fallback_cached (c : Coupon.t I) : Prop :=
  Coupon.calculated_ c = true →
  Coupon.pricer_ c = None →
  Forall (has_fixing c) (dates (Coupon.observationsSchedule c)) →
  Coupon.rangeAccrual_ c
  = of_size (count_in_band c)
    / of_size (length (dates (Coupon.observationsSchedule c))).

(** The in-range probability the pricer's loop body assigns to a date. *)
Definition probability_on (c : Coupon.t I) (market : H) (d : Date) : Real :=
  match observation c market d with
  | Ok o => probability o
  | _ => 0
  end.

(** The sum of the per-date probabilities over a list of dates. *)
Definition sum_of_probabilities (c : Coupon.t I) (market : H) (ds : list Date) : Real :=
  foldr (λ d s, probability_on c market d + s) 0 ds.

(** The diagnostics of a list of dates, written in order onto [m]. *)
Definition diagnostics (c : Coupon.t I) (market : H) (ds : list Date)
    (m : gmap string Real) : gmap string Real :=
  foldl (λ m d, match observation c market d with
                | Ok o => entries (iso_date d) o m
                | _ => m
                end) m ds.

(** The pricer's loop as a function of what it reads: the diagnostics so far
    and the running sum go in; out come the diagnostics at the point where the
    loop ends or is abandoned, and the sum or the failure. *)
Fixpoint observe (c : Coupon.t I) (market : H) (ds : list Date)
    (daysInRange : Real) (m : gmap string Real) : gmap string Real * result Real :=
  match ds with
  | [] => (m, Ok daysInRange)
  | d :: ds' =>
      match observation c market d with
      | Ok o => observe c market ds' (daysInRange + probability o)
                  (entries (iso_date d) o m)
      | Throw msg => (m, Throw msg)
      | Undefined => (m, Undefined)
      end
  end.

(** The states a coupon and the pricers around it can be in: a coupon as a
    constructor leaves it, then any sequence of [setPricer], [rangeAccrual]
    and [amount] calls, while other holders of the shared pricers may change
    the store in between. *)
Inductive reachable : RangeAccrualFixedCoupon.World (I:=I) (H:=H) → Prop :=
| reach_constructed b s i lower upper pricers :
    reachable (Coupon.init b s i lower upper, pricers)
| reach_setPricer w pricer :
    reachable w →
    reachable (RangeAccrualFixedCoupon.setPricer pricer w).1
| reach_rangeAccrual w :
    reachable w →
    reachable (RangeAccrualFixedCoupon.rangeAccrual observation w).1
| reach_amount w :
    reachable w →
    reachable (RangeAccrualFixedCoupon.amount observation w).1
| reach_store c pricers pricers' :
    reachable (c, pricers) →
    reachable (c, pricers').

End Described.

End Described.

(** * A worked market

    After the set-up of the test-suite: fixings for every day of 2015 that
    grow linearly, a coupon accruing over September 2015, flat volatilities
    whose reference date lies years after the observations. *)

Module Scenario.

(** Every day from [start] to [finish]; the generator refuses an empty
    period. *)
Definition daily (start finish : Date) (calendar : Calendar) : result Schedule :=
  if (start <? finish)%Z
  then Ok (Build_Schedule (seqZ start (finish - start + 1)))
  else Throw "effective date later than or equal to termination date".

(** Dates print as their serial numbers. All observation dates of this
    market precede the volatility reference date, so no pricer reaches the
    square root, the logarithm or the normal distribution. *)
Definition library : Library := {|
  std_sqrt := λ _, 0;
  std_log := λ _, 0;
  Phi := λ _, 0;
  Phi_derivative := λ _, 0;
  iso_date := λ d, pretty d;
  MakeSchedule := daily
|}.

Definition jan_1_2015 : Date := 42005%Z.
Definition dec_31_2015 : Date := 42369%Z.
Definition aug_31_2015 : Date := 42247%Z.
Definition sep_30_2015 : Date := 42277%Z.
Definition today : Date := 45600%Z.

(** [first + step * (d - 1 Jan 2015)] on the days of 2015, nothing else. *)
Definition linear_fixings (first step : Real) (d : Date) : result Real :=
  if ((jan_1_2015 <=? d) && (d <=? dec_31_2015))%Z
  then Ok (first + step * Q2Qc (inject_Z (d - jan_1_2015)))
  else Throw "Missing fixing".

Definition fxIndex : Fx.FxIndex :=
  Fx.Build_FxIndex (linear_fixings 1 (lit 1 1000)) "TARGET".

Definition swapIndex : Cms.SwapIndex :=
  Cms.Build_SwapIndex (linear_fixings (lit 1 100) (lit 1 10000)) "TARGET"
    (Build_Period 10 Years).

Definition years_from_today (d : Date) : Real :=
  Q2Qc (inject_Z (d - today)) / lit 365 1.

(** A flat Black volatility of 25%. *)
Definition volTs : Fx.BlackVolTermStructure :=
  Fx.Build_BlackVolTermStructure today
    (λ d _ _, Ok (lit 25 100 * lit 25 100 * years_from_today d)).

(** A flat normal volatility of 50bp. *)
Definition swaptionVolTs : Cms.SwaptionVolatilityStructure :=
  Cms.Build_SwaptionVolatilityStructure today
    (λ d _ _ _, Ok (lit 5 1000 * lit 5 1000 * years_from_today d)).

Definition actual360 : DayCounter :=
  λ d1 d2, Q2Qc (inject_Z (d2 - d1)) / lit 360 1.

Definition base : FixedRateCoupon :=
  FixedRateCoupon_create sep_30_2015 (lit 100 1) (lit 1 100) actual360
    aug_31_2015 sep_30_2015.

(** Five observation dates whose FX fixings are 1.248, ..., 1.252. *)
Definition five_days : Schedule :=
  Build_Schedule (seqZ (jan_1_2015 + 248) 5).

(** Three observation dates, the middle one in 2016 and without a fixing. *)
Definition gap_days : Schedule :=
  Build_Schedule [aug_31_2015; (dec_31_2015 + 31)%Z; sep_30_2015].

Definition fx_coupon (schedule : Schedule) (lower upper : Real) : Fx.Coupon :=
  Coupon.init base schedule fxIndex lower upper.

Definition cms_coupon (schedule : Schedule) (lower upper : Real) : Cms.Coupon :=
  Coupon.init base schedule swapIndex lower upper.

Definition fx_pricer : Fx.Pricer := Fx.FxRangeAccrualFixedCouponPricer (Some volTs).

Definition cms_pricer : Cms.Pricer :=
  Cms.CmsRangeAccrualFixedCouponPricer (Some swaptionVolTs).

(** The pricer lives at address 1. *)
Definition bound {I} (c : Coupon.t I) : Coupon.t I := Coupon.set_pricer (Some 1%positive) c.

Definition fx_world (c : Fx.Coupon) : Fx.World := (c, {[ 1%positive := fx_pricer ]}).
Definition cms_world (c : Cms.Coupon) : Cms.World := (c, {[ 1%positive := cms_pricer ]}).

End Scenario.

(** * Further descriptions

    The band that is open at the upper trigger, which the pricers valuing
    each boundary on its own count on past dates, and the keys under which one
    date is written down. *)

Module Derived.

Section Derived.
Context {I : Type} {Idx : Index I}.

(** Whether the fixing of a date exists and lies in the band closed at the
    lower and open at the upper trigger. *)
Definition fixing_in_half_open_band (c : Coupon.t I) (d : Date) : bool :=
  match fixing (Coupon.index_ c) d with
  | Ok x => bool_decide (Coupon.lowerTrigger c ≤ x ∧ x < Coupon.upperTrigger c)
  | _ => false
  end.

Definition count_in_half_open_band (c : Coupon.t I) : nat :=
  length (List.filter (fixing_in_half_open_band c)
            (dates (Coupon.observationsSchedule c))).

(** Whether the fixing of a date exists and is positive. *)
Definition fixing_positive (c : Coupon.t I) (d : Date) : bool :=
  match fixing (Coupon.index_ c) d with
  | Ok x => bool_decide (0 < x)
  | _ => false
  end.

End Derived.

(** The keys of the four entries of one date, in the order they are
    written. *)
Definition per_date_keys (date_s : string) : list string :=
  [ "indexObservation_" +:+ date_s; "standardDevLow_" +:+ date_s;
    "standardDevUpp_" +:+ date_s; "inRangeProbability_" +:+ date_s ].

End Derived.

(** * A market with live volatilities

    The reference date of the volatilities is 1 January 2015, so that the
    observation dates of the worked market lie after it and the pricers reach
    their option formulas. The numerical functions are stand-ins that are
    exact on rationals: a monotone square root and logarithm, and a
    distribution function that steps from 0 to 1 at the origin. *)

Module Live.

Definition library : Library := {|
  std_sqrt := λ x, x;
  std_log := λ x, x - 1;
  Phi := λ x, if decide (x < 0) then 0 else 1;
  Phi_derivative := λ _, 0;
  iso_date := λ d, pretty d;
  MakeSchedule := Scenario.daily
|}.

(** The same, but for a square root that answers 7 below zero. *)
Definition library' : Library := {|
  std_sqrt := λ x, if decide (x < 0) then lit 7 1 else x;
  std_log := λ x, x - 1;
  Phi := λ x, if decide (x < 0) then 0 else 1;
  Phi_derivative := λ _, 0;
  iso_date := λ d, pretty d;
  MakeSchedule := Scenario.daily
|}.

(** No variance below a strike of 1.25, a variance of 1 from there on. *)
Definition stepVolTs : Fx.BlackVolTermStructure :=
  Fx.Build_BlackVolTermStructure Scenario.jan_1_2015
    (λ _ strike _, Ok (if decide (strike < lit 125 100) then 0 else 1)).

(** A variance of -1 at every strike. *)
Definition negativeVolTs : Fx.BlackVolTermStructure :=
  Fx.Build_BlackVolTermStructure Scenario.jan_1_2015 (λ _ _ _, Ok (- (1))).

(** The same variance of 1/100 at every strike. *)
Definition flatVolTs : Fx.BlackVolTermStructure :=
  Fx.Build_BlackVolTermStructure Scenario.jan_1_2015 (λ _ _ _, Ok (lit 1 100)).

Definition flatSwaptionVolTs : Cms.SwaptionVolatilityStructure :=
  Cms.Build_SwaptionVolatilityStructure Scenario.jan_1_2015
    (λ _ _ _ _, Ok (lit 1 100)).

(** The same volatility of 10% at every strike, one year to every date. *)
Definition flatSmileTs : FxSmile.BlackVolTermStructure :=
  FxSmile.Build_BlackVolTermStructure Scenario.jan_1_2015 (λ _, 1)
    (λ _ _ _, Ok (lit 1 10)).

(** A Hagan pricer without convexity adjustment or time value: caplets and
    floorlets at their intrinsic value on the fixing. *)
Definition intrinsicHagan : CmsHagan.HaganPricer :=
  CmsHagan.Build_HaganPricer
    (λ cmsIndex exerciseDate _,
       swapRate ← fixing cmsIndex exerciseDate;
       mret (CmsHagan.Build_CmsOptionRates
               (λ strike, Ok (std_max (swapRate - strike) 0))
               (λ strike, Ok (std_max (strike - swapRate) 0)))).

End Live.

(** * Properties *)

(** A decidable proposition about a concrete input, settled by evaluating its
    decision procedure. *)
Ltac by_evaluation := apply (bool_decide_unpack _); vm_compute; exact I.

(** ** Arithmetic on [Real] *)

Lemma of_size_S (n : nat) : of_size (S n) = of_size n + 1.
Proof.
  unfold of_size. apply Qc_is_canon. simpl.
  rewrite !Qred_correct. rewrite Nat2Z.inj_succ. unfold Z.succ.
  rewrite inject_Z_plus. reflexivity.
Qed.

Lemma of_size_0 : of_size 0 = 0.
Proof. apply Qc_is_canon. reflexivity. Qed.

Lemma Null_Real_large : 1 < Null_Real.
Proof. apply Qclt_alt. vm_compute. reflexivity. Qed.

Lemma minStd_positive : 0 < Fx.minStd ∧ 0 < Cms.minStd.
Proof. split; apply Qclt_alt; vm_compute; reflexivity. Qed.

(** ** The pricer's [initialize] *)

Section PricerFacts.
Context {L : Library} {I H O : Type} {D : Diagnostics O}.
Variable observation : Coupon.t I → H → Date → result O.

Local Abbreviation observe := (Described.observe observation).
Local Abbreviation diagnostics := (Described.diagnostics observation).
Local Abbreviation sum_of_probabilities := (Described.sum_of_probabilities observation).
Local Abbreviation initialize := (Pricer.initialize observation).

(** The loop of [initialize] touches nothing but the diagnostics, and both
    they and the outcome are those of [observe]. *)
Lemma loop_observe (c : Coupon.t I) ds acc (p : Pricer.t H) :
  foreach ds acc
    (λ daysInRange d,
       let date_s := iso_date d in
       this ← get;
       o ← lift (observation c (Pricer.market_ this) d);
       modify (Pricer.store_observation date_s o);;
       mret (daysInRange + probability o)) p
  = (Pricer.mk (Pricer.market_ p) (Pricer.rangeAccrual_ p)
       (observe c (Pricer.market_ p) ds acc (Pricer.additionalResults_ p)).1,
     (observe c (Pricer.market_ p) ds acc (Pricer.additionalResults_ p)).2).
Proof.
  revert acc p. induction ds as [|d ds IH]; intros acc [mkt ra m]; simpl.
  - reflexivity.
  - unfold mbind at 1, M_bind at 1. unfold mbind at 1, M_bind at 1.
    unfold get at 1. cbn [Pricer.market_].
    unfold mbind at 1, M_bind at 1. unfold lift at 1.
    destruct (observation c mkt d) as [o| |]; simpl; try reflexivity.
    rewrite IH. reflexivity.
Qed.

Lemma initialize_observe (c : Coupon.t I) (p : Pricer.t H) :
  let ds := dates (Coupon.observationsSchedule c) in
  initialize c p =
    match observe c (Pricer.market_ p) ds 0 ∅ with
    | (m, Ok daysInRange) =>
        (Pricer.mk (Pricer.market_ p) (daysInRange / of_size (length ds))
           (<["observationDays" := of_size (length ds)]>
              (<["daysInRange" := daysInRange]> m)),
         Ok tt)
    | (m, Throw msg) =>
        (Pricer.mk (Pricer.market_ p) (Pricer.rangeAccrual_ p) m, Throw msg)
    | (m, Undefined) =>
        (Pricer.mk (Pricer.market_ p) (Pricer.rangeAccrual_ p) m, Undefined)
    end.
Proof.
  intros ds. unfold Pricer.initialize. fold ds.
  unfold mbind at 1, M_bind at 1. unfold modify at 1.
  unfold mbind at 1, M_bind at 1. rewrite loop_observe.
  cbn [Pricer.market_ Pricer.set_additionalResults Pricer.rangeAccrual_
       Pricer.additionalResults_].
  destruct (observe c (Pricer.market_ p) ds 0 ∅) as [m [s| |]]; reflexivity.
Qed.

Lemma observe_ok (c : Coupon.t I) market ds acc m :
  Forall (λ d, is_Ok (observation c market d)) ds →
  observe c market ds acc m
  = (diagnostics c market ds m, Ok (acc + sum_of_probabilities c market ds)).
Proof.
  intros Hok. revert acc m.
  induction Hok as [|d ds Hd _ IH]; intros acc m; simpl.
  - f_equal. f_equal. ring.
  - unfold Described.probability_on.
    destruct (observation c market d) as [o| |]; try done.
    rewrite IH. f_equal. f_equal. ring.
Qed.

Lemma observe_throw (c : Coupon.t I) market pre d post acc m msg :
  Forall (λ d, is_Ok (observation c market d)) pre →
  observation c market d = Throw msg →
  observe c market (pre ++ d :: post) acc m
  = (diagnostics c market pre m, Throw msg).
Proof.
  intros Hok Hd. revert acc m.
  induction Hok as [|d' pre Hd' _ IH]; intros acc m; simpl.
  - by rewrite Hd.
  - destruct (observation c market d') as [o| |]; [apply IH | done | done].
Qed.

(** [initialize] never touches the market handles. *)
Lemma initialize_market (c : Coupon.t I) (p : Pricer.t H) :
  Pricer.market_ (initialize c p).1 = Pricer.market_ p.
Proof.
  rewrite initialize_observe.
  by destruct (observe _ _ _ _ _) as [m [s| |]].
Qed.

(** What [initialize] leaves and returns depends on the pricer it starts from
    only through the market handles and, when it fails, through the fraction
    it then leaves alone. *)
Lemma initialize_from (c : Coupon.t I) (p q : Pricer.t H) :
  Pricer.market_ p = Pricer.market_ q →
  initialize c p
  = (match (initialize c q).2 with
     | Ok _ => (initialize c q).1
     | _ => Pricer.set_rangeAccrual (Pricer.rangeAccrual_ p) (initialize c q).1
     end,
     (initialize c q).2).
Proof.
  intros E. rewrite !initialize_observe. rewrite E.
  by destruct (observe _ _ _ _ _) as [m [s| |]].
Qed.

(** The sum [initialize] divides, the fraction it stores and the two summary
    entries, when the loop body succeeds on every date. *)
Lemma initialize_average (c : Coupon.t I) (p : Pricer.t H) :
  let ds := dates (Coupon.observationsSchedule c) in
  let total := sum_of_probabilities c (Pricer.market_ p) ds in
  Forall (λ d, is_Ok (observation c (Pricer.market_ p) d)) ds →
  (initialize c p).2 = Ok tt
  ∧ Pricer.rangeAccrual (initialize c p).1 = total / of_size (length ds)
  ∧ Pricer.additionalResults (initialize c p).1 !! "daysInRange" = Some total
  ∧ Pricer.additionalResults (initialize c p).1 !! "observationDays"
    = Some (of_size (length ds)).
Proof.
  intros ds total Hok. rewrite initialize_observe. fold ds.
  rewrite observe_ok by done. fold total. rewrite Qcplus_0_l. simpl.
  repeat split.
  - rewrite lookup_insert_ne by done. apply lookup_insert_eq.
  - apply lookup_insert_eq.
Qed.

(** A second [initialize] for the same coupon changes nothing. *)
Lemma initialize_twice (c : Coupon.t I) (p : Pricer.t H) :
  initialize c (initialize c p).1 = initialize c p.
Proof.
  rewrite (initialize_from c (initialize c p).1 p) by apply initialize_market.
  destruct (initialize c p) as [[mkt r m] [[]| |]]; reflexivity.
Qed.

(** The diagnostics [initialize] leaves are those it would leave in a pricer
    fresh from its constructor. *)
Lemma initialize_replaces (c : Coupon.t I) (p : Pricer.t H) :
  Pricer.additionalResults (initialize c p).1
  = Pricer.additionalResults (initialize c (Pricer.create (Pricer.market_ p))).1
  ∧ (initialize c p).2 = (initialize c (Pricer.create (Pricer.market_ p))).2
  ∧ (is_Ok (initialize c p).2 →
     (initialize c p).1 = (initialize c (Pricer.create (Pricer.market_ p))).1).
Proof.
  rewrite (initialize_from c p (Pricer.create (Pricer.market_ p))) by done.
  destruct (initialize c (Pricer.create _)) as [[mkt r m] [[]| |]]; simpl; done.
Qed.

End PricerFacts.

(** ** The coupon's member functions *)

Lemma in_band_true (lower upper x : Real) :
  Described.in_band lower upper x = true ↔ lower ≤ x ∧ x ≤ upper.
Proof. unfold Described.in_band. apply bool_decide_eq_true. Qed.

Lemma in_band_conjunction (lower upper x : Real) :
  bool_decide (lower ≤ x) && bool_decide (x ≤ upper)
  = Described.in_band lower upper x.
Proof. unfold Described.in_band. by rewrite bool_decide_and. Qed.

Section CouponFacts.
Context {L : Library} {I H O : Type} {Idx : Index I} {D : Diagnostics O}.
Variable observation : Coupon.t I → H → Date → result O.

(** The loop body reads the coupon's constant members only. *)
Hypothesis observation_const : ∀ c b market d,
  observation (Coupon.set_calculated b c) market d = observation c market d.

Local Abbreviation World := (RangeAccrualFixedCoupon.World (I:=I) (H:=H)).
Local Abbreviation performCalculations :=
  (RangeAccrualFixedCoupon.performCalculations observation).
Local Abbreviation calculate := (RangeAccrualFixedCoupon.calculate observation).
Local Abbreviation rangeAccrual := (RangeAccrualFixedCoupon.rangeAccrual observation).
Local Abbreviation amount := (RangeAccrualFixedCoupon.amount observation).
Local Abbreviation initialize := (Pricer.initialize observation).

(** The count-based loop of the fall-back, as in [performCalculations]. *)
Local Abbreviation fallback_loop c ds acc :=
  (foreach (S:=World) ds acc
     (λ inRange d,
        indexObservation ← lift (fixing (Coupon.index_ c) d);
        mret (if bool_decide (Coupon.lowerTrigger c ≤ indexObservation)
                 && bool_decide (indexObservation ≤ Coupon.upperTrigger c)
              then inRange + 1 else inRange))).

Lemma fallback_loop_state c ds acc (w : World) :
  (fallback_loop c ds acc w).1 = w.
Proof.
  revert acc. induction ds as [|d ds IH]; intros acc; simpl; [done|].
  unfold mbind at 1, M_bind at 1. unfold mbind at 1, M_bind at 1.
  unfold lift at 1.
  destruct (fixing (Coupon.index_ c) d) as [x| |]; simpl; [apply IH | done | done].
Qed.

Lemma fallback_loop_ok c ds acc (w : World) :
  Forall (Described.has_fixing c) ds →
  (fallback_loop c ds acc w).2
  = Ok (acc + of_size (length (List.filter (Described.fixing_in_band c) ds))).
Proof.
  intros Hok. revert acc.
  induction Hok as [|d ds Hd _ IH]; intros acc; simpl.
  - rewrite of_size_0. f_equal. ring.
  - unfold mbind at 1, M_bind at 1. unfold mbind at 1, M_bind at 1.
    unfold lift at 1. unfold Described.fixing_in_band at 1.
    unfold Described.has_fixing in Hd.
    destruct (fixing (Coupon.index_ c) d) as [x| |]; try done. simpl.
    rewrite IH. rewrite in_band_conjunction.
    destruct (Described.in_band _ _ x); simpl.
    + rewrite of_size_S. f_equal. ring.
    + reflexivity.
Qed.

Lemma fallback_loop_throw c pre d post acc msg (w : World) :
  Forall (Described.has_fixing c) pre →
  fixing (Coupon.index_ c) d = Throw msg →
  fallback_loop c (pre ++ d :: post) acc w = (w, Throw msg).
Proof.
  intros Hok Hd. revert acc.
  induction Hok as [|d' pre Hd' _ IH]; intros acc; simpl.
  - unfold mbind at 1, M_bind at 1. unfold mbind at 1, M_bind at 1.
    unfold lift at 1. by rewrite Hd.
  - unfold mbind at 1, M_bind at 1. unfold mbind at 1, M_bind at 1.
    unfold lift at 1. unfold Described.has_fixing in Hd'.
    destruct (fixing (Coupon.index_ c) d') as [x| |]; try done. simpl.
    apply IH.
Qed.

(** Without a pricer, [performCalculations] writes the coupon's fraction and
    nothing else, and writes nothing when the loop is abandoned. *)
Lemma performCalculations_fallback (c : Coupon.t I) pricers :
  Coupon.pricer_ c = None →
  let n := of_size (length (dates (Coupon.observationsSchedule c))) in
  performCalculations (c, pricers) =
    match (fallback_loop c (dates (Coupon.observationsSchedule c)) 0 (c, pricers)).2 with
    | Ok inRange => ((Coupon.set_rangeAccrual (inRange / n) c, pricers), Ok tt)
    | Throw msg => ((c, pricers), Throw msg)
    | Undefined => ((c, pricers), Undefined)
    end.
Proof.
  intros Hp n. unfold RangeAccrualFixedCoupon.performCalculations.
  unfold mbind at 1, M_bind at 1.
  unfold RangeAccrualFixedCoupon.FixedRateCoupon_performCalculations at 1.
  unfold mret at 1, M_ret at 1.
  unfold mbind at 1, M_bind at 1. unfold get at 1.
  unfold RangeAccrualFixedCoupon.this_. cbn [fst]. rewrite Hp.
  unfold mbind at 1, M_bind at 1.
  pose proof (fallback_loop_state c (dates (Coupon.observationsSchedule c)) 0
                (c, pricers)) as Hs.
  destruct (fallback_loop c _ 0 (c, pricers)) as [w' [x| |]];
    simpl in Hs; subst w'; reflexivity.
Qed.

(** With a pricer, [performCalculations] runs [initialize] on it and copies
    its results; when [initialize] fails the coupon keeps what it had, and
    the store holds the pricer as [initialize] left it. *)
Lemma performCalculations_priced (c : Coupon.t I) pricers pricer_ p :
  Coupon.pricer_ c = Some pricer_ →
  pricers !! pricer_ = Some p →
  performCalculations (c, pricers) =
    match initialize c p with
    | (p', Ok _) =>
        ((Coupon.set_additionalResults (Pricer.additionalResults p')
            (Coupon.set_rangeAccrual (Pricer.rangeAccrual p') c),
          <[pricer_ := p']> pricers), Ok tt)
    | (p', Throw msg) => ((c, <[pricer_ := p']> pricers), Throw msg)
    | (p', Undefined) => ((c, <[pricer_ := p']> pricers), Undefined)
    end.
Proof.
  intros Hp Hl. unfold RangeAccrualFixedCoupon.performCalculations.
  unfold mbind at 1, M_bind at 1.
  unfold RangeAccrualFixedCoupon.FixedRateCoupon_performCalculations at 1.
  unfold mret at 1, M_ret at 1.
  unfold mbind at 1, M_bind at 1. unfold get at 1.
  unfold RangeAccrualFixedCoupon.this_. cbn [fst]. rewrite Hp.
  unfold mbind at 1, M_bind at 1.
  unfold RangeAccrualFixedCoupon.on_pricer at 1. cbn [fst snd]. rewrite Hl.
  destruct (initialize c p) as [p' [[]| |]]; try reflexivity.
  unfold mbind at 1, M_bind at 1.
  unfold RangeAccrualFixedCoupon.on_pricer at 1. cbn [fst snd].
  rewrite lookup_insert_eq. unfold get at 1.
  rewrite insert_insert_eq. reflexivity.
Qed.

(** A pricer address that leads nowhere. *)
Lemma performCalculations_dangling (c : Coupon.t I) pricers pricer_ :
  Coupon.pricer_ c = Some pricer_ →
  pricers !! pricer_ = None →
  performCalculations (c, pricers) = ((c, pricers), Undefined).
Proof.
  intros Hp Hl. unfold RangeAccrualFixedCoupon.performCalculations.
  unfold mbind at 1, M_bind at 1.
  unfold RangeAccrualFixedCoupon.FixedRateCoupon_performCalculations at 1.
  unfold mret at 1, M_ret at 1.
  unfold mbind at 1, M_bind at 1. unfold get at 1.
  unfold RangeAccrualFixedCoupon.this_. cbn [fst]. rewrite Hp.
  unfold mbind at 1, M_bind at 1.
  unfold RangeAccrualFixedCoupon.on_pricer at 1. cbn [fst snd]. by rewrite Hl.
Qed.

Lemma calculate_cached (c : Coupon.t I) pricers :
  Coupon.calculated_ c = true →
  calculate (c, pricers) = ((c, pricers), Ok tt).
Proof.
  intros Hc. unfold RangeAccrualFixedCoupon.calculate.
  unfold mbind at 1, M_bind at 1. unfold get at 1.
  unfold RangeAccrualFixedCoupon.this_. cbn [fst]. by rewrite Hc.
Qed.

Lemma calculate_stale (c : Coupon.t I) pricers :
  Coupon.calculated_ c = false →
  calculate (c, pricers) =
    match performCalculations (Coupon.set_calculated true c, pricers) with
    | (w', Ok _) => (w', Ok tt)
    | (w', Throw msg) => ((Coupon.set_calculated false w'.1, w'.2), Throw msg)
    | (w', Undefined) => (w', Undefined)
    end.
Proof.
  intros Hc. unfold RangeAccrualFixedCoupon.calculate.
  unfold mbind at 1, M_bind at 1. unfold get at 1.
  unfold RangeAccrualFixedCoupon.this_. cbn [fst]. rewrite Hc.
  unfold try_rethrow. unfold mbind at 1, M_bind at 1.
  unfold RangeAccrualFixedCoupon.on_this at 1, modify at 1. cbn [fst snd].
  by destruct (performCalculations _) as [w' [[]| |]].
Qed.

Lemma rangeAccrual_calculate (w : World) :
  rangeAccrual w =
    match calculate w with
    | (w', Ok _) => (w', Ok (Coupon.rangeAccrual_ w'.1))
    | (w', Throw msg) => (w', Throw msg)
    | (w', Undefined) => (w', Undefined)
    end.
Proof.
  unfold RangeAccrualFixedCoupon.rangeAccrual.
  unfold mbind at 1, M_bind at 1.
  by destruct (calculate w) as [w' [[]| |]].
Qed.

Lemma amount_calculate (w : World) :
  amount w =
    match calculate w with
    | (w', Ok _) =>
        (w', Ok (Coupon.rangeAccrual_ w'.1 * FixedRateCoupon_amount (Coupon.base w'.1)))
    | (w', Throw msg) => (w', Throw msg)
    | (w', Undefined) => (w', Undefined)
    end.
Proof.
  unfold RangeAccrualFixedCoupon.amount.
  unfold mbind at 1, M_bind at 1.
  by destruct (calculate w) as [w' [[]| |]].
Qed.

Lemma observe_const c b market ds acc m :
  Described.observe observation (Coupon.set_calculated b c) market ds acc m
  = Described.observe observation c market ds acc m.
Proof.
  revert acc m. induction ds as [|d ds IH]; intros acc m; simpl; [done|].
  rewrite observation_const.
  destruct (observation c market d) as [o| |]; [apply IH | done | done].
Qed.

Lemma initialize_const c b p :
  initialize (Coupon.set_calculated b c) p = initialize c p.
Proof. rewrite !initialize_observe. cbn zeta. by rewrite observe_const. Qed.

(** Whatever [calculate] does to the coupon, it does to the [LazyObject]
    flag and the two [mutable] members. *)
Lemma calculate_members (w : World) :
  ∃ b r m,
    (calculate w).1.1
    = Coupon.set_calculated b
        (Coupon.set_additionalResults m (Coupon.set_rangeAccrual r w.1)).
Proof.
  destruct w as [c pricers]. destruct (Coupon.calculated_ c) eqn:Hc.
  - rewrite calculate_cached by done. simpl.
    exists true, (Coupon.rangeAccrual_ c), (Coupon.additionalResults_ c).
    destruct c; simpl in *; by subst.
  - rewrite calculate_stale by done.
    destruct (Coupon.pricer_ c) as [l|] eqn:Hp.
    + destruct (pricers !! l) as [p|] eqn:Hl.
      * rewrite (performCalculations_priced _ _ l p) by done.
        destruct (initialize _ p) as [p' [[]| |]]; simpl.
        -- by exists true, (Pricer.rangeAccrual p'), (Pricer.additionalResults p').
        -- exists false, (Coupon.rangeAccrual_ c), (Coupon.additionalResults_ c).
           by destruct c.
        -- exists true, (Coupon.rangeAccrual_ c), (Coupon.additionalResults_ c).
           by destruct c.
      * rewrite (performCalculations_dangling _ _ l) by done. simpl.
        exists true, (Coupon.rangeAccrual_ c), (Coupon.additionalResults_ c).
        by destruct c.
    + rewrite performCalculations_fallback by done.
      destruct (fallback_loop _ _ 0 _).2 as [x| |]; simpl.
      * eexists true, _, (Coupon.additionalResults_ c). by destruct c.
      * exists false, (Coupon.rangeAccrual_ c), (Coupon.additionalResults_ c).
        by destruct c.
      * exists true, (Coupon.rangeAccrual_ c), (Coupon.additionalResults_ c).
        by destruct c.
Qed.

Lemma calculate_base (w : World) :
  Coupon.base (calculate w).1.1 = Coupon.base w.1.
Proof. destruct (calculate_members w) as (b & r & m & ->). done. Qed.

Lemma calculate_pricer (w : World) :
  Coupon.pricer_ (calculate w).1.1 = Coupon.pricer_ w.1.
Proof. destruct (calculate_members w) as (b & r & m & ->). done. Qed.

(** [amount] is [rangeAccrual] followed by one multiplication. *)
Lemma amount_rangeAccrual (w : World) :
  let b := Coupon.base w.1 in
  amount w
  = (r ← rangeAccrual;
     mret (r * nominal b * rate b
           * dayCounter b (accrualStartDate b) (accrualEndDate b))) w.
Proof.
  intros b. unfold mbind at 1, M_bind at 1.
  rewrite amount_calculate, rangeAccrual_calculate.
  pose proof (calculate_base w) as Hb.
  destruct (calculate w) as [w' [[]| |]]; try reflexivity.
  simpl in Hb. unfold mret, M_ret. f_equal. f_equal.
  unfold FixedRateCoupon_amount. rewrite Hb. fold b. ring.
Qed.

Lemma setPricer_run pricer (c : Coupon.t I) (pricers : gmap loc (Pricer.t H)) :
  RangeAccrualFixedCoupon.setPricer pricer (c, pricers)
  = ((Coupon.set_calculated false (Coupon.set_pricer pricer c), pricers), Ok tt).
Proof. reflexivity. Qed.

Lemma rangeAccrual_state (w : World) : (rangeAccrual w).1 = (calculate w).1.
Proof. rewrite rangeAccrual_calculate. by destruct (calculate w) as [w' [[]| |]]. Qed.

Lemma amount_state (w : World) : (amount w).1 = (calculate w).1.
Proof. rewrite amount_calculate. by destruct (calculate w) as [w' [[]| |]]. Qed.

(** A stale coupon without a pricer whose fixings are all there. *)
Lemma calculate_fallback_ok (c : Coupon.t I) pricers :
  Coupon.calculated_ c = false →
  Coupon.pricer_ c = None →
  Forall (Described.has_fixing c) (dates (Coupon.observationsSchedule c)) →
  calculate (c, pricers)
  = ((Coupon.set_rangeAccrual
        (of_size (Described.count_in_band c)
         / of_size (length (dates (Coupon.observationsSchedule c))))
        (Coupon.set_calculated true c), pricers), Ok tt).
Proof.
  intros Hc Hp Hfix. rewrite calculate_stale by done.
  rewrite performCalculations_fallback by done. cbn zeta.
  rewrite fallback_loop_ok by done.
  unfold Described.count_in_band. cbn [Coupon.observationsSchedule
    Coupon.observationsSchedule_ Coupon.set_calculated].
  rewrite Qcplus_0_l. reflexivity.
Qed.

Lemma calculate_fallback_cached (w : World) :
  Described.fallback_cached w.1 → Described.fallback_cached (calculate w).1.1.
Proof.
  destruct w as [c pricers]. intros Hinv.
  destruct (Coupon.calculated_ c) eqn:Hc.
  { by rewrite calculate_cached. }
  destruct (Coupon.pricer_ c) as [l|] eqn:Hp.
  { intros _ Hnone _. rewrite calculate_pricer in Hnone. simpl in Hnone. congruence. }
  intros Hc' _ Hfix.
  assert (Forall (Described.has_fixing c) (dates (Coupon.observationsSchedule c)))
    as Hfix'.
  { destruct (calculate_members (c, pricers)) as (b & r & m & E).
    rewrite E in Hfix. exact Hfix. }
  rewrite calculate_fallback_ok by done. reflexivity.
Qed.

Lemma reachable_fallback_cached (w : World) :
  Described.reachable observation w → Described.fallback_cached w.1.
Proof.
  induction 1 as [b s i lower upper pricers | w pricer _ _ | w _ IH | w _ IH
                  | c pricers pricers' _ IH].
  - intros Hc. done.
  - destruct w as [c pricers]. rewrite setPricer_run. intros Hc. done.
  - rewrite rangeAccrual_state. by apply calculate_fallback_cached.
  - rewrite amount_state. by apply calculate_fallback_cached.
  - exact IH.
Qed.

(** The count-based fall-back, for every coupon the member functions can
    produce. *)
Lemma rangeAccrual_fallback (w : World) :
  Described.reachable observation w →
  Coupon.pricer_ w.1 = None →
  Forall (Described.has_fixing w.1) (dates (Coupon.observationsSchedule w.1)) →
  (rangeAccrual w).2
  = Ok (of_size (Described.count_in_band w.1)
        / of_size (length (dates (Coupon.observationsSchedule w.1)))).
Proof.
  intros Hr Hp Hfix. pose proof (reachable_fallback_cached w Hr) as Hinv.
  destruct w as [c pricers]. simpl in *. rewrite rangeAccrual_calculate.
  destruct (Coupon.calculated_ c) eqn:Hc.
  - rewrite calculate_cached by done. simpl. f_equal. by apply Hinv.
  - rewrite calculate_fallback_ok by done. reflexivity.
Qed.

(** A stale coupon with a pricer: [initialize] succeeds. *)
Lemma calculate_priced_ok (c : Coupon.t I) pricers pricer_ p :
  Coupon.calculated_ c = false →
  Coupon.pricer_ c = Some pricer_ →
  pricers !! pricer_ = Some p →
  is_Ok (initialize c p).2 →
  calculate (c, pricers)
  = ((Coupon.set_additionalResults (Pricer.additionalResults (initialize c p).1)
        (Coupon.set_rangeAccrual (Pricer.rangeAccrual (initialize c p).1)
           (Coupon.set_calculated true c)),
      <[pricer_ := (initialize c p).1]> pricers), Ok tt).
Proof.
  intros Hc Hp Hl Hok. rewrite calculate_stale by done.
  rewrite (performCalculations_priced _ _ pricer_ p) by done.
  rewrite initialize_const.
  by destruct (initialize c p) as [p' [[]| |]].
Qed.

(** A stale coupon with a pricer: the loop body throws at [d] after the
    dates [pre] went through. The coupon is as before; the pricer keeps its
    fraction and holds the diagnostics of [pre]. *)
Lemma calculate_priced_throw (c : Coupon.t I) pricers pricer_ p pre d post msg :
  Coupon.calculated_ c = false →
  Coupon.pricer_ c = Some pricer_ →
  pricers !! pricer_ = Some p →
  dates (Coupon.observationsSchedule c) = pre ++ d :: post →
  Forall (λ d, is_Ok (observation c (Pricer.market_ p) d)) pre →
  observation c (Pricer.market_ p) d = Throw msg →
  calculate (c, pricers)
  = ((c, <[pricer_ := Pricer.mk (Pricer.market_ p) (Pricer.rangeAccrual_ p)
                        (Described.diagnostics observation c (Pricer.market_ p) pre ∅)]>
           pricers), Throw msg).
Proof.
  intros Hc Hp Hl Hds Hpre Hd. rewrite calculate_stale by done.
  rewrite (performCalculations_priced _ _ pricer_ p) by done.
  rewrite initialize_const, initialize_observe. cbn zeta.
  rewrite Hds, (observe_throw _ _ _ _ _ _ _ _ msg) by done. simpl.
  f_equal. f_equal. destruct c; simpl in *; by subst.
Qed.

(** A stale coupon without a pricer: the fixing of [d] is missing after the
    dates [pre] went through. Nothing has changed. *)
Lemma calculate_fallback_throw (c : Coupon.t I) pricers pre d post msg :
  Coupon.calculated_ c = false →
  Coupon.pricer_ c = None →
  dates (Coupon.observationsSchedule c) = pre ++ d :: post →
  Forall (Described.has_fixing c) pre →
  fixing (Coupon.index_ c) d = Throw msg →
  calculate (c, pricers) = ((c, pricers), Throw msg).
Proof.
  intros Hc Hp Hds Hpre Hd. rewrite calculate_stale by done.
  rewrite performCalculations_fallback by done. cbn zeta.
  cbn [Coupon.observationsSchedule Coupon.observationsSchedule_
       Coupon.set_calculated].
  unfold Coupon.observationsSchedule in Hds. rewrite Hds.
  rewrite (fallback_loop_throw _ pre d post 0 msg) by done. simpl.
  f_equal. f_equal. destruct c; simpl in *; by subst.
Qed.

(** Without a pricer the diagnostics of the coupon are out of reach of
    [calculate], whatever its outcome. *)
Lemma calculate_fallback_frame (c : Coupon.t I) pricers :
  Coupon.pricer_ c = None →
  Coupon.additionalResults (calculate (c, pricers)).1.1 = Coupon.additionalResults c
  ∧ (calculate (c, pricers)).1.2 = pricers.
Proof.
  intros Hp. destruct (Coupon.calculated_ c) eqn:Hc.
  { by rewrite calculate_cached. }
  rewrite calculate_stale by done.
  rewrite performCalculations_fallback by done.
  by destruct (fallback_loop _ _ 0 _).2 as [x| |].
Qed.

End CouponFacts.

(** ** The three loop bodies *)

Lemma bind_Ok_inv {A B} (r : result A) (f : A → result B) b :
  r ≫= f = Ok b → ∃ a, r = Ok a ∧ f a = Ok b.
Proof. destruct r as [a| |]; simpl; [eauto | done | done]. Qed.


Lemma intrinsic_spread_one (x lower upper : Real) :
  Described.intrinsic_put x upper - Described.intrinsic_put x lower = 1
  ↔ lower ≤ x ∧ x < upper.
Proof.
  unfold Described.intrinsic_put.
  destruct (decide (x < upper)) as [Hu|Hu], (decide (x < lower)) as [Hl|Hl].
  - split.
    + intros E. apply (f_equal this) in E. discriminate.
    + intros [Hle _]. by apply Qcle_not_lt in Hle.
  - split; [|done]. intros _. split; [by apply Qcnot_lt_le | done].
  - split.
    + intros E. apply (f_equal this) in E. discriminate.
    + intros [_ ?]. done.
  - split.
    + intros E. apply (f_equal this) in E. discriminate.
    + intros [_ ?]. done.
Qed.

Lemma in_band_one (x lower upper : Real) :
  (if Described.in_band lower upper x then 1 else 0 : Real) = 1
  ↔ lower ≤ x ∧ x ≤ upper.
Proof.
  rewrite <- in_band_true. destruct (Described.in_band lower upper x).
  - done.
  - split; [|done]. intros E. apply (f_equal this) in E. discriminate.
Qed.



Section LoopBodies.
Context {L : Library}.

Lemma Fx_observation_const (c : Fx.Coupon) b market d :
  Fx.observation (Coupon.set_calculated b c) market d = Fx.observation c market d.
Proof. reflexivity. Qed.

Lemma Cms_observation_const (c : Cms.Coupon) b market d :
  Cms.observation (Coupon.set_calculated b c) market d = Cms.observation c market d.
Proof. reflexivity. Qed.

(** Each loop body asks the index first. *)
Lemma Fx_observation_no_fixing (c : Fx.Coupon) market d msg :
  fixing (Coupon.index_ c) d = Throw msg → Fx.observation c market d = Throw msg.
Proof. intros E. unfold Fx.observation. by rewrite E. Qed.

Lemma Cms_observation_no_fixing (c : Cms.Coupon) market d msg :
  fixing (Coupon.index_ c) d = Throw msg → Cms.observation c market d = Throw msg.
Proof. intros E. unfold Cms.observation. by rewrite E. Qed.

(** Below the floor a boundary is valued at its intrinsic value. *)
Lemma put_intrinsic (c : Cms.Coupon) market d x standardDev strike :
  standardDev < CmsHagan.minStd →
  CmsHagan.put c market d x standardDev strike
  = Ok (Described.intrinsic_put x strike).
Proof. intros Hs. unfold CmsHagan.put. by rewrite decide_True. Qed.

Lemma CmsHagan_intrinsic (c : Cms.Coupon) (market : CmsHagan.Market) d o :
  CmsHagan.observation c market d = Ok o →
  standardDevLow o < CmsHagan.minStd →
  standardDevUpp o < CmsHagan.minStd →
  inRangeProbability o
  = Described.intrinsic_put (indexObservation o) (Coupon.upperTrigger c)
    - Described.intrinsic_put (indexObservation o) (Coupon.lowerTrigger c).
Proof.
  unfold CmsHagan.observation. intros Hobs.
  apply bind_Ok_inv in Hobs as (x & _ & Hobs).
  apply bind_Ok_inv in Hobs as ([sl su] & _ & Hobs).
  apply bind_Ok_inv in Hobs as (putLow & HputLow & Hobs).
  apply bind_Ok_inv in Hobs as (putUpp & HputUpp & Hobs).
  injection Hobs as <-. simpl. intros Hl Hu.
  rewrite put_intrinsic in HputLow, HputUpp by done.
  congruence.
Qed.

Lemma Fx_intrinsic (c : Fx.Coupon) market d o :
  Fx.observation c market d = Ok o →
  standardDevLow o < Fx.minStd →
  inRangeProbability o
  = (if Described.in_band (Coupon.lowerTrigger c) (Coupon.upperTrigger c)
          (indexObservation o) then 1 else 0).
Proof.
  unfold Fx.observation. intros Hobs.
  apply bind_Ok_inv in Hobs as (x & _ & Hobs).
  apply bind_Ok_inv in Hobs as (vol & _ & Hobs).
  apply bind_Ok_inv in Hobs as ([sl su] & _ & Hobs).
  injection Hobs as <-. simpl. intros Hl.
  rewrite decide_True by done. by rewrite in_band_conjunction.
Qed.

Lemma FxSmile_intrinsic (c : Fx.Coupon) market d o :
  FxSmile.observation c market d = Ok o →
  FxSmile.standardDevLow o < FxSmile.minStd →
  FxSmile.standardDevUpp o < FxSmile.minStd →
  FxSmile.inRangeProbability o
  = Described.intrinsic_put (FxSmile.indexObservation o) (Coupon.upperTrigger c)
    - Described.intrinsic_put (FxSmile.indexObservation o) (Coupon.lowerTrigger c).
Proof.
  unfold FxSmile.observation. intros Hobs.
  apply bind_Ok_inv in Hobs as (x & _ & Hobs).
  apply bind_Ok_inv in Hobs as (vol & _ & Hobs).
  apply bind_Ok_inv in Hobs as ([[[skl sl] sku] su] & _ & Hobs).
  destruct (FxSmile.put x _ sl skl _) as [vl pl] eqn:El.
  destruct (FxSmile.put x _ su sku _) as [vu pu] eqn:Eu.
  injection Hobs as <-. simpl. intros Hl Hu.
  unfold FxSmile.put in El, Eu.
  rewrite decide_True in El by done. rewrite decide_True in Eu by done.
  injection El as _ <-. injection Eu as _ <-. reflexivity.
Qed.

Lemma Cms_intrinsic (c : Cms.Coupon) market d o :
  Cms.observation c market d = Ok o →
  standardDevLow o < Cms.minStd →
  inRangeProbability o
  = (if Described.in_band (Coupon.lowerTrigger c) (Coupon.upperTrigger c)
          (indexObservation o) then 1 else 0).
Proof.
  unfold Cms.observation. intros Hobs.
  apply bind_Ok_inv in Hobs as (x & _ & Hobs).
  apply bind_Ok_inv in Hobs as ([sl su] & _ & Hobs).
  injection Hobs as <-. simpl. intros Hl.
  rewrite decide_True by done. by rewrite in_band_conjunction.
Qed.

End LoopBodies.

(** ** The worked market, evaluated *)

(** Fixings 1.248, ..., 1.252 under the band [1.25, 1.251]: two days of five
    count, with or without the pricer, since the observations lie before the
    reference date of the volatility. *)
Example fallback_two_days_of_five :
  (Fx.rangeAccrual (L:=Scenario.library)
     (Scenario.fx_world
        (Scenario.fx_coupon Scenario.five_days (lit 125 100) (lit 1251 1000)))).2
  = Ok (lit 2 5).
Proof. by_evaluation. Qed.

Example priced_two_days_of_five :
  let w := Scenario.fx_world
             (Scenario.bound
                (Scenario.fx_coupon Scenario.five_days (lit 125 100) (lit 1251 1000))) in
  (Fx.rangeAccrual (L:=Scenario.library) w).2 = Ok (lit 2 5)
  ∧ Coupon.additionalResults (Fx.rangeAccrual (L:=Scenario.library) w).1.1
      !! "observationDays" = Some (lit 5 1)
  ∧ Coupon.additionalResults (Fx.rangeAccrual (L:=Scenario.library) w).1.1
      !! "inRangeProbability_42255" = Some (lit 1 1).
Proof. intros w. repeat split; by_evaluation. Qed.

(** 2/5 of 100 at 1% over 30 days on an Actual/360 basis. *)
Example amount_two_days_of_five :
  (Fx.amount (L:=Scenario.library)
     (Scenario.fx_world
        (Scenario.fx_coupon Scenario.five_days (lit 125 100) (lit 1251 1000)))).2
  = Ok (lit 1 30).
Proof. by_evaluation. Qed.

(** * The properties of the specification *)

(** C1. For FX and CMS coupons alike, with or without a pricer and whether the
    call succeeds or not, [amount()] is [rangeAccrual()] followed by
    multiplication with [nominal * rate * dayCountFraction(accrualStart,
    accrualEnd)], the base fixed-coupon amount: same final state, same
    failure if any, and on success the product as value. *)
Theorem amount_is_rangeAccrual_times_base_amount {L : Library} :
  (∀ w : Fx.World,
     let b := Coupon.base w.1 in
     Fx.amount w
     = (r ← Fx.rangeAccrual;
        mret (r * nominal b * rate b
              * dayCounter b (accrualStartDate b) (accrualEndDate b))) w)
  ∧ (∀ w : Cms.World,
     let b := Coupon.base w.1 in
     Cms.amount w
     = (r ← Cms.rangeAccrual;
        mret (r * nominal b * rate b
              * dayCounter b (accrualStartDate b) (accrualEndDate b))) w)
  ∧ (∀ w : CmsHagan.World,
     let b := Coupon.base w.1 in
     CmsHagan.amount w
     = (r ← CmsHagan.rangeAccrual;
        mret (r * nominal b * rate b
              * dayCounter b (accrualStartDate b) (accrualEndDate b))) w).
Proof.
  split; [|split]; intros w.
  - exact (amount_rangeAccrual Fx.observation w).
  - exact (amount_rangeAccrual Cms.observation w).
  - exact (amount_rangeAccrual CmsHagan.observation w).
Qed.

(** C2. For every reachable FX or CMS coupon that has no pricer bound, whose
    observation schedule is not empty and whose index has a fixing for every
    date of it, [rangeAccrual()] returns the number of observation dates
    whose fixing lies in the closed band [lowerTrigger, upperTrigger] divided
    by the number of observation dates. *)
Theorem fallback_rangeAccrual_is_count_over_size {L : Library} :
  (∀ w : Fx.World,
     Described.reachable Fx.observation w →
     Coupon.pricer_ w.1 = None →
     dates (Coupon.observationsSchedule w.1) ≠ [] →
     Forall (Described.has_fixing w.1) (dates (Coupon.observationsSchedule w.1)) →
     (Fx.rangeAccrual w).2
     = Ok (of_size (Described.count_in_band w.1)
           / of_size (length (dates (Coupon.observationsSchedule w.1)))))
  ∧ (∀ w : Cms.World,
     Described.reachable Cms.observation w →
     Coupon.pricer_ w.1 = None →
     dates (Coupon.observationsSchedule w.1) ≠ [] →
     Forall (Described.has_fixing w.1) (dates (Coupon.observationsSchedule w.1)) →
     (Cms.rangeAccrual w).2
     = Ok (of_size (Described.count_in_band w.1)
           / of_size (length (dates (Coupon.observationsSchedule w.1))))).
Proof.
  split; intros w Hr Hp _ Hfix.
  - exact (rangeAccrual_fallback Fx.observation w Hr Hp Hfix).
  - exact (rangeAccrual_fallback Cms.observation w Hr Hp Hfix).
Qed.

Lemma fallback_rangeAccrual_is_count_over_size_witness :
  let w := Scenario.fx_world
             (Scenario.fx_coupon Scenario.five_days (lit 125 100) (lit 1251 1000)) in
  let v := Scenario.cms_world
             (Scenario.cms_coupon Scenario.five_days (lit 1249 100000) (lit 125 10000)) in
  (Fx.rangeAccrual (L:=Scenario.library) w).2
  = Ok (of_size (Described.count_in_band w.1)
        / of_size (length (dates (Coupon.observationsSchedule w.1))))
  ∧ (Cms.rangeAccrual (L:=Scenario.library) v).2
  = Ok (of_size (Described.count_in_band v.1)
        / of_size (length (dates (Coupon.observationsSchedule v.1)))).
Proof.
  intros w v. split.
  - apply (proj1 (fallback_rangeAccrual_is_count_over_size (L:=Scenario.library)) w).
    + apply Described.reach_constructed.
    + reflexivity.
    + vm_compute. discriminate.
    + by_evaluation.
  - apply (proj2 (fallback_rangeAccrual_is_count_over_size (L:=Scenario.library)) v).
    + apply Described.reach_constructed.
    + reflexivity.
    + vm_compute. discriminate.
    + by_evaluation.
Defined.

(** C3. For FX and CMS pricers alike (both revisions of each), when the
    observation schedule is not empty and the loop body succeeds on each of
    its dates, [initialize] returns normally, sets the pricer's fraction to
    the sum of the per-date in-range probabilities divided by the number of
    dates, and leaves that sum under ["daysInRange"] and the number of dates
    under ["observationDays"] in the additional results. *)
Theorem initialize_sets_average_probability {L : Library} :
  (∀ (c : Fx.Coupon) (p : Fx.Pricer),
     let ds := dates (Coupon.observationsSchedule c) in
     let total := Described.sum_of_probabilities Fx.observation c (Pricer.market_ p) ds in
     ds ≠ [] →
     Forall (λ d, is_Ok (Fx.observation c (Pricer.market_ p) d)) ds →
     (Fx.initialize c p).2 = Ok tt
     ∧ Pricer.rangeAccrual (Fx.initialize c p).1 = total / of_size (length ds)
     ∧ Pricer.additionalResults (Fx.initialize c p).1 !! "daysInRange" = Some total
     ∧ Pricer.additionalResults (Fx.initialize c p).1 !! "observationDays"
       = Some (of_size (length ds)))
  ∧ (∀ (c : Fx.Coupon) (p : FxSmile.Pricer),
     let ds := dates (Coupon.observationsSchedule c) in
     let total := Described.sum_of_probabilities FxSmile.observation c (Pricer.market_ p) ds in
     ds ≠ [] →
     Forall (λ d, is_Ok (FxSmile.observation c (Pricer.market_ p) d)) ds →
     (FxSmile.initialize c p).2 = Ok tt
     ∧ Pricer.rangeAccrual (FxSmile.initialize c p).1 = total / of_size (length ds)
     ∧ Pricer.additionalResults (FxSmile.initialize c p).1 !! "daysInRange" = Some total
     ∧ Pricer.additionalResults (FxSmile.initialize c p).1 !! "observationDays"
       = Some (of_size (length ds)))
  ∧ (∀ (c : Cms.Coupon) (p : Cms.Pricer),
     let ds := dates (Coupon.observationsSchedule c) in
     let total := Described.sum_of_probabilities Cms.observation c (Pricer.market_ p) ds in
     ds ≠ [] →
     Forall (λ d, is_Ok (Cms.observation c (Pricer.market_ p) d)) ds →
     (Cms.initialize c p).2 = Ok tt
     ∧ Pricer.rangeAccrual (Cms.initialize c p).1 = total / of_size (length ds)
     ∧ Pricer.additionalResults (Cms.initialize c p).1 !! "daysInRange" = Some total
     ∧ Pricer.additionalResults (Cms.initialize c p).1 !! "observationDays"
       = Some (of_size (length ds)))
  ∧ (∀ (c : Cms.Coupon) (p : CmsHagan.Pricer),
     let ds := dates (Coupon.observationsSchedule c) in
     let total := Described.sum_of_probabilities CmsHagan.observation c (Pricer.market_ p) ds in
     ds ≠ [] →
     Forall (λ d, is_Ok (CmsHagan.observation c (Pricer.market_ p) d)) ds →
     (CmsHagan.initialize c p).2 = Ok tt
     ∧ Pricer.rangeAccrual (CmsHagan.initialize c p).1 = total / of_size (length ds)
     ∧ Pricer.additionalResults (CmsHagan.initialize c p).1 !! "daysInRange" = Some total
     ∧ Pricer.additionalResults (CmsHagan.initialize c p).1 !! "observationDays"
       = Some (of_size (length ds))).
Proof.
  split; [|split; [|split]]; intros c p ds total _ Hok.
  - exact (initialize_average Fx.observation c p Hok).
  - exact (initialize_average FxSmile.observation c p Hok).
  - exact (initialize_average Cms.observation c p Hok).
  - exact (initialize_average CmsHagan.observation c p Hok).
Qed.

Lemma initialize_sets_average_probability_witness :
  let c := Scenario.bound
             (Scenario.fx_coupon Scenario.five_days (lit 125 100) (lit 1251 1000)) in
  let p := Scenario.fx_pricer in
  let ds := dates (Coupon.observationsSchedule c) in
  let total :=
    Described.sum_of_probabilities (Fx.observation (L:=Scenario.library)) c
      (Pricer.market_ p) ds in
  (Fx.initialize (L:=Scenario.library) c p).2 = Ok tt
  ∧ Pricer.rangeAccrual (Fx.initialize (L:=Scenario.library) c p).1
    = total / of_size (length ds)
  ∧ Pricer.additionalResults (Fx.initialize (L:=Scenario.library) c p).1
      !! "daysInRange" = Some total
  ∧ Pricer.additionalResults (Fx.initialize (L:=Scenario.library) c p).1
      !! "observationDays" = Some (of_size (length ds)).
Proof.
  intros c p ds total.
  apply (proj1 (initialize_sets_average_probability (L:=Scenario.library)) c p).
  - vm_compute. discriminate.
  - by_evaluation.
Defined.

(** C4, as the pricers have it. On a date where both boundary standard
    deviations are below [minStd]:
    - the CMS pricer of the replication revision and the FX pricer of the
      revision with smile adjustment record [putUpp - putLow] with each put 1
      when the index observation is strictly below its strike and 0
      otherwise, which is 1 exactly when
      [lowerTrigger <= indexObservation < upperTrigger];
    - the FX pricer of [ql/cashflows/fxrangeaccrualfixed.cpp] and the CMS
      pricer of the Bachelier revision record 1 when
      [lowerTrigger <= indexObservation <= upperTrigger] and 0 otherwise: the
      band is closed at the upper trigger. *)
Theorem intrinsic_in_range_probability {L : Library} :
  (∀ (c : Cms.Coupon) (market : CmsHagan.Market) d o,
     CmsHagan.observation c market d = Ok o →
     standardDevLow o < CmsHagan.minStd →
     standardDevUpp o < CmsHagan.minStd →
     inRangeProbability o
     = Described.intrinsic_put (indexObservation o) (Coupon.upperTrigger c)
       - Described.intrinsic_put (indexObservation o) (Coupon.lowerTrigger c)
     ∧ (inRangeProbability o = 1
        ↔ Coupon.lowerTrigger c ≤ indexObservation o
          ∧ indexObservation o < Coupon.upperTrigger c))
  ∧ (∀ (c : Fx.Coupon) market d o,
     FxSmile.observation c market d = Ok o →
     FxSmile.standardDevLow o < FxSmile.minStd →
     FxSmile.standardDevUpp o < FxSmile.minStd →
     FxSmile.inRangeProbability o
     = Described.intrinsic_put (FxSmile.indexObservation o) (Coupon.upperTrigger c)
       - Described.intrinsic_put (FxSmile.indexObservation o) (Coupon.lowerTrigger c)
     ∧ (FxSmile.inRangeProbability o = 1
        ↔ Coupon.lowerTrigger c ≤ FxSmile.indexObservation o
          ∧ FxSmile.indexObservation o < Coupon.upperTrigger c))
  ∧ (∀ (c : Fx.Coupon) market d o,
     Fx.observation c market d = Ok o →
     standardDevLow o < Fx.minStd →
     standardDevUpp o < Fx.minStd →
     inRangeProbability o
     = (if Described.in_band (Coupon.lowerTrigger c) (Coupon.upperTrigger c)
             (indexObservation o) then 1 else 0)
     ∧ (inRangeProbability o = 1
        ↔ Coupon.lowerTrigger c ≤ indexObservation o
          ∧ indexObservation o ≤ Coupon.upperTrigger c))
  ∧ (∀ (c : Cms.Coupon) market d o,
     Cms.observation c market d = Ok o →
     standardDevLow o < Cms.minStd →
     standardDevUpp o < Cms.minStd →
     inRangeProbability o
     = (if Described.in_band (Coupon.lowerTrigger c) (Coupon.upperTrigger c)
             (indexObservation o) then 1 else 0)
     ∧ (inRangeProbability o = 1
        ↔ Coupon.lowerTrigger c ≤ indexObservation o
          ∧ indexObservation o ≤ Coupon.upperTrigger c)).
Proof.
  split; [|split; [|split]].
  - intros c market d o Hobs Hl Hu.
    pose proof (CmsHagan_intrinsic c market d o Hobs Hl Hu) as E.
    split; [exact E|]. rewrite E. apply intrinsic_spread_one.
  - intros c market d o Hobs Hl Hu.
    pose proof (FxSmile_intrinsic c market d o Hobs Hl Hu) as E.
    split; [exact E|]. rewrite E. apply intrinsic_spread_one.
  - intros c market d o Hobs Hl _.
    pose proof (Fx_intrinsic c market d o Hobs Hl) as E.
    split; [exact E|]. rewrite E. apply in_band_one.
  - intros c market d o Hobs Hl _.
    pose proof (Cms_intrinsic c market d o Hobs Hl) as E.
    split; [exact E|]. rewrite E. apply in_band_one.
Qed.

(** A fixing on the upper trigger, long before the reference date of the
    volatility: the FX pricer at 1.250 under the band [1.249, 1.250] records
    1, the replicating CMS pricer at 3.5% under the band [3.49%, 3.5%]
    records 0. *)
Lemma intrinsic_in_range_probability_witness :
  let c := Scenario.fx_coupon Scenario.five_days (lit 1249 1000) (lit 125 100) in
  let o := Build_Observation (lit 125 100) 0 0 1 in
  let c' := Scenario.cms_coupon Scenario.five_days (lit 349 10000) (lit 35 1000) in
  let o' := Build_Observation (lit 35 1000) 0 0 0 in
  (inRangeProbability o
   = (if Described.in_band (Coupon.lowerTrigger c) (Coupon.upperTrigger c)
           (indexObservation o) then 1 else 0)
   ∧ (inRangeProbability o = 1
      ↔ Coupon.lowerTrigger c ≤ indexObservation o
        ∧ indexObservation o ≤ Coupon.upperTrigger c))
  ∧ (inRangeProbability o'
     = Described.intrinsic_put (indexObservation o') (Coupon.upperTrigger c')
       - Described.intrinsic_put (indexObservation o') (Coupon.lowerTrigger c')
     ∧ (inRangeProbability o' = 1
        ↔ Coupon.lowerTrigger c' ≤ indexObservation o'
          ∧ indexObservation o' < Coupon.upperTrigger c')).
Proof.
  intros c o c' o'. split.
  - apply (proj1 (proj2 (proj2 (intrinsic_in_range_probability (L:=Scenario.library))))
             c (Some Scenario.volTs) (Scenario.jan_1_2015 + 250)%Z o);
      by_evaluation.
  - apply (proj1 (intrinsic_in_range_probability (L:=Scenario.library))
             c' (CmsHagan.Build_Market (Some Scenario.swaptionVolTs) None)
             (Scenario.jan_1_2015 + 250)%Z o');
      by_evaluation.
Defined.

(** C4 as stated fails for the FX pricer: the fixing equals the upper
    trigger, both standard deviations are zero, the pricer records
    probability 1, and the put spread with strict comparisons is 0. *)
Lemma intrinsic_in_range_probability_counterexample :
  let c := Scenario.fx_coupon Scenario.five_days (lit 1249 1000) (lit 125 100) in
  let d := (Scenario.jan_1_2015 + 250)%Z in
  let o := Build_Observation (lit 125 100) 0 0 1 in
  Fx.observation (L:=Scenario.library) c (Some Scenario.volTs) d = Ok o
  ∧ standardDevLow o < Fx.minStd
  ∧ standardDevUpp o < Fx.minStd
  ∧ inRangeProbability o = 1
  ∧ Described.intrinsic_put (indexObservation o) (Coupon.upperTrigger c)
    - Described.intrinsic_put (indexObservation o) (Coupon.lowerTrigger c)
    = 0.
Proof.
  intros c d o. repeat split; by_evaluation.
Qed.

(** ** The constructors *)

Lemma QL_REQUIRE_holds (P : Prop) `{Decision P} message :
  P → QL_REQUIRE (bool_decide P) message = Ok tt.
Proof. intros HP. unfold QL_REQUIRE. by rewrite bool_decide_eq_true_2. Qed.

Lemma QL_REQUIRE_fails (P : Prop) `{Decision P} message :
  ¬ P → QL_REQUIRE (bool_decide P) message = Throw message.
Proof. intros HP. unfold QL_REQUIRE. by rewrite bool_decide_eq_false_2. Qed.

(** The four checks of a constructor body, once the pointers are in hand. *)
Lemma band_checks_pass {A} (lower upper : Real) (a : A) :
  0 < lower → lower < upper →
  (QL_REQUIRE (bool_decide (0 < lower)) "lowerTrigger_ > 0.0 required.";;
   QL_REQUIRE (bool_decide (lower < upper)) "lowerTrigger_ < upperTrigger_ required.";;
   mret a) = Ok a.
Proof.
  intros H0 H1. rewrite (QL_REQUIRE_holds (0 < lower)) by done. simpl.
  by rewrite (QL_REQUIRE_holds (lower < upper)).
Qed.

Lemma band_checks_fail {A} (lower upper : Real) (a : A) :
  lower ≤ 0 ∨ upper ≤ lower →
  is_Throw
    (QL_REQUIRE (bool_decide (0 < lower)) "lowerTrigger_ > 0.0 required.";;
     QL_REQUIRE (bool_decide (lower < upper)) "lowerTrigger_ < upperTrigger_ required.";;
     mret a).
Proof.
  intros Hbad. destruct (decide (0 < lower)) as [H0|H0].
  - rewrite (QL_REQUIRE_holds (0 < lower)) by done. simpl.
    rewrite (QL_REQUIRE_fails (lower < upper)); [done|].
    destruct Hbad as [Hle|Hle]; [by apply Qcle_not_lt in Hle | by apply Qcle_not_lt].
  - by rewrite (QL_REQUIRE_fails (0 < lower)).
Qed.

Lemma order_check_fails {A} (lower upper : Real) (a : A) :
  upper ≤ lower →
  is_Throw
    (QL_REQUIRE (bool_decide (lower < upper)) "lowerTrigger_ < upperTrigger_ required.";;
     mret a).
Proof. intros Hle. rewrite QL_REQUIRE_fails; [done|]. by apply Qcle_not_lt. Qed.

(** C5, as the constructors have it.
    - The constructors that take the observation schedule (FX and CMS) throw
      when the schedule pointer is null, the index pointer is null,
      [lowerTrigger <= 0] or [upperTrigger <= lowerTrigger], and return the
      coupon when none of the four holds.
    - The FX constructor that derives the schedule, given an index and a
      schedule from the generator, throws when [lowerTrigger <= 0] or
      [upperTrigger <= lowerTrigger] and returns the coupon otherwise.
    - The CMS constructor that derives the schedule, given an index and a
      schedule from the generator, throws when
      [upperTrigger <= lowerTrigger] and returns the coupon otherwise,
      whatever the sign of [lowerTrigger]. *)
Theorem constructors_validate_their_arguments {L : Library} :
  (∀ paymentDate nominal rate dayCounter accrualStart accrualEnd
     observationsSchedule fxIndex lower upper,
     let build := Fx.FxRangeAccrualFixedCoupon paymentDate nominal rate dayCounter
                    accrualStart accrualEnd observationsSchedule fxIndex lower upper in
     (observationsSchedule = None ∨ fxIndex = None ∨ lower ≤ 0 ∨ upper ≤ lower →
      is_Throw build)
     ∧ (∀ s i, observationsSchedule = Some s → fxIndex = Some i →
               0 < lower → lower < upper →
               build = Ok (Coupon.init
                             (FixedRateCoupon_create paymentDate nominal rate
                                dayCounter accrualStart accrualEnd)
                             s i lower upper)))
  ∧ (∀ paymentDate nominal rate dayCounter accrualStart accrualEnd
     observationsSchedule cmsIndex lower upper,
     let build := Cms.CmsRangeAccrualFixedCoupon paymentDate nominal rate dayCounter
                    accrualStart accrualEnd observationsSchedule cmsIndex lower upper in
     (observationsSchedule = None ∨ cmsIndex = None ∨ lower ≤ 0 ∨ upper ≤ lower →
      is_Throw build)
     ∧ (∀ s i, observationsSchedule = Some s → cmsIndex = Some i →
               0 < lower → lower < upper →
               build = Ok (Coupon.init
                             (FixedRateCoupon_create paymentDate nominal rate
                                dayCounter accrualStart accrualEnd)
                             s i lower upper)))
  ∧ (∀ paymentDate nominal rate dayCounter accrualStart accrualEnd
     (fxIndex : Fx.FxIndex) s lower upper,
     MakeSchedule accrualStart accrualEnd (fixingCalendar fxIndex) = Ok s →
     let build := Fx.FxRangeAccrualFixedCoupon_daily paymentDate nominal rate
                    dayCounter accrualStart accrualEnd (Some fxIndex) lower upper in
     (lower ≤ 0 ∨ upper ≤ lower → is_Throw build)
     ∧ (0 < lower → lower < upper →
        build = Ok (Coupon.init
                      (FixedRateCoupon_create paymentDate nominal rate
                         dayCounter accrualStart accrualEnd)
                      s fxIndex lower upper)))
  ∧ (∀ paymentDate nominal rate dayCounter accrualStart accrualEnd
     (cmsIndex : Cms.SwapIndex) s lower upper,
     MakeSchedule accrualStart accrualEnd (fixingCalendar cmsIndex) = Ok s →
     let build := Cms.CmsRangeAccrualFixedCoupon_daily paymentDate nominal rate
                    dayCounter accrualStart accrualEnd (Some cmsIndex) lower upper in
     (upper ≤ lower → is_Throw build)
     ∧ (lower < upper →
        build = Ok (Coupon.init
                      (FixedRateCoupon_create paymentDate nominal rate
                         dayCounter accrualStart accrualEnd)
                      s cmsIndex lower upper))).
Proof.
  split; [|split; [|split]].
  - intros pd nom rt dc s e sched idx lower upper build. subst build.
    unfold Fx.FxRangeAccrualFixedCoupon. split.
    + intros Hbad. destruct sched as [sch|]; [|done].
      destruct idx as [i|]; [|done]. simpl.
      apply band_checks_fail. destruct Hbad as [?|[?|?]]; done.
    + intros sch i -> -> H0 H1. simpl. by apply band_checks_pass.
  - intros pd nom rt dc s e sched idx lower upper build. subst build.
    unfold Cms.CmsRangeAccrualFixedCoupon. split.
    + intros Hbad. destruct sched as [sch|]; [|done].
      destruct idx as [i|]; [|done]. simpl.
      apply band_checks_fail. destruct Hbad as [?|[?|?]]; done.
    + intros sch i -> -> H0 H1. simpl. by apply band_checks_pass.
  - intros pd nom rt dc s e idx sch lower upper Hs build. subst build.
    unfold Fx.FxRangeAccrualFixedCoupon_daily. simpl. simpl in Hs.
    rewrite Hs. simpl. split.
    + apply band_checks_fail.
    + apply band_checks_pass.
  - intros pd nom rt dc s e idx sch lower upper Hs build. subst build.
    unfold Cms.CmsRangeAccrualFixedCoupon_daily. simpl. simpl in Hs.
    rewrite Hs. simpl. split.
    + apply order_check_fails.
    + intros H1. by rewrite QL_REQUIRE_holds.
Qed.

(** The test-suite's coupons: September 2015, FX band [1.15, 1.175] and CMS
    band [0.0, 0.025]. *)
Lemma constructors_validate_their_arguments_witness :
  let s := Build_Schedule (seqZ Scenario.aug_31_2015 31) in
  Fx.FxRangeAccrualFixedCoupon_daily (L:=Scenario.library)
    Scenario.sep_30_2015 (lit 100 1) (lit 1 100) Scenario.actual360
    Scenario.aug_31_2015 Scenario.sep_30_2015 (Some Scenario.fxIndex)
    (lit 115 100) (lit 1175 1000)
  = Ok (Scenario.fx_coupon s (lit 115 100) (lit 1175 1000))
  ∧ Cms.CmsRangeAccrualFixedCoupon_daily (L:=Scenario.library)
      Scenario.sep_30_2015 (lit 100 1) (lit 1 100) Scenario.actual360
      Scenario.aug_31_2015 Scenario.sep_30_2015 (Some Scenario.swapIndex)
      0 (lit 25 1000)
    = Ok (Scenario.cms_coupon s 0 (lit 25 1000)).
Proof.
  intros s. split.
  - apply (proj1 (proj2 (proj2 (constructors_validate_their_arguments
                                  (L:=Scenario.library))))).
    + reflexivity.
    + by_evaluation.
    + by_evaluation.
  - apply (proj2 (proj2 (proj2 (constructors_validate_their_arguments
                                  (L:=Scenario.library))))).
    + reflexivity.
    + by_evaluation.
Defined.

(** C5 as stated fails for the CMS constructor that derives its schedule:
    with a lower trigger of zero, as in the test-suite, it returns a
    coupon. *)
Lemma constructors_validate_their_arguments_counterexample :
  (0 : Real) ≤ 0
  ∧ is_Ok (Cms.CmsRangeAccrualFixedCoupon_daily (L:=Scenario.library)
             Scenario.sep_30_2015 (lit 100 1) (lit 1 100) Scenario.actual360
             Scenario.aug_31_2015 Scenario.sep_30_2015 (Some Scenario.swapIndex)
             0 (lit 25 1000)).
Proof. split; by_evaluation. Qed.

(** C6. For FX and CMS pricers alike (both revisions of each) and any state the
    pricer is in: calling [initialize(coupon)] a second time leaves the state
    and the outcome of the first call, fraction and additional results
    included; and the additional results and the outcome of
    [initialize(coupon)] after a call for any other coupon are those of
    [initialize(coupon)] on a pricer fresh from its constructor, whose
    additional results are empty: nothing of the earlier mapping is kept. *)
Theorem initialize_is_idempotent_and_replaces {L : Library} :
  (∀ (c c' : Fx.Coupon) (p : Fx.Pricer),
     Fx.initialize c (Fx.initialize c p).1 = Fx.initialize c p
     ∧ (let q := (Fx.initialize c' p).1 in
        let fresh := Fx.FxRangeAccrualFixedCouponPricer (Pricer.market_ p) in
        Pricer.additionalResults (Fx.initialize c q).1
        = Pricer.additionalResults (Fx.initialize c fresh).1
        ∧ (Fx.initialize c q).2 = (Fx.initialize c fresh).2))
  ∧ (∀ (c c' : Fx.Coupon) (p : FxSmile.Pricer),
     FxSmile.initialize c (FxSmile.initialize c p).1 = FxSmile.initialize c p
     ∧ (let q := (FxSmile.initialize c' p).1 in
        let fresh := FxSmile.FxRangeAccrualFixedCouponPricer (Pricer.market_ p) in
        Pricer.additionalResults (FxSmile.initialize c q).1
        = Pricer.additionalResults (FxSmile.initialize c fresh).1
        ∧ (FxSmile.initialize c q).2 = (FxSmile.initialize c fresh).2))
  ∧ (∀ (c c' : Cms.Coupon) (p : Cms.Pricer),
     Cms.initialize c (Cms.initialize c p).1 = Cms.initialize c p
     ∧ (let q := (Cms.initialize c' p).1 in
        let fresh := Cms.CmsRangeAccrualFixedCouponPricer (Pricer.market_ p) in
        Pricer.additionalResults (Cms.initialize c q).1
        = Pricer.additionalResults (Cms.initialize c fresh).1
        ∧ (Cms.initialize c q).2 = (Cms.initialize c fresh).2))
  ∧ (∀ (c c' : Cms.Coupon) (p : CmsHagan.Pricer),
     CmsHagan.initialize c (CmsHagan.initialize c p).1 = CmsHagan.initialize c p
     ∧ (let q := (CmsHagan.initialize c' p).1 in
        let fresh := Pricer.create (Pricer.market_ p) in
        Pricer.additionalResults (CmsHagan.initialize c q).1
        = Pricer.additionalResults (CmsHagan.initialize c fresh).1
        ∧ (CmsHagan.initialize c q).2 = (CmsHagan.initialize c fresh).2)).
Proof.
  split; [|split; [|split]]; intros c c' p.
  - split; [exact (initialize_twice Fx.observation c p)|].
    cbv zeta. unfold Fx.initialize.
    destruct (initialize_replaces Fx.observation c
                (Pricer.initialize Fx.observation c' p).1) as (Hm & Hr & _).
    rewrite (initialize_market Fx.observation c' p) in Hm, Hr.
    split; [exact Hm | exact Hr].
  - split; [exact (initialize_twice FxSmile.observation c p)|].
    cbv zeta. unfold FxSmile.initialize.
    destruct (initialize_replaces FxSmile.observation c
                (Pricer.initialize FxSmile.observation c' p).1) as (Hm & Hr & _).
    rewrite (initialize_market FxSmile.observation c' p) in Hm, Hr.
    split; [exact Hm | exact Hr].
  - split; [exact (initialize_twice Cms.observation c p)|].
    cbv zeta. unfold Cms.initialize.
    destruct (initialize_replaces Cms.observation c
                (Pricer.initialize Cms.observation c' p).1) as (Hm & Hr & _).
    rewrite (initialize_market Cms.observation c' p) in Hm, Hr.
    split; [exact Hm | exact Hr].
  - split; [exact (initialize_twice CmsHagan.observation c p)|].
    cbv zeta. unfold CmsHagan.initialize.
    destruct (initialize_replaces CmsHagan.observation c
                (Pricer.initialize CmsHagan.observation c' p).1) as (Hm & Hr & _).
    rewrite (initialize_market CmsHagan.observation c' p) in Hm, Hr.
    split; [exact Hm | exact Hr].
Qed.

(** ** A fixing that is missing in the middle of the schedule *)

Section MissingFixing.
Context {L : Library} {I H O : Type} {Idx : Index I} {D : Diagnostics O}.
Variable observation : Coupon.t I → H → Date → result O.
Hypothesis observation_const : ∀ c b market d,
  observation (Coupon.set_calculated b c) market d = observation c market d.
Hypothesis observation_no_fixing : ∀ c market d msg,
  fixing (Coupon.index_ c) d = Throw msg → observation c market d = Throw msg.

Lemma accessors_fallback_throw (c : Coupon.t I) pricers pre d post msg :
  Coupon.calculated_ c = false →
  Coupon.pricer_ c = None →
  dates (Coupon.observationsSchedule c) = pre ++ d :: post →
  Forall (Described.has_fixing c) pre →
  fixing (Coupon.index_ c) d = Throw msg →
  RangeAccrualFixedCoupon.rangeAccrual observation (c, pricers)
  = ((c, pricers), Throw msg)
  ∧ RangeAccrualFixedCoupon.amount observation (c, pricers)
    = ((c, pricers), Throw msg).
Proof.
  intros Hc Hp Hds Hpre Hd.
  rewrite rangeAccrual_calculate, amount_calculate.
  by rewrite (calculate_fallback_throw observation c pricers pre d post msg).
Qed.

Lemma accessors_priced_throw (c : Coupon.t I) pricers l p pre d post msg :
  Coupon.calculated_ c = false →
  Coupon.pricer_ c = Some l →
  pricers !! l = Some p →
  dates (Coupon.observationsSchedule c) = pre ++ d :: post →
  Forall (λ d, is_Ok (observation c (Pricer.market_ p) d)) pre →
  fixing (Coupon.index_ c) d = Throw msg →
  let p' := Pricer.mk (Pricer.market_ p) (Pricer.rangeAccrual_ p)
              (Described.diagnostics observation c (Pricer.market_ p) pre ∅) in
  RangeAccrualFixedCoupon.rangeAccrual observation (c, pricers)
  = ((c, <[l := p']> pricers), Throw msg)
  ∧ RangeAccrualFixedCoupon.amount observation (c, pricers)
    = ((c, <[l := p']> pricers), Throw msg).
Proof.
  intros Hc Hp Hl Hds Hpre Hd p'.
  rewrite rangeAccrual_calculate, amount_calculate.
  rewrite (calculate_priced_throw observation observation_const
             c pricers l p pre d post msg) by auto.
  by fold p'.
Qed.

End MissingFixing.

(** C7, as the code has it. When an FX or CMS coupon is due for
    recalculation and the fixing of an observation date is missing after the
    dates before it went through, [rangeAccrual()] and [amount()] throw that
    failure to their caller and
    - without a pricer, nothing has changed;
    - with a pricer, the coupon is unchanged, fraction and additional results
      included, and so is the pricer's fraction, while the pricer's
      additional results have been cleared and hold the entries of the dates
      before the missing fixing. *)
Theorem missing_fixing_surfaces_and_spares_the_results {L : Library} :
  (∀ (c : Fx.Coupon) pricers pre d post msg,
     Coupon.calculated_ c = false →
     dates (Coupon.observationsSchedule c) = pre ++ d :: post →
     fixing (Coupon.index_ c) d = Throw msg →
     (Coupon.pricer_ c = None →
      Forall (Described.has_fixing c) pre →
      Fx.rangeAccrual (c, pricers) = ((c, pricers), Throw msg)
      ∧ Fx.amount (c, pricers) = ((c, pricers), Throw msg))
     ∧ (∀ l p,
        Coupon.pricer_ c = Some l →
        pricers !! l = Some p →
        Forall (λ d, is_Ok (Fx.observation c (Pricer.market_ p) d)) pre →
        let p' := Pricer.mk (Pricer.market_ p) (Pricer.rangeAccrual_ p)
                    (Described.diagnostics Fx.observation c (Pricer.market_ p) pre ∅) in
        Fx.rangeAccrual (c, pricers) = ((c, <[l := p']> pricers), Throw msg)
        ∧ Fx.amount (c, pricers) = ((c, <[l := p']> pricers), Throw msg)))
  ∧ (∀ (c : Cms.Coupon) pricers pre d post msg,
     Coupon.calculated_ c = false →
     dates (Coupon.observationsSchedule c) = pre ++ d :: post →
     fixing (Coupon.index_ c) d = Throw msg →
     (Coupon.pricer_ c = None →
      Forall (Described.has_fixing c) pre →
      Cms.rangeAccrual (c, pricers) = ((c, pricers), Throw msg)
      ∧ Cms.amount (c, pricers) = ((c, pricers), Throw msg))
     ∧ (∀ l p,
        Coupon.pricer_ c = Some l →
        pricers !! l = Some p →
        Forall (λ d, is_Ok (Cms.observation c (Pricer.market_ p) d)) pre →
        let p' := Pricer.mk (Pricer.market_ p) (Pricer.rangeAccrual_ p)
                    (Described.diagnostics Cms.observation c (Pricer.market_ p) pre ∅) in
        Cms.rangeAccrual (c, pricers) = ((c, <[l := p']> pricers), Throw msg)
        ∧ Cms.amount (c, pricers) = ((c, <[l := p']> pricers), Throw msg))).
Proof.
  split; intros c pricers pre d post msg Hc Hds Hd; split.
  - intros Hp Hpre.
    exact (accessors_fallback_throw Fx.observation c pricers pre d post msg
             Hc Hp Hds Hpre Hd).
  - intros l p Hp Hl Hpre.
    exact (accessors_priced_throw Fx.observation Fx_observation_const
             Fx_observation_no_fixing c pricers l p pre d post msg
             Hc Hp Hl Hds Hpre Hd).
  - intros Hp Hpre.
    exact (accessors_fallback_throw Cms.observation c pricers pre d post msg
             Hc Hp Hds Hpre Hd).
  - intros l p Hp Hl Hpre.
    exact (accessors_priced_throw Cms.observation Cms_observation_const
             Cms_observation_no_fixing c pricers l p pre d post msg
             Hc Hp Hl Hds Hpre Hd).
Qed.

(** A coupon bound to the pricer at address 1, observing 31 August 2015, a
    day of 2016 that has no fixing, and 30 September 2015. *)
Lemma missing_fixing_surfaces_and_spares_the_results_witness :
  let c := Scenario.bound
             (Scenario.fx_coupon Scenario.gap_days (lit 125 100) (lit 1251 1000)) in
  let pricers : gmap loc Fx.Pricer := {[ 1%positive := Scenario.fx_pricer ]} in
  let p' := Pricer.mk (Pricer.market_ Scenario.fx_pricer)
              (Pricer.rangeAccrual_ Scenario.fx_pricer)
              (Described.diagnostics (L:=Scenario.library)
                 (Fx.observation (L:=Scenario.library)) c
                 (Pricer.market_ Scenario.fx_pricer) [Scenario.aug_31_2015] ∅) in
  Fx.rangeAccrual (L:=Scenario.library) (c, pricers)
  = ((c, <[1%positive := p']> pricers), Throw "Missing fixing")
  ∧ Fx.amount (L:=Scenario.library) (c, pricers)
    = ((c, <[1%positive := p']> pricers), Throw "Missing fixing").
Proof.
  intros c pricers p'.
  refine (proj2 (proj1 (missing_fixing_surfaces_and_spares_the_results
                          (L:=Scenario.library))
                   c pricers [Scenario.aug_31_2015] (Scenario.dec_31_2015 + 31)%Z
                   [Scenario.sep_30_2015] "Missing fixing" _ _ _)
            1%positive Scenario.fx_pricer _ _ _).
  - reflexivity.
  - reflexivity.
  - by_evaluation.
  - reflexivity.
  - apply lookup_singleton_eq.
  - by_evaluation.
Defined.

(** C7 as stated fails for the pricer's additional results. The pricer at
    address 1 holds the results of an earlier, successful [initialize]; a
    coupon whose second observation date has no fixing is evaluated; the call
    throws, and afterwards
    the pricer's summary entry is gone while an entry of the first
    observation date has appeared. *)
Lemma missing_fixing_surfaces_and_spares_the_results_counterexample :
  let earlier :=
    (Fx.initialize (L:=Scenario.library)
       (Scenario.fx_coupon Scenario.five_days (lit 125 100) (lit 1251 1000))
       Scenario.fx_pricer).1 in
  let c := Scenario.bound
             (Scenario.fx_coupon Scenario.gap_days (lit 125 100) (lit 1251 1000)) in
  let w : Fx.World := (c, {[ 1%positive := earlier ]}) in
  let before := Pricer.additionalResults <$> w.2 !! 1%positive in
  let after := Pricer.additionalResults
                 <$> (Fx.rangeAccrual (L:=Scenario.library) w).1.2 !! 1%positive in
  (Fx.rangeAccrual (L:=Scenario.library) w).2 = Throw "Missing fixing"
  ∧ is_Some (before ≫= (.!! "daysInRange"))
  ∧ is_Some after
  ∧ after ≫= (.!! "daysInRange") = None
  ∧ is_Some (after ≫= (.!! "indexObservation_42247"))
  ∧ after ≠ before.
Proof.
  intros earlier c w before after. repeat split; by_evaluation.
Qed.

(** ** Dates on or before the reference date *)

Section PastDates.
Context {L : Library}.

Lemma Cms_standardDevs_past (c : Cms.Coupon) (vol : Cms.SwaptionVolatilityStructure) d :
  (d ≤ Cms.referenceDate vol)%Z →
  Cms.standardDevs c (Some vol) d = Ok (0, 0).
Proof.
  intros Hd. unfold Cms.standardDevs. cbn [mbind result_bind deref].
  by rewrite (proj2 (Z.ltb_ge _ _) Hd).
Qed.

Lemma Fx_observation_past (c : Fx.Coupon) (vol : Fx.BlackVolTermStructure) d x :
  (d ≤ Fx.referenceDate vol)%Z →
  fixing (Coupon.index_ c) d = Ok x →
  Fx.observation c (Some vol) d
  = Ok (Build_Observation x 0 0
          (if Described.in_band (Coupon.lowerTrigger c) (Coupon.upperTrigger c) x
           then 1 else 0)).
Proof.
  intros Hd Hx. unfold Fx.observation. rewrite Hx.
  cbn [mbind result_bind deref]. rewrite (proj2 (Z.ltb_ge _ _) Hd).
  cbn [mbind result_bind mret result_ret].
  rewrite decide_True by apply minStd_positive.
  by rewrite in_band_conjunction.
Qed.

Lemma FxSmile_observation_past (c : Fx.Coupon)
    (vol : FxSmile.BlackVolTermStructure) d x :
  (d ≤ FxSmile.referenceDate vol)%Z →
  fixing (Coupon.index_ c) d = Ok x →
  FxSmile.observation c (Some vol) d
  = Ok (FxSmile.Build_Observation x 0 0 0 0 0 0
          (Described.intrinsic_put x (Coupon.upperTrigger c)
           - Described.intrinsic_put x (Coupon.lowerTrigger c))).
Proof.
  intros Hd Hx. unfold FxSmile.observation. rewrite Hx.
  cbn [mbind result_bind deref]. rewrite (proj2 (Z.ltb_ge _ _) Hd).
  cbn [mbind result_bind mret result_ret]. unfold FxSmile.put.
  rewrite !decide_True by exact (proj1 minStd_positive). reflexivity.
Qed.

Lemma Cms_observation_past (c : Cms.Coupon) (vol : Cms.SwaptionVolatilityStructure) d x :
  (d ≤ Cms.referenceDate vol)%Z →
  fixing (Coupon.index_ c) d = Ok x →
  Cms.observation c (Some vol) d
  = Ok (Build_Observation x 0 0
          (if Described.in_band (Coupon.lowerTrigger c) (Coupon.upperTrigger c) x
           then 1 else 0)).
Proof.
  intros Hd Hx. unfold Cms.observation. rewrite Hx.
  cbn [mbind result_bind]. rewrite Cms_standardDevs_past by done.
  cbn [mbind result_bind].
  rewrite decide_True by apply minStd_positive.
  by rewrite in_band_conjunction.
Qed.

Lemma CmsHagan_observation_past (c : Cms.Coupon)
    (vol : Cms.SwaptionVolatilityStructure) hagan d x :
  (d ≤ Cms.referenceDate vol)%Z →
  fixing (Coupon.index_ c) d = Ok x →
  CmsHagan.observation c (CmsHagan.Build_Market (Some vol) hagan) d
  = Ok (Build_Observation x 0 0
          (Described.intrinsic_put x (Coupon.upperTrigger c)
           - Described.intrinsic_put x (Coupon.lowerTrigger c))).
Proof.
  intros Hd Hx. unfold CmsHagan.observation. rewrite Hx.
  cbn [mbind result_bind CmsHagan.swaptionVolatility_].
  rewrite Cms_standardDevs_past by done. cbn [mbind result_bind].
  rewrite !put_intrinsic by exact (proj2 minStd_positive). reflexivity.
Qed.

End PastDates.

(** ** Dates after the reference date *)

Section LiveDates.
Context {L : Library}.

(** Whatever the standard deviations, the loop body returns once the fixing
    and the variances are in hand; below the floor at the lower trigger it
    returns the intrinsic value. *)
Lemma Fx_observation_live (c : Fx.Coupon) (vol : Fx.BlackVolTermStructure)
    d x varianceLow varianceUpp :
  (Fx.referenceDate vol < d)%Z →
  fixing (Coupon.index_ c) d = Ok x →
  Fx.blackVariance vol d (Coupon.lowerTrigger c) true = Ok varianceLow →
  Fx.blackVariance vol d (Coupon.upperTrigger c) true = Ok varianceUpp →
  let standardDevLow := std_sqrt (std_max varianceLow 0) in
  let standardDevUpp := std_sqrt (std_max varianceUpp 0) in
  is_Ok (Fx.observation c (Some vol) d)
  ∧ (standardDevLow < Fx.minStd →
     Fx.observation c (Some vol) d
     = Ok (Build_Observation x standardDevLow standardDevUpp
             (if Described.in_band (Coupon.lowerTrigger c) (Coupon.upperTrigger c) x
              then 1 else 0))).
Proof.
  intros Hd Hx Hl Hu sl su. unfold Fx.observation. rewrite Hx.
  cbn [mbind result_bind deref]. rewrite (proj2 (Z.ltb_lt _ _) Hd).
  rewrite Hl. cbn [mbind result_bind]. rewrite Hu.
  cbn [mbind result_bind mret result_ret]. fold sl su. split; [done|].
  intros Hs. rewrite decide_True by done. by rewrite in_band_conjunction.
Qed.

Lemma Cms_standardDevs_live (c : Cms.Coupon) (vol : Cms.SwaptionVolatilityStructure)
    d varianceLow varianceUpp :
  (Cms.referenceDate vol < d)%Z →
  Cms.blackVariance vol d (Cms.tenor (Coupon.index_ c)) (Coupon.lowerTrigger c) true
  = Ok varianceLow →
  Cms.blackVariance vol d (Cms.tenor (Coupon.index_ c)) (Coupon.upperTrigger c) true
  = Ok varianceUpp →
  Cms.standardDevs c (Some vol) d
  = Ok (std_sqrt (std_max varianceLow 0), std_sqrt (std_max varianceUpp 0)).
Proof.
  intros Hd Hl Hu. unfold Cms.standardDevs. cbn [mbind result_bind deref].
  rewrite (proj2 (Z.ltb_lt _ _) Hd). rewrite Hl. cbn [mbind result_bind].
  by rewrite Hu.
Qed.

Lemma Cms_observation_live (c : Cms.Coupon) (vol : Cms.SwaptionVolatilityStructure)
    d x varianceLow varianceUpp :
  (Cms.referenceDate vol < d)%Z →
  fixing (Coupon.index_ c) d = Ok x →
  Cms.blackVariance vol d (Cms.tenor (Coupon.index_ c)) (Coupon.lowerTrigger c) true
  = Ok varianceLow →
  Cms.blackVariance vol d (Cms.tenor (Coupon.index_ c)) (Coupon.upperTrigger c) true
  = Ok varianceUpp →
  let standardDevLow := std_sqrt (std_max varianceLow 0) in
  let standardDevUpp := std_sqrt (std_max varianceUpp 0) in
  is_Ok (Cms.observation c (Some vol) d)
  ∧ (standardDevLow < Cms.minStd →
     Cms.observation c (Some vol) d
     = Ok (Build_Observation x standardDevLow standardDevUpp
             (if Described.in_band (Coupon.lowerTrigger c) (Coupon.upperTrigger c) x
              then 1 else 0))).
Proof.
  intros Hd Hx Hl Hu sl su. unfold Cms.observation. rewrite Hx.
  cbn [mbind result_bind].
  rewrite (Cms_standardDevs_live c vol d varianceLow varianceUpp) by done.
  cbn [mbind result_bind mret result_ret]. fold sl su. split; [done|].
  intros Hs. rewrite decide_True by done. by rewrite in_band_conjunction.
Qed.

(** One boundary of the FX pricer with smile adjustment, below the floor. *)
Lemma FxSmile_put_intrinsic (x t standardDev skew strike : Real) :
  standardDev < FxSmile.minStd →
  FxSmile.put x t standardDev skew strike = (0, Described.intrinsic_put x strike).
Proof. intros Hs. unfold FxSmile.put. by rewrite decide_True. Qed.

Lemma FxSmile_observation_live (c : Fx.Coupon) (vol : FxSmile.BlackVolTermStructure)
    d x volLow0 volLow1 volUpp0 volUpp1 :
  let strikeLow := Coupon.lowerTrigger c in
  let strikeUpp := Coupon.upperTrigger c in
  (FxSmile.referenceDate vol < d)%Z →
  fixing (Coupon.index_ c) d = Ok x →
  FxSmile.blackVol vol d strikeLow true = Ok volLow0 →
  FxSmile.blackVol vol d ((1 - FxSmile.relSkewShift) * strikeLow) true = Ok volLow1 →
  FxSmile.blackVol vol d strikeUpp true = Ok volUpp0 →
  FxSmile.blackVol vol d ((1 + FxSmile.relSkewShift) * strikeUpp) true = Ok volUpp1 →
  let t := FxSmile.timeFromReference vol d in
  let standardDevLow := std_max volLow0 0 * std_sqrt t in
  let standardDevUpp := std_max volUpp0 0 * std_sqrt t in
  let skewLow := (std_max volLow0 0 - std_max volLow1 0)
                 / (FxSmile.relSkewShift * strikeLow) in
  let skewUpp := (std_max volUpp1 0 - std_max volUpp0 0)
                 / (FxSmile.relSkewShift * strikeUpp) in
  is_Ok (FxSmile.observation c (Some vol) d)
  ∧ (standardDevLow < FxSmile.minStd →
     standardDevUpp < FxSmile.minStd →
     FxSmile.observation c (Some vol) d
     = Ok (FxSmile.Build_Observation x standardDevLow standardDevUpp 0 0
             skewLow skewUpp
             (Described.intrinsic_put x strikeUpp
              - Described.intrinsic_put x strikeLow))).
Proof.
  intros strikeLow strikeUpp Hd Hx Hl0 Hl1 Hu0 Hu1 t sl su kl ku.
  unfold FxSmile.observation. rewrite Hx. cbn [mbind result_bind deref].
  rewrite (proj2 (Z.ltb_lt _ _) Hd). fold strikeLow strikeUpp.
  rewrite Hl0. cbn [mbind result_bind]. rewrite Hl1. cbn [mbind result_bind].
  rewrite Hu0. cbn [mbind result_bind]. rewrite Hu1.
  cbn [mbind result_bind mret result_ret]. fold t. fold sl su kl ku. split.
  - destruct (FxSmile.put x t sl kl strikeLow) as [vl pl].
    by destruct (FxSmile.put x t su ku strikeUpp) as [vu pu].
  - intros Hsl Hsu. by rewrite !FxSmile_put_intrinsic.
Qed.

Lemma CmsHagan_observation_live (c : Cms.Coupon)
    (vol : Cms.SwaptionVolatilityStructure) hagan d x varianceLow varianceUpp :
  (Cms.referenceDate vol < d)%Z →
  fixing (Coupon.index_ c) d = Ok x →
  Cms.blackVariance vol d (Cms.tenor (Coupon.index_ c)) (Coupon.lowerTrigger c) true
  = Ok varianceLow →
  Cms.blackVariance vol d (Cms.tenor (Coupon.index_ c)) (Coupon.upperTrigger c) true
  = Ok varianceUpp →
  let standardDevLow := std_sqrt (std_max varianceLow 0) in
  let standardDevUpp := std_sqrt (std_max varianceUpp 0) in
  (hagan = None →
   is_Ok (CmsHagan.observation c (CmsHagan.Build_Market (Some vol) hagan) d))
  ∧ (standardDevLow < CmsHagan.minStd →
     standardDevUpp < CmsHagan.minStd →
     CmsHagan.observation c (CmsHagan.Build_Market (Some vol) hagan) d
     = Ok (Build_Observation x standardDevLow standardDevUpp
             (Described.intrinsic_put x (Coupon.upperTrigger c)
              - Described.intrinsic_put x (Coupon.lowerTrigger c)))).
Proof.
  intros Hd Hx Hl Hu sl su. unfold CmsHagan.observation. rewrite Hx.
  cbn [mbind result_bind CmsHagan.swaptionVolatility_].
  rewrite (Cms_standardDevs_live c vol d varianceLow varianceUpp) by done.
  cbn [mbind result_bind]. fold sl su. split.
  - intros ->. unfold CmsHagan.put. cbn [CmsHagan.haganPricer_].
    destruct (decide (sl < CmsHagan.minStd)), (decide (su < CmsHagan.minStd));
      done.
  - intros Hsl Hsu. by rewrite !put_intrinsic.
Qed.

End LiveDates.

(** C8. For an observation date on or before the reference date of the
    volatility structure whose fixing is there, the loop body of every pricer
    returns normally with both standard deviations zero and the intrinsic
    value as probability: the closed-band indicator in the FX pricer and the
    Bachelier CMS pricer, the spread of intrinsic puts in the FX pricer with
    smile adjustment and the replicating CMS pricer. The value makes no use
    of the square root, the logarithm, the normal distribution, the
    volatility lookup or the Hagan pricer, whatever they are: the
    option-formula branch is not taken.

    A standard deviation near zero raises no error on a date after the
    reference date either. Once the fixing and the volatility lookups have
    returned,
    - the loop body of the FX pricer and of the Bachelier CMS pricer returns
      normally whatever the two standard deviations are, and with the
      closed-band indicator when the one at the lower trigger is below
      [minStd];
    - the loop body of the FX pricer with smile adjustment returns normally
      whatever the two standard deviations are, each boundary whose standard
      deviation is below [minStd] is valued at its intrinsic put with a vega
      of zero, and with both below [minStd] the probability is the spread of
      the intrinsic puts;
    - in the replicating CMS pricer each boundary whose standard deviation is
      below [minStd] is valued at its intrinsic put without asking the Hagan
      pricer, with both below [minStd] the loop body returns the spread of
      the intrinsic puts, and without a Hagan pricer it returns normally
      whatever the two standard deviations are. *)
Theorem past_dates_take_the_intrinsic_branch {L : Library} :
  ((∀ (c : Fx.Coupon) (vol : Fx.BlackVolTermStructure) d x,
      (d ≤ Fx.referenceDate vol)%Z →
      fixing (Coupon.index_ c) d = Ok x →
      Fx.observation c (Some vol) d
      = Ok (Build_Observation x 0 0
              (if Described.in_band (Coupon.lowerTrigger c) (Coupon.upperTrigger c) x
               then 1 else 0)))
   ∧ (∀ (c : Fx.Coupon) (vol : FxSmile.BlackVolTermStructure) d x,
      (d ≤ FxSmile.referenceDate vol)%Z →
      fixing (Coupon.index_ c) d = Ok x →
      FxSmile.observation c (Some vol) d
      = Ok (FxSmile.Build_Observation x 0 0 0 0 0 0
              (Described.intrinsic_put x (Coupon.upperTrigger c)
               - Described.intrinsic_put x (Coupon.lowerTrigger c))))
   ∧ (∀ (c : Cms.Coupon) (vol : Cms.SwaptionVolatilityStructure) d x,
      (d ≤ Cms.referenceDate vol)%Z →
      fixing (Coupon.index_ c) d = Ok x →
      Cms.observation c (Some vol) d
      = Ok (Build_Observation x 0 0
              (if Described.in_band (Coupon.lowerTrigger c) (Coupon.upperTrigger c) x
               then 1 else 0)))
   ∧ (∀ (c : Cms.Coupon) (vol : Cms.SwaptionVolatilityStructure) hagan d x,
      (d ≤ Cms.referenceDate vol)%Z →
      fixing (Coupon.index_ c) d = Ok x →
      CmsHagan.observation c (CmsHagan.Build_Market (Some vol) hagan) d
      = Ok (Build_Observation x 0 0
              (Described.intrinsic_put x (Coupon.upperTrigger c)
               - Described.intrinsic_put x (Coupon.lowerTrigger c)))))
  ∧ ((∀ (c : Fx.Coupon) (vol : Fx.BlackVolTermStructure) d x varianceLow varianceUpp,
        (Fx.referenceDate vol < d)%Z →
        fixing (Coupon.index_ c) d = Ok x →
        Fx.blackVariance vol d (Coupon.lowerTrigger c) true = Ok varianceLow →
        Fx.blackVariance vol d (Coupon.upperTrigger c) true = Ok varianceUpp →
        let standardDevLow := std_sqrt (std_max varianceLow 0) in
        let standardDevUpp := std_sqrt (std_max varianceUpp 0) in
        is_Ok (Fx.observation c (Some vol) d)
        ∧ (standardDevLow < Fx.minStd →
           Fx.observation c (Some vol) d
           = Ok (Build_Observation x standardDevLow standardDevUpp
                   (if Described.in_band (Coupon.lowerTrigger c)
                         (Coupon.upperTrigger c) x
                    then 1 else 0))))
     ∧ (∀ (c : Cms.Coupon) (vol : Cms.SwaptionVolatilityStructure) d x
          varianceLow varianceUpp,
        (Cms.referenceDate vol < d)%Z →
        fixing (Coupon.index_ c) d = Ok x →
        Cms.blackVariance vol d (Cms.tenor (Coupon.index_ c))
          (Coupon.lowerTrigger c) true = Ok varianceLow →
        Cms.blackVariance vol d (Cms.tenor (Coupon.index_ c))
          (Coupon.upperTrigger c) true = Ok varianceUpp →
        let standardDevLow := std_sqrt (std_max varianceLow 0) in
        let standardDevUpp := std_sqrt (std_max varianceUpp 0) in
        is_Ok (Cms.observation c (Some vol) d)
        ∧ (standardDevLow < Cms.minStd →
           Cms.observation c (Some vol) d
           = Ok (Build_Observation x standardDevLow standardDevUpp
                   (if Described.in_band (Coupon.lowerTrigger c)
                         (Coupon.upperTrigger c) x
                    then 1 else 0))))
     ∧ (∀ x t standardDev skew strike,
        standardDev < FxSmile.minStd →
        FxSmile.put x t standardDev skew strike
        = (0, Described.intrinsic_put x strike))
     ∧ (∀ (c : Fx.Coupon) (vol : FxSmile.BlackVolTermStructure) d x
          volLow0 volLow1 volUpp0 volUpp1,
        let strikeLow := Coupon.lowerTrigger c in
        let strikeUpp := Coupon.upperTrigger c in
        0 < strikeLow →
        strikeLow < strikeUpp →
        (FxSmile.referenceDate vol < d)%Z →
        fixing (Coupon.index_ c) d = Ok x →
        FxSmile.blackVol vol d strikeLow true = Ok volLow0 →
        FxSmile.blackVol vol d ((1 - FxSmile.relSkewShift) * strikeLow) true
        = Ok volLow1 →
        FxSmile.blackVol vol d strikeUpp true = Ok volUpp0 →
        FxSmile.blackVol vol d ((1 + FxSmile.relSkewShift) * strikeUpp) true
        = Ok volUpp1 →
        let t := FxSmile.timeFromReference vol d in
        let standardDevLow := std_max volLow0 0 * std_sqrt t in
        let standardDevUpp := std_max volUpp0 0 * std_sqrt t in
        let skewLow := (std_max volLow0 0 - std_max volLow1 0)
                       / (FxSmile.relSkewShift * strikeLow) in
        let skewUpp := (std_max volUpp1 0 - std_max volUpp0 0)
                       / (FxSmile.relSkewShift * strikeUpp) in
        is_Ok (FxSmile.observation c (Some vol) d)
        ∧ (standardDevLow < FxSmile.minStd →
           standardDevUpp < FxSmile.minStd →
           FxSmile.observation c (Some vol) d
           = Ok (FxSmile.Build_Observation x standardDevLow standardDevUpp 0 0
                   skewLow skewUpp
                   (Described.intrinsic_put x strikeUpp
                    - Described.intrinsic_put x strikeLow))))
     ∧ (∀ (c : Cms.Coupon) market d x standardDev strike,
        standardDev < CmsHagan.minStd →
        CmsHagan.put c market d x standardDev strike
        = Ok (Described.intrinsic_put x strike))
     ∧ (∀ (c : Cms.Coupon) (vol : Cms.SwaptionVolatilityStructure) hagan d x
          varianceLow varianceUpp,
        (Cms.referenceDate vol < d)%Z →
        fixing (Coupon.index_ c) d = Ok x →
        Cms.blackVariance vol d (Cms.tenor (Coupon.index_ c))
          (Coupon.lowerTrigger c) true = Ok varianceLow →
        Cms.blackVariance vol d (Cms.tenor (Coupon.index_ c))
          (Coupon.upperTrigger c) true = Ok varianceUpp →
        let standardDevLow := std_sqrt (std_max varianceLow 0) in
        let standardDevUpp := std_sqrt (std_max varianceUpp 0) in
        (hagan = None →
         is_Ok (CmsHagan.observation c (CmsHagan.Build_Market (Some vol) hagan) d))
        ∧ (standardDevLow < CmsHagan.minStd →
           standardDevUpp < CmsHagan.minStd →
           CmsHagan.observation c (CmsHagan.Build_Market (Some vol) hagan) d
           = Ok (Build_Observation x standardDevLow standardDevUpp
                   (Described.intrinsic_put x (Coupon.upperTrigger c)
                    - Described.intrinsic_put x (Coupon.lowerTrigger c)))))).
Proof.
  split.
  - split; [|split; [|split]].
    + exact Fx_observation_past.
    + exact FxSmile_observation_past.
    + exact Cms_observation_past.
    + exact CmsHagan_observation_past.
  - split; [|split; [|split; [|split; [|split]]]].
    + exact Fx_observation_live.
    + exact Cms_observation_live.
    + exact FxSmile_put_intrinsic.
    + intros c vol d x volLow0 volLow1 volUpp0 volUpp1 strikeLow strikeUpp _ _.
      exact (FxSmile_observation_live c vol d x volLow0 volLow1 volUpp0 volUpp1).
    + exact put_intrinsic.
    + exact CmsHagan_observation_live.
Qed.

(** A date long before the reference date; and a date after it on which the
    variance at the lower trigger 1.249 is zero while that at the upper
    trigger 1.25 is 1. *)
Lemma past_dates_take_the_intrinsic_branch_witness :
  let x := lit 125 100 in
  let d := (Scenario.jan_1_2015 + 250)%Z in
  (let c := Scenario.fx_coupon Scenario.five_days (lit 125 100) (lit 1251 1000) in
   Fx.observation (L:=Scenario.library) c (Some Scenario.volTs) d
   = Ok (Build_Observation x 0 0
           (if Described.in_band (Coupon.lowerTrigger c) (Coupon.upperTrigger c) x
            then 1 else 0)))
  ∧ (let c := Scenario.fx_coupon Scenario.five_days (lit 1249 1000) (lit 125 100) in
     Fx.observation (L:=Live.library) c (Some Live.stepVolTs) d
     = Ok (Build_Observation x
             (std_sqrt (Library:=Live.library) (std_max 0 0))
             (std_sqrt (Library:=Live.library) (std_max 1 0))
             (if Described.in_band (Coupon.lowerTrigger c) (Coupon.upperTrigger c) x
              then 1 else 0))).
Proof.
  intros x d. split.
  - intros c.
    apply (proj1 (proj1 (past_dates_take_the_intrinsic_branch (L:=Scenario.library)))).
    + by_evaluation.
    + by_evaluation.
  - intros c.
    refine (proj2 (proj1 (proj2 (past_dates_take_the_intrinsic_branch
                                   (L:=Live.library)))
                     c Live.stepVolTs d x 0 1 _ _ _ _) _).
    + by_evaluation.
    + by_evaluation.
    + by_evaluation.
    + by_evaluation.
    + by_evaluation.
Defined.

(** C9. A pricer fresh from its constructor answers [rangeAccrual()] with
    [Null<Real>()], the value the constructor stored; the accessor is a plain
    read that cannot fail, and the sentinel is no fraction: it does not lie
    in [0, 1]. *)
Theorem rangeAccrual_before_initialize_is_Null :
  (∀ fxVolatility,
     Pricer.rangeAccrual (Fx.FxRangeAccrualFixedCouponPricer fxVolatility)
     = Null_Real)
  ∧ (∀ swaptionVolatility,
     Pricer.rangeAccrual (Cms.CmsRangeAccrualFixedCouponPricer swaptionVolatility)
     = Null_Real)
  ∧ (∀ swaptionVolatility,
     Pricer.rangeAccrual (CmsHagan.CmsRangeAccrualFixedCouponPricer swaptionVolatility)
     = Null_Real)
  ∧ ¬ (0 ≤ Null_Real ∧ Null_Real ≤ 1).
Proof.
  repeat split; try reflexivity.
  intros [_ Hle]. apply Qcle_not_lt in Hle. apply Hle, Null_Real_large.
Qed.

(** ** Unbinding the pricer *)

Section Unbinding.
Context {L : Library} {I H O : Type} {Idx : Index I} {D : Diagnostics O}.
Variable observation : Coupon.t I → H → Date → result O.
Hypothesis observation_const : ∀ c b market d,
  observation (Coupon.set_calculated b c) market d = observation c market d.

Local Abbreviation rangeAccrual := (RangeAccrualFixedCoupon.rangeAccrual observation).
Local Abbreviation initialize := (Pricer.initialize observation).

Lemma performCalculations_fallback_frame
    (w : RangeAccrualFixedCoupon.World (I:=I) (H:=H)) :
  Coupon.pricer_ w.1 = None →
  Coupon.additionalResults
    (RangeAccrualFixedCoupon.performCalculations observation w).1.1
  = Coupon.additionalResults w.1.
Proof.
  destruct w as [c pricers]. intros Hp.
  rewrite performCalculations_fallback by done.
  by destruct (foreach _ _ _ _).2 as [x| |].
Qed.

Lemma stale_diagnostics (c : Coupon.t I) pricers l p :
  Coupon.calculated_ c = false →
  Coupon.pricer_ c = Some l →
  pricers !! l = Some p →
  is_Ok (initialize c p).2 →
  let w1 := (rangeAccrual (c, pricers)).1 in
  let w2 := (RangeAccrualFixedCoupon.setPricer None w1).1 in
  let w3 := (rangeAccrual w2).1 in
  Coupon.additionalResults w1.1 = Pricer.additionalResults (initialize c p).1
  ∧ Coupon.pricer_ w3.1 = None
  ∧ Coupon.additionalResults w3.1 = Coupon.additionalResults w1.1
  ∧ (Forall (Described.has_fixing c) (dates (Coupon.observationsSchedule c)) →
     Coupon.calculated_ w3.1 = true
     ∧ Coupon.rangeAccrual_ w3.1
       = of_size (Described.count_in_band c)
         / of_size (length (dates (Coupon.observationsSchedule c)))).
Proof.
  intros Hc Hp Hl Hok w1 w2 w3.
  assert (w1 = (Coupon.set_additionalResults (Pricer.additionalResults (initialize c p).1)
                  (Coupon.set_rangeAccrual (Pricer.rangeAccrual (initialize c p).1)
                     (Coupon.set_calculated true c)),
                <[l := (initialize c p).1]> pricers)) as E1.
  { unfold w1. rewrite rangeAccrual_state.
    by rewrite (calculate_priced_ok observation observation_const c pricers l p). }
  assert (w2 = (Coupon.set_calculated false (Coupon.set_pricer None w1.1), w1.2)) as E2.
  { unfold w2. by destruct w1. }
  assert (Coupon.pricer_ w2.1 = None) as Hp2 by by rewrite E2.
  assert (Coupon.calculated_ w2.1 = false) as Hc2 by by rewrite E2.
  split; [by rewrite E1|]. split; [|split].
  - unfold w3. rewrite rangeAccrual_state, calculate_pricer. exact Hp2.
  - unfold w3. rewrite rangeAccrual_state. destruct w2 as [c2 pricers2].
    simpl in Hp2.
    rewrite (proj1 (calculate_fallback_frame observation c2 pricers2 Hp2)).
    injection E2 as -> _. reflexivity.
  - intros Hfix. unfold w3. rewrite rangeAccrual_state.
    destruct w2 as [c2 pricers2]. simpl in Hp2, Hc2.
    injection E2 as E2 _.
    rewrite (calculate_fallback_ok observation c2 pricers2 Hc2 Hp2).
    + rewrite E2, E1. split; reflexivity.
    + rewrite E2, E1. exact Hfix.
Qed.

End Unbinding.

(** C10. Without a pricer, [performCalculations] leaves the coupon's
    additional results as they were, whatever its outcome. In particular,
    when a coupon due for recalculation is evaluated with a pricer whose
    [initialize] succeeds, then unbound with [setPricer] of a null pointer and
    evaluated again, the coupon's additional results are still those of the
    pricer, while its fraction, provided all fixings are there, is the
    count-based one. *)
Theorem fallback_keeps_the_stale_diagnostics {L : Library} :
  (∀ w : Fx.World,
     Coupon.pricer_ w.1 = None →
     Coupon.additionalResults (Fx.performCalculations w).1.1
     = Coupon.additionalResults w.1)
  ∧ (∀ (c : Fx.Coupon) pricers l p,
     Coupon.calculated_ c = false →
     Coupon.pricer_ c = Some l →
     pricers !! l = Some p →
     is_Ok (Fx.initialize c p).2 →
     let w1 := (Fx.rangeAccrual (c, pricers)).1 in
     let w2 := (Fx.setPricer None w1).1 in
     let w3 := (Fx.rangeAccrual w2).1 in
     Coupon.additionalResults w1.1 = Pricer.additionalResults (Fx.initialize c p).1
     ∧ Coupon.pricer_ w3.1 = None
     ∧ Coupon.additionalResults w3.1 = Coupon.additionalResults w1.1
     ∧ (Forall (Described.has_fixing c) (dates (Coupon.observationsSchedule c)) →
        Coupon.calculated_ w3.1 = true
        ∧ Coupon.rangeAccrual_ w3.1
          = of_size (Described.count_in_band c)
            / of_size (length (dates (Coupon.observationsSchedule c)))))
  ∧ (∀ w : Cms.World,
     Coupon.pricer_ w.1 = None →
     Coupon.additionalResults (Cms.performCalculations w).1.1
     = Coupon.additionalResults w.1)
  ∧ (∀ (c : Cms.Coupon) pricers l p,
     Coupon.calculated_ c = false →
     Coupon.pricer_ c = Some l →
     pricers !! l = Some p →
     is_Ok (Cms.initialize c p).2 →
     let w1 := (Cms.rangeAccrual (c, pricers)).1 in
     let w2 := (Cms.setPricer None w1).1 in
     let w3 := (Cms.rangeAccrual w2).1 in
     Coupon.additionalResults w1.1 = Pricer.additionalResults (Cms.initialize c p).1
     ∧ Coupon.pricer_ w3.1 = None
     ∧ Coupon.additionalResults w3.1 = Coupon.additionalResults w1.1
     ∧ (Forall (Described.has_fixing c) (dates (Coupon.observationsSchedule c)) →
        Coupon.calculated_ w3.1 = true
        ∧ Coupon.rangeAccrual_ w3.1
          = of_size (Described.count_in_band c)
            / of_size (length (dates (Coupon.observationsSchedule c))))).
Proof.
  split; [|split; [|split]].
  - exact (performCalculations_fallback_frame Fx.observation).
  - exact (stale_diagnostics Fx.observation Fx_observation_const).
  - exact (performCalculations_fallback_frame Cms.observation).
  - exact (stale_diagnostics Cms.observation Cms_observation_const).
Qed.

(** The coupon of the test-suite's pricing case, bound to the pricer at
    address 1, evaluated, unbound and evaluated again. *)
Lemma fallback_keeps_the_stale_diagnostics_witness :
  let c := Scenario.bound
             (Scenario.fx_coupon Scenario.five_days (lit 125 100) (lit 1251 1000)) in
  let w1 := (Fx.rangeAccrual (L:=Scenario.library) (Scenario.fx_world c)).1 in
  let w2 := (Fx.setPricer None w1).1 in
  let w3 := (Fx.rangeAccrual (L:=Scenario.library) w2).1 in
  Coupon.additionalResults w1.1
  = Pricer.additionalResults
      (Fx.initialize (L:=Scenario.library) c Scenario.fx_pricer).1
  ∧ Coupon.pricer_ w3.1 = None
  ∧ Coupon.additionalResults w3.1 = Coupon.additionalResults w1.1
  ∧ (Forall (Described.has_fixing c) (dates (Coupon.observationsSchedule c)) →
     Coupon.calculated_ w3.1 = true
     ∧ Coupon.rangeAccrual_ w3.1
       = of_size (Described.count_in_band c)
         / of_size (length (dates (Coupon.observationsSchedule c)))).
Proof.
  intros c.
  apply (proj1 (proj2 (fallback_keeps_the_stale_diagnostics (L:=Scenario.library)))
           c (Scenario.fx_world c).2 1%positive Scenario.fx_pricer).
  - reflexivity.
  - reflexivity.
  - apply lookup_singleton_eq.
  - by_evaluation.
Defined.

(** * Further properties of the code *)

(** ** More arithmetic on [Real] *)

Lemma of_size_le (k n : nat) : (k ≤ n)%nat → of_size k ≤ of_size n.
Proof.
  intros Hle. unfold of_size, Qcle. simpl. rewrite !Qred_correct.
  unfold Qle. simpl. lia.
Qed.

Lemma of_size_nonneg (n : nat) : 0 ≤ of_size n.
Proof. rewrite <- of_size_0. apply of_size_le. lia. Qed.

Lemma of_size_positive (n : nat) : n ≠ 0%nat → 0 < of_size n.
Proof.
  intros Hn. unfold of_size, Qclt. simpl. rewrite !Qred_correct.
  unfold Qlt. simpl. lia.
Qed.

Lemma Qclt_nonzero (x : Real) : 0 < x → x ≠ 0.
Proof. intros Hx ->. by apply Qclt_not_eq in Hx. Qed.

Lemma Qcinv_positive (x : Real) : 0 < x → 0 < / x.
Proof.
  intros Hx. destruct (Qclt_le_dec 0 (/ x)) as [|Hle]; [done|]. exfalso.
  pose proof (Qcmult_le_compat_r (/ x) 0 x Hle (Qclt_le_weak _ _ Hx)) as H.
  rewrite Qcmult_inv_l in H by by apply Qclt_nonzero.
  rewrite Qcmult_0_l in H. by apply Qcle_not_lt in H.
Qed.

Lemma Qcdiv_unit_interval (x y : Real) :
  0 ≤ x → x ≤ y → 0 < y → 0 ≤ x / y ∧ x / y ≤ 1.
Proof.
  intros H0 Hle Hy. pose proof (Qclt_le_weak _ _ (Qcinv_positive y Hy)) as Hi.
  unfold Qcdiv. split.
  - pose proof (Qcmult_le_compat_r 0 x (/ y) H0 Hi) as H.
    by rewrite Qcmult_0_l in H.
  - pose proof (Qcmult_le_compat_r x y (/ y) Hle Hi) as H.
    by rewrite Qcmult_inv_r in H by by apply Qclt_nonzero.
Qed.

Lemma Qcdiv_self (x : Real) : 0 < x → x / x = 1.
Proof. intros Hx. unfold Qcdiv. apply Qcmult_inv_r. by apply Qclt_nonzero. Qed.

Lemma Qcdiv_0_l (x : Real) : 0 / x = 0.
Proof. unfold Qcdiv. apply Qcmult_0_l. Qed.

(** ** The count-based fraction *)

Lemma filter_all {A} (f : A → bool) (l : list A) :
  Forall (λ a, f a = true) l → List.filter f l = l.
Proof.
  induction 1 as [|a l Ha _ IH]; simpl; [done|]. by rewrite Ha, IH.
Qed.

Lemma filter_none {A} (f : A → bool) (l : list A) :
  Forall (λ a, f a = false) l → List.filter f l = [].
Proof.
  induction 1 as [|a l Ha _ IH]; simpl; [done|]. by rewrite Ha, IH.
Qed.

Lemma fixing_in_band_has_fixing {I} `{Index I} (c : Coupon.t I) d :
  Described.fixing_in_band c d = true → Described.has_fixing c d.
Proof.
  unfold Described.fixing_in_band, Described.has_fixing.
  by destruct (fixing (Coupon.index_ c) d).
Qed.

Section FallbackFraction.
Context {L : Library} {I H O : Type} {Idx : Index I} {D : Diagnostics O}.
Variable observation : Coupon.t I → H → Date → result O.

Local Abbreviation World := (RangeAccrualFixedCoupon.World (I:=I) (H:=H)).
Local Abbreviation calculate := (RangeAccrualFixedCoupon.calculate observation).
Local Abbreviation rangeAccrual := (RangeAccrualFixedCoupon.rangeAccrual observation).
Local Abbreviation amount := (RangeAccrualFixedCoupon.amount observation).
Local Abbreviation initialize := (Pricer.initialize observation).

Lemma fallback_fraction_bounds (w : World) :
  Described.reachable observation w →
  Coupon.pricer_ w.1 = None →
  dates (Coupon.observationsSchedule w.1) ≠ [] →
  Forall (Described.has_fixing w.1) (dates (Coupon.observationsSchedule w.1)) →
  ∃ r, (rangeAccrual w).2 = Ok r ∧ 0 ≤ r ∧ r ≤ 1.
Proof.
  intros Hr Hp Hne Hfix. eexists. split.
  { exact (rangeAccrual_fallback observation w Hr Hp Hfix). }
  apply Qcdiv_unit_interval.
  - apply of_size_nonneg.
  - apply of_size_le, List.filter_length_le.
  - apply of_size_positive.
    by destruct (dates (Coupon.observationsSchedule w.1)).
Qed.

Lemma fallback_fraction_extremes (w : World) :
  let ds := dates (Coupon.observationsSchedule w.1) in
  Described.reachable observation w →
  Coupon.pricer_ w.1 = None →
  ds ≠ [] →
  (Forall (λ d, Described.fixing_in_band w.1 d = true) ds →
   (rangeAccrual w).2 = Ok 1)
  ∧ (Forall (Described.has_fixing w.1) ds →
     Forall (λ d, Described.fixing_in_band w.1 d = false) ds →
     (rangeAccrual w).2 = Ok 0).
Proof.
  intros ds Hr Hp Hne. split.
  - intros Hin.
    rewrite (rangeAccrual_fallback observation w Hr Hp).
    + unfold Described.count_in_band. fold ds. rewrite filter_all by done.
      rewrite Qcdiv_self; [done|]. apply of_size_positive. by destruct ds.
    + eapply Forall_impl; [exact Hin|]. intros d. apply fixing_in_band_has_fixing.
  - intros Hfix Hout.
    rewrite (rangeAccrual_fallback observation w Hr Hp Hfix).
    unfold Described.count_in_band. fold ds. rewrite filter_none by done.
    simpl. by rewrite of_size_0, Qcdiv_0_l.
Qed.

(** A calculation that succeeds leaves the coupon Calculated. *)
Lemma calculate_ok_calculated (w : World) :
  is_Ok (calculate w).2 → Coupon.calculated_ (calculate w).1.1 = true.
Proof.
  destruct w as [c pricers]. destruct (Coupon.calculated_ c) eqn:Hc.
  { by rewrite calculate_cached. }
  rewrite calculate_stale by done.
  destruct (Coupon.pricer_ c) as [l|] eqn:Hp.
  - destruct (pricers !! l) as [p|] eqn:Hl.
    + rewrite (performCalculations_priced observation _ _ l p) by done.
      by destruct (initialize _ p) as [p' [[]| |]].
    + by rewrite (performCalculations_dangling observation _ _ l).
  - rewrite performCalculations_fallback by done.
    by destruct (foreach _ _ _ _).2 as [x| |].
Qed.

Lemma accessors_cache_hit (w : World) r :
  (rangeAccrual w).2 = Ok r →
  let w' := (rangeAccrual w).1 in
  rangeAccrual w' = (w', Ok r)
  ∧ amount w' = (w', Ok (r * FixedRateCoupon_amount (Coupon.base w.1))).
Proof.
  intros Hr w'. pose proof (calculate_ok_calculated w) as Hc.
  pose proof (calculate_base observation w) as Hb.
  unfold w'. rewrite rangeAccrual_state. rewrite rangeAccrual_calculate in Hr.
  destruct (calculate w) as [[c1 pricers1] [[]| |]]; try done.
  simpl in *. injection Hr as <-.
  rewrite rangeAccrual_calculate, amount_calculate.
  rewrite calculate_cached by by apply Hc. simpl. by rewrite Hb.
Qed.

(** The outcome of the fall-back loop does not depend on the store. *)
Lemma fallback_loop_store (c : Coupon.t I) ds acc (w w' : World) :
  (foreach ds acc
     (λ inRange d,
        indexObservation ← lift (fixing (Coupon.index_ c) d);
        mret (if bool_decide (Coupon.lowerTrigger c ≤ indexObservation)
                 && bool_decide (indexObservation ≤ Coupon.upperTrigger c)
              then inRange + 1 else inRange)) w).2
  = (foreach ds acc
       (λ inRange d,
          indexObservation ← lift (fixing (Coupon.index_ c) d);
          mret (if bool_decide (Coupon.lowerTrigger c ≤ indexObservation)
                   && bool_decide (indexObservation ≤ Coupon.upperTrigger c)
                then inRange + 1 else inRange)) w').2.
Proof.
  revert acc. induction ds as [|d ds IH]; intros acc; simpl; [done|].
  unfold mbind at 1 3, M_bind at 1 3. unfold mbind at 1 2, M_bind at 1 2.
  unfold lift at 1 2.
  destruct (fixing (Coupon.index_ c) d) as [x| |]; simpl; [apply IH | done | done].
Qed.

Lemma calculate_without_pricer (c : Coupon.t I) pricers pricers' :
  Coupon.pricer_ c = None →
  (calculate (c, pricers)).1.2 = pricers
  ∧ (calculate (c, pricers)).1.1 = (calculate (c, pricers')).1.1
  ∧ (calculate (c, pricers)).2 = (calculate (c, pricers')).2.
Proof.
  intros Hp. destruct (Coupon.calculated_ c) eqn:Hc.
  { by rewrite !calculate_cached. }
  rewrite !calculate_stale by done.
  rewrite !performCalculations_fallback by done. cbn zeta.
  rewrite (fallback_loop_store _ _ 0 _ (Coupon.set_calculated true c, pricers')).
  by destruct (foreach _ _ _ _).2 as [x| |].
Qed.

Lemma accessors_without_pricer (c : Coupon.t I) pricers pricers' :
  Coupon.pricer_ c = None →
  ((rangeAccrual (c, pricers)).1.2 = pricers
   ∧ (rangeAccrual (c, pricers)).1.1 = (rangeAccrual (c, pricers')).1.1
   ∧ (rangeAccrual (c, pricers)).2 = (rangeAccrual (c, pricers')).2)
  ∧ ((amount (c, pricers)).1.2 = pricers
     ∧ (amount (c, pricers)).1.1 = (amount (c, pricers')).1.1
     ∧ (amount (c, pricers)).2 = (amount (c, pricers')).2).
Proof.
  intros Hp.
  destruct (calculate_without_pricer c pricers pricers' Hp) as (Hs & Hc & Hr).
  rewrite !rangeAccrual_state, !amount_state.
  rewrite !rangeAccrual_calculate, !amount_calculate.
  destruct (calculate (c, pricers)) as [[c1 ps1] r1].
  destruct (calculate (c, pricers')) as [[c2 ps2] r2].
  simpl in *. subst. by destruct r2 as [[]| |].
Qed.

End FallbackFraction.

(** ** Binding a pricer *)

Section Binding.
Context {L : Library} {I H O : Type} {Idx : Index I} {D : Diagnostics O}.
Variable observation : Coupon.t I → H → Date → result O.
Hypothesis observation_const : ∀ c b market d,
  observation (Coupon.set_calculated b c) market d = observation c market d.
Hypothesis observation_unbound : ∀ c pricer market d,
  observation (Coupon.set_pricer pricer c) market d = observation c market d.

Local Abbreviation rangeAccrual := (RangeAccrualFixedCoupon.rangeAccrual observation).
Local Abbreviation initialize := (Pricer.initialize observation).

Lemma observe_unbound c pricer market ds acc m :
  Described.observe observation (Coupon.set_pricer pricer c) market ds acc m
  = Described.observe observation c market ds acc m.
Proof.
  revert acc m. induction ds as [|d ds IH]; intros acc m; simpl; [done|].
  rewrite observation_unbound.
  destruct (observation c market d) as [o| |]; [apply IH | done | done].
Qed.

Lemma initialize_unbound c pricer p :
  initialize (Coupon.set_pricer pricer c) p = initialize c p.
Proof. rewrite !initialize_observe. cbn zeta. by rewrite observe_unbound. Qed.

Lemma setPricer_takes_effect (c : Coupon.t I) pricers l p :
  pricers !! l = Some p →
  is_Ok (initialize c p).2 →
  let w := (RangeAccrualFixedCoupon.setPricer (Some l) (c, pricers)).1 in
  let p' := (initialize c p).1 in
  (rangeAccrual w).2 = Ok (Pricer.rangeAccrual p')
  ∧ (rangeAccrual w).1.2 = <[l := p']> pricers
  ∧ Coupon.additionalResults (rangeAccrual w).1.1 = Pricer.additionalResults p'.
Proof.
  intros Hl Hok w p'. unfold w. rewrite setPricer_run. cbn [fst].
  rewrite rangeAccrual_calculate.
  rewrite (calculate_priced_ok observation observation_const _ pricers l p);
    rewrite ?(initialize_const observation observation_const), ?initialize_unbound;
    done.
Qed.

End Binding.

Lemma Fx_observation_unbound {L : Library} (c : Fx.Coupon) pricer market d :
  Fx.observation (Coupon.set_pricer pricer c) market d = Fx.observation c market d.
Proof. reflexivity. Qed.

Lemma Cms_observation_unbound {L : Library} (c : Cms.Coupon) pricer market d :
  Cms.observation (Coupon.set_pricer pricer c) market d = Cms.observation c market d.
Proof. reflexivity. Qed.

Lemma CmsHagan_observation_const {L : Library} (c : Cms.Coupon) b market d :
  CmsHagan.observation (Coupon.set_calculated b c) market d
  = CmsHagan.observation c market d.
Proof. reflexivity. Qed.

Lemma CmsHagan_observation_unbound {L : Library} (c : Cms.Coupon) pricer market d :
  CmsHagan.observation (Coupon.set_pricer pricer c) market d
  = CmsHagan.observation c market d.
Proof. reflexivity. Qed.

(** ** Schedules that lie in the past *)

Lemma intrinsic_spread_indicator (x lower upper : Real) :
  lower ≤ upper →
  Described.intrinsic_put x upper - Described.intrinsic_put x lower
  = if bool_decide (lower ≤ x ∧ x < upper) then 1 else 0.
Proof.
  intros Hle. unfold Described.intrinsic_put.
  destruct (decide (x < upper)) as [Hu|Hu], (decide (x < lower)) as [Hl|Hl].
  - rewrite bool_decide_eq_false_2; [ring|].
    intros [Hx _]. by apply Qcle_not_lt in Hx.
  - rewrite bool_decide_eq_true_2; [ring|]. split; [by apply Qcnot_lt_le | done].
  - destruct Hu. by apply (Qclt_le_trans _ lower).
  - rewrite bool_decide_eq_false_2; [ring|]. by intros [_ ?].
Qed.

Section PastSchedules.
Context {L : Library} {I H O : Type} {Idx : Index I} {D : Diagnostics O}.
Variable observation : Coupon.t I → H → Date → result O.

Local Abbreviation initialize := (Pricer.initialize observation).

Lemma sum_of_indicators (c : Coupon.t I) market (f : Date → bool) ds :
  Forall (λ d, ∃ o, observation c market d = Ok o
                    ∧ probability o = if f d then 1 else 0) ds →
  Forall (λ d, is_Ok (observation c market d)) ds
  ∧ Described.sum_of_probabilities observation c market ds
    = of_size (length (List.filter f ds)).
Proof.
  induction 1 as [|d ds (o & Ho & Hp) _ [IH1 IH2]]; simpl.
  - split; [done|]. by rewrite of_size_0.
  - split; [constructor; [by rewrite Ho | done]|].
    unfold Described.probability_on. rewrite Ho, Hp, IH2.
    destruct (f d); simpl.
    + rewrite of_size_S. ring.
    + ring.
Qed.

Lemma initialize_counts (c : Coupon.t I) (p : Pricer.t H) (f : Date → bool) :
  let ds := dates (Coupon.observationsSchedule c) in
  Forall (λ d, ∃ o, observation c (Pricer.market_ p) d = Ok o
                    ∧ probability o = if f d then 1 else 0) ds →
  (initialize c p).2 = Ok tt
  ∧ Pricer.rangeAccrual (initialize c p).1
    = of_size (length (List.filter f ds)) / of_size (length ds).
Proof.
  intros ds Hds. destruct (sum_of_indicators c _ f ds Hds) as [Hok Hsum].
  destruct (initialize_average observation c p Hok) as (H1 & H2 & _).
  split; [exact H1|]. rewrite H2. fold ds. by rewrite Hsum.
Qed.

End PastSchedules.

Section PastSchedulesOfThePricers.
Context {L : Library}.

Lemma Fx_past_indicators (c : Fx.Coupon) vol ds :
  Forall (λ d, (d ≤ Fx.referenceDate vol)%Z) ds →
  Forall (Described.has_fixing c) ds →
  Forall (λ d, ∃ o, Fx.observation c (Some vol) d = Ok o
                    ∧ probability o = if Described.fixing_in_band c d then 1 else 0) ds.
Proof.
  rewrite !Forall_forall. intros Hpast Hfix d Hd.
  specialize (Hpast d Hd). specialize (Hfix d Hd).
  unfold Described.has_fixing in Hfix. unfold Described.fixing_in_band.
  destruct (fixing (Coupon.index_ c) d) as [x| |] eqn:Hx; try done.
  eexists. split; [by apply Fx_observation_past|]. reflexivity.
Qed.

Lemma Cms_past_indicators (c : Cms.Coupon) vol ds :
  Forall (λ d, (d ≤ Cms.referenceDate vol)%Z) ds →
  Forall (Described.has_fixing c) ds →
  Forall (λ d, ∃ o, Cms.observation c (Some vol) d = Ok o
                    ∧ probability o = if Described.fixing_in_band c d then 1 else 0) ds.
Proof.
  rewrite !Forall_forall. intros Hpast Hfix d Hd.
  specialize (Hpast d Hd). specialize (Hfix d Hd).
  unfold Described.has_fixing in Hfix. unfold Described.fixing_in_band.
  destruct (fixing (Coupon.index_ c) d) as [x| |] eqn:Hx; try done.
  eexists. split; [by apply Cms_observation_past|]. reflexivity.
Qed.

Lemma FxSmile_past_indicators (c : Fx.Coupon) vol ds :
  Coupon.lowerTrigger c ≤ Coupon.upperTrigger c →
  Forall (λ d, (d ≤ FxSmile.referenceDate vol)%Z) ds →
  Forall (Described.has_fixing c) ds →
  Forall (λ d, ∃ o, FxSmile.observation c (Some vol) d = Ok o
                    ∧ probability o
                      = if Derived.fixing_in_half_open_band c d then 1 else 0) ds.
Proof.
  intros Hle. rewrite !Forall_forall. intros Hpast Hfix d Hd.
  specialize (Hpast d Hd). specialize (Hfix d Hd).
  unfold Described.has_fixing in Hfix. unfold Derived.fixing_in_half_open_band.
  destruct (fixing (Coupon.index_ c) d) as [x| |] eqn:Hx; try done.
  eexists. split; [by apply FxSmile_observation_past|]. simpl.
  by apply intrinsic_spread_indicator.
Qed.

Lemma CmsHagan_past_indicators (c : Cms.Coupon) vol hagan ds :
  Coupon.lowerTrigger c ≤ Coupon.upperTrigger c →
  Forall (λ d, (d ≤ Cms.referenceDate vol)%Z) ds →
  Forall (Described.has_fixing c) ds →
  Forall (λ d, ∃ o, CmsHagan.observation c (CmsHagan.Build_Market (Some vol) hagan) d
                    = Ok o
                    ∧ probability o
                      = if Derived.fixing_in_half_open_band c d then 1 else 0) ds.
Proof.
  intros Hle. rewrite !Forall_forall. intros Hpast Hfix d Hd.
  specialize (Hpast d Hd). specialize (Hfix d Hd).
  unfold Described.has_fixing in Hfix. unfold Derived.fixing_in_half_open_band.
  destruct (fixing (Coupon.index_ c) d) as [x| |] eqn:Hx; try done.
  eexists. split; [by apply CmsHagan_observation_past|]. simpl.
  by apply intrinsic_spread_indicator.
Qed.

End PastSchedulesOfThePricers.

(** ** The keys of the additional results *)

Lemma per_date_keys_date (s1 s2 k : string) :
  k ∈ Derived.per_date_keys s1 → k ∈ Derived.per_date_keys s2 → s1 = s2.
Proof.
  unfold Derived.per_date_keys. rewrite !elem_of_cons, !elem_of_nil. simpl.
  intros [->|[->|[->|[->|[]]]]] [E|[E|[E|[E|[]]]]]; by simplify_eq.
Qed.

Lemma summary_keys_apart (s : string) :
  ("daysInRange" ∉ Derived.per_date_keys s)
  ∧ ("observationDays" ∉ Derived.per_date_keys s).
Proof.
  unfold Derived.per_date_keys. rewrite !elem_of_cons, !elem_of_nil. simpl.
  split; intros [E|[E|[E|[E|[]]]]]; by simplify_eq.
Qed.

(** One of the four keys of a date belongs to them. *)
Ltac per_date_key := unfold Derived.per_date_keys; rewrite !elem_of_cons; auto 6.

(** What the four assignments of one date do to a key. *)
Lemma entries_other (s : string) (o : Observation) (m : gmap string Real) k :
  k ∉ Derived.per_date_keys s → entries s o m !! k = m !! k.
Proof.
  unfold Derived.per_date_keys. rewrite !elem_of_cons, !elem_of_nil.
  intros Hk. simpl. rewrite !lookup_insert_ne; [done|..]; intros <-; tauto.
Qed.

Lemma entries_written (s : string) (o : Observation) (m : gmap string Real) :
  entries s o m !! ("indexObservation_" +:+ s) = Some (indexObservation o)
  ∧ entries s o m !! ("standardDevLow_" +:+ s) = Some (standardDevLow o)
  ∧ entries s o m !! ("standardDevUpp_" +:+ s) = Some (standardDevUpp o)
  ∧ entries s o m !! ("inRangeProbability_" +:+ s) = Some (inRangeProbability o).
Proof.
  cbn [entries Observation_Diagnostics]. repeat split.
  - rewrite !lookup_insert_ne by (simpl; intros [=]). apply lookup_insert_eq.
  - rewrite !lookup_insert_ne by (simpl; intros [=]). apply lookup_insert_eq.
  - rewrite !lookup_insert_ne by (simpl; intros [=]). apply lookup_insert_eq.
  - apply lookup_insert_eq.
Qed.

Lemma entries_size (s : string) (o : Observation) (m : gmap string Real) :
  (∀ k, k ∈ Derived.per_date_keys s → m !! k = None) →
  size (entries s o m) = (size m + 4)%nat.
Proof.
  intros Hfresh. cbn [entries Observation_Diagnostics].
  rewrite !map_size_insert_None.
  - lia.
  - apply Hfresh. per_date_key.
  - rewrite lookup_insert_ne by (simpl; intros [=]).
    apply Hfresh. per_date_key.
  - rewrite !lookup_insert_ne by (simpl; intros [=]).
    apply Hfresh. per_date_key.
  - rewrite !lookup_insert_ne by (simpl; intros [=]).
    apply Hfresh. per_date_key.
Qed.

Section Keys.
Context {L : Library} {I H : Type}.
Variable observation : Coupon.t I → H → Date → result Observation.

Local Abbreviation diagnostics := (Described.diagnostics observation).
Local Abbreviation initialize := (Pricer.initialize observation).

Lemma diagnostics_cons (c : Coupon.t I) market d ds m :
  diagnostics c market (d :: ds) m
  = diagnostics c market ds
      (match observation c market d with
       | Ok o => entries (iso_date d) o m
       | _ => m
       end).
Proof. reflexivity. Qed.

(** A key that belongs to none of the dates is left alone. *)
Lemma diagnostics_other (c : Coupon.t I) market ds m k :
  (∀ d, d ∈ ds → k ∉ Derived.per_date_keys (iso_date d)) →
  diagnostics c market ds m !! k = m !! k.
Proof.
  revert m. induction ds as [|d ds IH]; intros m Hk; [done|].
  rewrite diagnostics_cons, IH by (intros d' Hd'; apply Hk; by right).
  destruct (observation c market d) as [o| |]; [|done|done].
  apply entries_other, Hk. by left.
Qed.

(** Every key that is there was there before or belongs to a date. *)
Lemma diagnostics_keys (c : Coupon.t I) market ds m k :
  is_Some (diagnostics c market ds m !! k) →
  is_Some (m !! k) ∨ ∃ d, d ∈ ds ∧ k ∈ Derived.per_date_keys (iso_date d).
Proof.
  revert m. induction ds as [|d ds IH]; intros m Hk; [by left|].
  rewrite diagnostics_cons in Hk. apply IH in Hk as [Hk|(d' & Hd' & Hk)].
  - destruct (decide (k ∈ Derived.per_date_keys (iso_date d))) as [Hin|Hout].
    + right. exists d. split; [by left | done].
    + left. destruct (observation c market d) as [o| |]; [|done|done].
      by rewrite entries_other in Hk.
  - right. exists d'. split; [by right | done].
Qed.

Lemma diagnostics_written (c : Coupon.t I) market ds m d o :
  NoDup (iso_date <$> ds) →
  d ∈ ds →
  observation c market d = Ok o →
  diagnostics c market ds m !! ("indexObservation_" +:+ iso_date d)
  = Some (indexObservation o)
  ∧ diagnostics c market ds m !! ("standardDevLow_" +:+ iso_date d)
    = Some (standardDevLow o)
  ∧ diagnostics c market ds m !! ("standardDevUpp_" +:+ iso_date d)
    = Some (standardDevUpp o)
  ∧ diagnostics c market ds m !! ("inRangeProbability_" +:+ iso_date d)
    = Some (inRangeProbability o).
Proof.
  intros Hnd Hd Ho. revert m Hnd Hd.
  induction ds as [|d' ds IH]; intros m Hnd Hd; [by apply elem_of_nil in Hd|].
  rewrite fmap_cons in Hnd. apply NoDup_cons in Hnd as [Hfresh Hnd].
  rewrite !diagnostics_cons. apply elem_of_cons in Hd as [<-|Hd]; [|by apply IH].
  rewrite Ho.
  assert (∀ k, k ∈ Derived.per_date_keys (iso_date d) →
               ∀ d', d' ∈ ds → k ∉ Derived.per_date_keys (iso_date d')) as Hapart.
  { intros k Hk d' Hd' Hk'. apply Hfresh.
    rewrite (per_date_keys_date _ _ k Hk Hk'). by apply list_elem_of_fmap_2. }
  rewrite !diagnostics_other
    by (apply Hapart; per_date_key).
  apply entries_written.
Qed.

Lemma diagnostics_size (c : Coupon.t I) market ds m :
  Forall (λ d, is_Ok (observation c market d)) ds →
  NoDup (iso_date <$> ds) →
  (∀ d k, d ∈ ds → k ∈ Derived.per_date_keys (iso_date d) → m !! k = None) →
  size (diagnostics c market ds m) = (size m + 4 * length ds)%nat.
Proof.
  intros Hok. revert m. induction Hok as [|d ds Hd _ IH]; intros m Hnd Hm.
  { simpl. lia. }
  rewrite fmap_cons in Hnd. apply NoDup_cons in Hnd as [Hfresh Hnd].
  rewrite diagnostics_cons.
  destruct (observation c market d) as [o| |]; [|done|done].
  rewrite IH; [|done|].
  - rewrite entries_size by (intros k Hk; apply (Hm d k); [by left | done]).
    simpl. lia.
  - intros d' k Hd' Hk. rewrite entries_other; [apply (Hm d' k); [by right | done]|].
    intros Hk'. apply Hfresh.
    rewrite (per_date_keys_date _ _ k Hk' Hk). by apply list_elem_of_fmap_2.
Qed.

(** The additional results a successful [initialize] leaves. *)
Lemma initialize_results (c : Coupon.t I) (p : Pricer.t H) :
  let ds := dates (Coupon.observationsSchedule c) in
  Forall (λ d, is_Ok (observation c (Pricer.market_ p) d)) ds →
  Pricer.additionalResults (initialize c p).1
  = <["observationDays" := of_size (length ds)]>
      (<["daysInRange" :=
           Described.sum_of_probabilities observation c (Pricer.market_ p) ds]>
         (diagnostics c (Pricer.market_ p) ds ∅)).
Proof.
  intros ds Hok. rewrite initialize_observe. fold ds.
  rewrite observe_ok by done. rewrite Qcplus_0_l. reflexivity.
Qed.

Lemma initialize_written (c : Coupon.t I) (p : Pricer.t H) d o :
  let ds := dates (Coupon.observationsSchedule c) in
  let results := Pricer.additionalResults (initialize c p).1 in
  Forall (λ d, is_Ok (observation c (Pricer.market_ p) d)) ds →
  NoDup (iso_date <$> ds) →
  d ∈ ds →
  observation c (Pricer.market_ p) d = Ok o →
  results !! ("indexObservation_" +:+ iso_date d) = Some (indexObservation o)
  ∧ results !! ("standardDevLow_" +:+ iso_date d) = Some (standardDevLow o)
  ∧ results !! ("standardDevUpp_" +:+ iso_date d) = Some (standardDevUpp o)
  ∧ results !! ("inRangeProbability_" +:+ iso_date d) = Some (inRangeProbability o).
Proof.
  intros ds results Hok Hnd Hd Ho. unfold results.
  rewrite initialize_results by done. fold ds.
  rewrite !lookup_insert_ne by (simpl; intros [=]).
  by apply diagnostics_written.
Qed.

Lemma initialize_size (c : Coupon.t I) (p : Pricer.t H) :
  let ds := dates (Coupon.observationsSchedule c) in
  Forall (λ d, is_Ok (observation c (Pricer.market_ p) d)) ds →
  NoDup (iso_date <$> ds) →
  size (Pricer.additionalResults (initialize c p).1) = (4 * length ds + 2)%nat.
Proof.
  intros ds Hok Hnd. rewrite initialize_results by done. fold ds.
  assert (∀ k, (∀ s, k ∉ Derived.per_date_keys s) →
               diagnostics c (Pricer.market_ p) ds ∅ !! k = None) as Hsummary.
  { intros k Hk. apply eq_None_not_Some. intros Hin.
    apply diagnostics_keys in Hin as [Hin|(d & _ & Hin)].
    - rewrite lookup_empty in Hin. by destruct Hin.
    - by apply Hk in Hin. }
  rewrite !map_size_insert_None.
  - rewrite diagnostics_size by done. rewrite map_size_empty. lia.
  - apply Hsummary. intros s. apply summary_keys_apart.
  - rewrite lookup_insert_ne by done.
    apply Hsummary. intros s. apply summary_keys_apart.
Qed.

(** No key but the two summaries and those of the schedule's dates. *)
Lemma initialize_keys (c : Coupon.t I) (p : Pricer.t H) k :
  let ds := dates (Coupon.observationsSchedule c) in
  is_Ok (initialize c p).2 →
  is_Some (Pricer.additionalResults (initialize c p).1 !! k) →
  k = "daysInRange" ∨ k = "observationDays"
  ∨ ∃ d, d ∈ ds ∧ k ∈ Derived.per_date_keys (iso_date d).
Proof.
  intros ds. rewrite initialize_observe. fold ds.
  destruct (Described.observe observation c (Pricer.market_ p) ds 0 ∅)
    as [m [s| |]] eqn:E; [|done|done].
  intros _. simpl.
  destruct (decide (k = "observationDays")) as [|Hk1]; [by auto|].
  destruct (decide (k = "daysInRange")) as [|Hk2]; [by auto|].
  rewrite !lookup_insert_ne by done. intros Hin. right. right.
  assert (m = diagnostics c (Pricer.market_ p) ds ∅) as ->.
  { clear Hin. revert E. generalize (0 : Real). generalize (∅ : gmap string Real).
    induction ds as [|d ds' IH]; intros m0 acc E; simpl in E.
    - by injection E as <- _.
    - rewrite diagnostics_cons.
      destruct (observation c (Pricer.market_ p) d) as [o| |]; [|done|done].
      by apply IH in E. }
  apply diagnostics_keys in Hin as [Hin|Hin]; [|done].
  rewrite lookup_empty in Hin. by destruct Hin.
Qed.

End Keys.

(** ** The replicating CMS pricer *)

Lemma spreadWidth_default_positive : 0 < CmsHagan.spreadWidth_default.
Proof. apply Qclt_alt. vm_compute. reflexivity. Qed.

Section Replication.
Context {L : Library}.

(** Without a Hagan pricer a boundary's value cannot fail. *)
Lemma put_without_hagan (c : Cms.Coupon) vol d x standardDev strike :
  CmsHagan.put c (CmsHagan.Build_Market vol None) d x standardDev strike
  = Ok (if decide (standardDev < CmsHagan.minStd)
        then Described.intrinsic_put x strike
        else Phi ((strike - x) / standardDev)).
Proof. unfold CmsHagan.put. simpl. by destruct (decide _). Qed.

Lemma observation_without_hagan (c : Cms.Coupon) vol d :
  (∀ msg, CmsHagan.observation c (CmsHagan.Build_Market vol None) d = Throw msg
          ↔ Cms.observation c vol d = Throw msg)
  ∧ (CmsHagan.observation c (CmsHagan.Build_Market vol None) d = Undefined
     ↔ Cms.observation c vol d = Undefined)
  ∧ (∀ o, Cms.observation c vol d = Ok o →
          Cms.minStd ≤ standardDevLow o →
          Cms.minStd ≤ standardDevUpp o →
          CmsHagan.observation c (CmsHagan.Build_Market vol None) d = Ok o).
Proof.
  unfold CmsHagan.observation, Cms.observation.
  cbn [CmsHagan.swaptionVolatility_].
  destruct (fixing (Coupon.index_ c) d) as [x| |]; [|done|done].
  cbn [mbind result_bind].
  destruct (Cms.standardDevs c vol d) as [[sl su]| |]; [|done|done].
  cbn [mbind result_bind]. rewrite !put_without_hagan. cbn [mbind result_bind].
  split; [done|]. split; [done|].
  intros o [= <-]. cbn [standardDevLow standardDevUpp]. intros Hl Hu.
  apply Qcle_not_lt in Hl, Hu.
  rewrite !decide_False by done. reflexivity.
Qed.

(** With a Hagan pricer bound, a boundary at or above the floor is
    replicated. *)
Lemma put_with_hagan (c : Cms.Coupon) vol hagan d x standardDev strike :
  CmsHagan.minStd ≤ standardDev →
  CmsHagan.put c (CmsHagan.Build_Market vol (Some hagan)) d x standardDev strike
  = CmsHagan.cmsPutOption (Some hagan) (Coupon.index_ c) d (Coupon.date c)
      strike CmsHagan.spreadWidth_default.
Proof.
  intros Hs. apply Qcle_not_lt in Hs. unfold CmsHagan.put.
  by rewrite decide_False.
Qed.

End Replication.

(** A quotient of a difference that lies between zero and its positive
    divisor, and its complement to one. *)
Lemma spread_quotient (low high width : Real) :
  0 < width → low ≤ high → high - low ≤ width →
  (0 ≤ (high - low) / width ∧ (high - low) / width ≤ 1)
  ∧ (0 ≤ 1 - (high - low) / width ∧ 1 - (high - low) / width ≤ 1).
Proof.
  intros Hw Hle Hwidth.
  assert (0 ≤ (high - low) / width ∧ (high - low) / width ≤ 1) as [H0 H1].
  { apply Qcdiv_unit_interval; [|done|done].
    by apply (proj1 (Qcle_minus_iff low high)). }
  split; [done|]. split.
  - by apply (proj1 (Qcle_minus_iff ((high - low) / width) 1)).
  - pose proof (Qcplus_le_compat 1 1 (- ((high - low) / width)) 0
                  (Qcle_refl 1) (Qcopp_le_compat 0 _ H0)) as H.
    by rewrite Qcplus_0_r in H.
Qed.

Lemma cmsPutOption_range (hagan : CmsHagan.HaganPricer) cmsIndex
    exerciseDate paymentDate optionStrike spreadWidth
    rates swapRate calPlus calMins putPlus putMins :
  0 < spreadWidth →
  CmsHagan.priced hagan cmsIndex exerciseDate paymentDate = Ok rates →
  fixing cmsIndex exerciseDate = Ok swapRate →
  CmsHagan.capletRate rates (optionStrike + lit 1 2 * spreadWidth) = Ok calPlus →
  CmsHagan.capletRate rates (optionStrike - lit 1 2 * spreadWidth) = Ok calMins →
  CmsHagan.floorletRate rates (optionStrike + lit 1 2 * spreadWidth) = Ok putPlus →
  CmsHagan.floorletRate rates (optionStrike - lit 1 2 * spreadWidth) = Ok putMins →
  calPlus ≤ calMins →
  calMins - calPlus ≤ spreadWidth →
  putMins ≤ putPlus →
  putPlus - putMins ≤ spreadWidth →
  ∃ putSprd,
    CmsHagan.cmsPutOption (Some hagan) cmsIndex exerciseDate paymentDate
      optionStrike spreadWidth = Ok putSprd
    ∧ 0 ≤ putSprd ∧ putSprd ≤ 1.
Proof.
  intros Hw Hrates Hfix HcP HcM HpP HpM Hcal Hcalw Hput Hputw.
  unfold CmsHagan.cmsPutOption. cbn [QL_REQUIRE_ptr mbind result_bind].
  rewrite (QL_REQUIRE_holds (0 < spreadWidth)) by done.
  cbn [mbind result_bind]. rewrite Hrates. cbn [mbind result_bind].
  rewrite Hfix. cbn [mbind result_bind].
  destruct (decide (swapRate < optionStrike)).
  - rewrite HcP. cbn [mbind result_bind]. rewrite HcM. cbn [mbind result_bind].
    eexists. split; [reflexivity|].
    exact (proj2 (spread_quotient calPlus calMins spreadWidth Hw Hcal Hcalw)).
  - rewrite HpP. cbn [mbind result_bind]. rewrite HpM. cbn [mbind result_bind].
    eexists. split; [reflexivity|].
    exact (proj1 (spread_quotient putMins putPlus spreadWidth Hw Hput Hputw)).
Qed.

(** ** The option formulas *)

Lemma std_max_nonneg (a : Real) : 0 ≤ std_max a 0.
Proof.
  unfold std_max. destruct (decide (a < 0)) as [|Hn]; [done|].
  by apply Qcnot_lt_le.
Qed.

Lemma Qcinv_antitone (a b : Real) : 0 < a → a ≤ b → / b ≤ / a.
Proof.
  intros Ha Hle. assert (0 < b) as Hb by by apply (Qclt_le_trans _ a).
  pose proof (Qcinv_positive a Ha) as Hia. pose proof (Qcinv_positive b Hb) as Hib.
  assert (0 ≤ / a * / b) as Hpos.
  { pose proof (Qcmult_le_compat_r 0 (/ a) (/ b) (Qclt_le_weak _ _ Hia)
                  (Qclt_le_weak _ _ Hib)) as H.
    by rewrite Qcmult_0_l in H. }
  pose proof (Qcmult_le_compat_r a b (/ a * / b) Hle Hpos) as H.
  replace (a * (/ a * / b)) with (/ b) in H
    by (field; split; by apply Qclt_nonzero).
  replace (b * (/ a * / b)) with (/ a) in H
    by (field; split; by apply Qclt_nonzero).
  exact H.
Qed.

Lemma Qcdiv_le_compat_r (x y s : Real) : 0 < s → x ≤ y → x / s ≤ y / s.
Proof.
  intros Hs Hle. unfold Qcdiv. apply Qcmult_le_compat_r; [done|].
  by apply Qclt_le_weak, Qcinv_positive.
Qed.

Lemma Qcminus_le_compat_r (x y z : Real) : x ≤ y → x - z ≤ y - z.
Proof. intros Hle. unfold Qcminus. apply Qcplus_le_compat; [done | apply Qcle_refl]. Qed.

(** A spread of two values of a distribution function, the upper argument
    being the larger. *)
Lemma spread_unit_interval (F : Real → Real) (a b : Real) :
  (∀ x y, x ≤ y → F x ≤ F y) →
  (∀ x, 0 ≤ F x ∧ F x ≤ 1) →
  a ≤ b →
  0 ≤ F b - F a ∧ F b - F a ≤ 1.
Proof.
  intros Hmono Hrange Hab. split.
  - apply (proj1 (Qcle_minus_iff (F a) (F b))), Hmono, Hab.
  - pose proof (Qcplus_le_compat (F b) 1 (- F a) 0 (proj2 (Hrange b))) as H.
    rewrite Qcplus_0_r in H. apply H.
    pose proof (Qcopp_le_compat 0 (F a) (proj1 (Hrange a))) as H'.
    exact H'.
Qed.

Lemma indicator_unit_interval (b : bool) :
  0 ≤ (if b then 1 else 0 : Real) ∧ (if b then 1 else 0 : Real) ≤ 1.
Proof. by destruct b. Qed.

Section Formulas.
Context {L : Library}.

Lemma Cms_flat_probability (c : Cms.Coupon) vol d o :
  (∀ x y, x ≤ y → Phi x ≤ Phi y) →
  (∀ x, 0 ≤ Phi x ∧ Phi x ≤ 1) →
  Coupon.lowerTrigger c ≤ Coupon.upperTrigger c →
  Cms.observation c vol d = Ok o →
  standardDevLow o = standardDevUpp o →
  0 ≤ inRangeProbability o ∧ inRangeProbability o ≤ 1.
Proof.
  intros Hmono Hrange Hband Hobs. unfold Cms.observation in Hobs.
  apply bind_Ok_inv in Hobs as (x & _ & Hobs).
  apply bind_Ok_inv in Hobs as ([sl su] & _ & Hobs).
  injection Hobs as <-. simpl. intros <-.
  destruct (decide (sl < Cms.minStd)) as [|Hs]; [apply indicator_unit_interval|].
  apply spread_unit_interval; [done | done |].
  apply Qcdiv_le_compat_r.
  - apply (Qclt_le_trans _ Cms.minStd); [apply minStd_positive | by apply Qcnot_lt_le].
  - by apply Qcminus_le_compat_r.
Qed.

Lemma Fx_flat_probability (c : Fx.Coupon) vol d o :
  (∀ x y, x ≤ y → Phi x ≤ Phi y) →
  (∀ x, 0 ≤ Phi x ∧ Phi x ≤ 1) →
  (∀ x y, 0 < x → x ≤ y → std_log x ≤ std_log y) →
  0 < Coupon.lowerTrigger c →
  Coupon.lowerTrigger c ≤ Coupon.upperTrigger c →
  Fx.observation c vol d = Ok o →
  0 < indexObservation o →
  standardDevLow o = standardDevUpp o →
  0 ≤ inRangeProbability o ∧ inRangeProbability o ≤ 1.
Proof.
  intros Hmono Hrange Hlog Hlower Hband Hobs. unfold Fx.observation in Hobs.
  apply bind_Ok_inv in Hobs as (x & _ & Hobs).
  apply bind_Ok_inv in Hobs as (v & _ & Hobs).
  apply bind_Ok_inv in Hobs as ([sl su] & _ & Hobs).
  injection Hobs as <-. simpl. intros Hx <-.
  destruct (decide (sl < Fx.minStd)) as [|Hs]; [apply indicator_unit_interval|].
  assert (0 < sl) as Hsl.
  { apply (Qclt_le_trans _ Fx.minStd); [apply minStd_positive | by apply Qcnot_lt_le]. }
  assert (0 < Coupon.upperTrigger c) as Hupper by by apply (Qclt_le_trans _ _ _ Hlower).
  apply spread_unit_interval; [done | done |].
  apply Qcopp_le_compat, Qcminus_le_compat_r, Qcdiv_le_compat_r; [done|].
  apply Hlog.
  - unfold Qcdiv. pose proof (Qcmult_lt_compat_r 0 x (/ Coupon.upperTrigger c)
                                (Qcinv_positive _ Hupper) Hx) as H.
    by rewrite Qcmult_0_l in H.
  - unfold Qcdiv. rewrite !(Qcmult_comm x).
    apply Qcmult_le_compat_r; [|by apply Qclt_le_weak].
    by apply Qcinv_antitone.
Qed.

(** The square root is taken of floored variances only. *)
Lemma Fx_observation_sqrt (L' : Library) (c : Fx.Coupon) market d :
  (∀ x, 0 ≤ x → std_sqrt (Library:=L) x = std_sqrt (Library:=L') x) →
  (∀ x, std_log (Library:=L) x = std_log (Library:=L') x) →
  (∀ x, Phi (Library:=L) x = Phi (Library:=L') x) →
  Fx.observation (L:=L) c market d = Fx.observation (L:=L') c market d.
Proof.
  intros Hsqrt Hlog HPhi. unfold Fx.observation.
  destruct (fixing (Coupon.index_ c) d) as [x| |]; [|done|done].
  destruct market as [vol|]; [|done]. cbn [mbind result_bind deref].
  destruct (Fx.referenceDate vol <? d)%Z; [|done].
  destruct (Fx.blackVariance vol d (Coupon.lowerTrigger c) true) as [vl| |];
    [|done|done].
  destruct (Fx.blackVariance vol d (Coupon.upperTrigger c) true) as [vu| |];
    [|done|done].
  cbn [mbind result_bind mret result_ret].
  rewrite <- !Hsqrt by apply std_max_nonneg.
  destruct (decide _); [done|]. by rewrite !Hlog, !HPhi.
Qed.

Lemma Cms_observation_sqrt (L' : Library) (c : Cms.Coupon) market d :
  (∀ x, 0 ≤ x → std_sqrt (Library:=L) x = std_sqrt (Library:=L') x) →
  (∀ x, Phi (Library:=L) x = Phi (Library:=L') x) →
  Cms.observation (L:=L) c market d = Cms.observation (L:=L') c market d.
Proof.
  intros Hsqrt HPhi. unfold Cms.observation, Cms.standardDevs.
  destruct (fixing (Coupon.index_ c) d) as [x| |]; [|done|done].
  destruct market as [vol|]; [|done]. cbn [mbind result_bind deref].
  destruct (Cms.referenceDate vol <? d)%Z; [|done].
  destruct (Cms.blackVariance vol d _ (Coupon.lowerTrigger c) true) as [vl| |];
    [|done|done].
  destruct (Cms.blackVariance vol d _ (Coupon.upperTrigger c) true) as [vu| |];
    [|done|done].
  cbn [mbind result_bind mret result_ret].
  rewrite <- !Hsqrt by apply std_max_nonneg.
  destruct (decide _); [done|]. by rewrite !HPhi.
Qed.

(** On a surface that is flat in the strike the skews vanish and with them
    the smile adjustment. *)
Lemma FxSmile_flat (c : Fx.Coupon) (vol : FxSmile.BlackVolTermStructure) d x sigma :
  (FxSmile.referenceDate vol < d)%Z →
  fixing (Coupon.index_ c) d = Ok x →
  (∀ strike, FxSmile.blackVol vol d strike true = Ok sigma) →
  let s := std_max sigma 0 * std_sqrt (FxSmile.timeFromReference vol d) in
  let d2 strike := std_log (x / strike) / s + lit 1 2 * s - s in
  ∃ o,
    FxSmile.observation c (Some vol) d = Ok o
    ∧ FxSmile.skewLow o = 0 ∧ FxSmile.skewUpp o = 0
    ∧ FxSmile.standardDevLow o = s ∧ FxSmile.standardDevUpp o = s
    ∧ (FxSmile.minStd ≤ s →
       FxSmile.inRangeProbability o
       = Phi (- d2 (Coupon.upperTrigger c)) - Phi (- d2 (Coupon.lowerTrigger c))).
Proof.
  intros Hd Hx Hflat s d2. unfold FxSmile.observation. rewrite Hx.
  cbn [mbind result_bind deref]. rewrite (proj2 (Z.ltb_lt _ _) Hd).
  rewrite !Hflat. cbn [mbind result_bind mret result_ret]. fold s.
  replace ((std_max sigma 0 - std_max sigma 0)
           / (FxSmile.relSkewShift * Coupon.lowerTrigger c)) with (0 : Real)
    by (unfold Qcdiv; ring).
  replace ((std_max sigma 0 - std_max sigma 0)
           / (FxSmile.relSkewShift * Coupon.upperTrigger c)) with (0 : Real)
    by (unfold Qcdiv; ring).
  destruct (FxSmile.put x _ s 0 (Coupon.lowerTrigger c)) as [vl pl] eqn:El.
  destruct (FxSmile.put x _ s 0 (Coupon.upperTrigger c)) as [vu pu] eqn:Eu.
  eexists. split; [reflexivity|]. cbn. repeat split.
  intros Hs. apply Qcle_not_lt in Hs. unfold FxSmile.put in El, Eu.
  rewrite decide_False in El, Eu by done.
  injection El as _ <-. injection Eu as _ <-. unfold d2. ring.
Qed.

End Formulas.

(** ** Priced and unpriced evaluation of a past schedule *)

Section PastSchedulesOfTheCoupon.
Context {L : Library} {I H O : Type} {Idx : Index I} {D : Diagnostics O}.
Variable observation : Coupon.t I → H → Date → result O.
Hypothesis observation_const : ∀ c b market d,
  observation (Coupon.set_calculated b c) market d = observation c market d.

Local Abbreviation rangeAccrual := (RangeAccrualFixedCoupon.rangeAccrual observation).
Local Abbreviation initialize := (Pricer.initialize observation).

Lemma past_schedule_fallback (c : Coupon.t I) pricers l p :
  let ds := dates (Coupon.observationsSchedule c) in
  Coupon.calculated_ c = false →
  Coupon.pricer_ c = Some l →
  pricers !! l = Some p →
  Forall (λ d, ∃ o, observation c (Pricer.market_ p) d = Ok o
                    ∧ probability o
                      = if Described.fixing_in_band c d then 1 else 0) ds →
  Forall (Described.has_fixing c) ds →
  (rangeAccrual (c, pricers)).2
  = Ok (of_size (Described.count_in_band c) / of_size (length ds))
  ∧ (rangeAccrual (RangeAccrualFixedCoupon.setPricer None (c, pricers)).1).2
    = (rangeAccrual (c, pricers)).2.
Proof.
  intros ds Hc Hp Hl Hind Hfix.
  destruct (initialize_counts observation c p _ Hind) as [Hok Hcount].
  assert ((rangeAccrual (c, pricers)).2
          = Ok (of_size (Described.count_in_band c) / of_size (length ds))) as E.
  { rewrite rangeAccrual_calculate.
    rewrite (calculate_priced_ok observation observation_const c pricers l p)
      by (try done; by rewrite Hok).
    simpl. by rewrite Hcount. }
  split; [exact E|]. rewrite E, setPricer_run. cbn [fst].
  rewrite rangeAccrual_calculate.
  by rewrite (calculate_fallback_ok observation).
Qed.

End PastSchedulesOfTheCoupon.

(** ** What a successful [initialize] went through *)

Section Success.
Context {L : Library} {I H O : Type} {D : Diagnostics O}.
Variable observation : Coupon.t I → H → Date → result O.

Lemma observe_ok_inv (c : Coupon.t I) market ds acc m :
  is_Ok (Described.observe observation c market ds acc m).2 →
  Forall (λ d, is_Ok (observation c market d)) ds.
Proof.
  revert acc m. induction ds as [|d ds IH]; intros acc m; simpl; [done|].
  destruct (observation c market d) as [o| |] eqn:E; [|done|done].
  intros Hok. constructor; [by rewrite E | by eapply IH].
Qed.

Lemma initialize_ok_inv (c : Coupon.t I) (p : Pricer.t H) :
  is_Ok (Pricer.initialize observation c p).2 →
  Forall (λ d, is_Ok (observation c (Pricer.market_ p) d))
    (dates (Coupon.observationsSchedule c)).
Proof.
  rewrite initialize_observe. cbn zeta. intros Hok.
  apply (observe_ok_inv c _ _ 0 ∅).
  by destruct (Described.observe _ _ _ _ _ _) as [m [s| |]].
Qed.

End Success.

Section Contents.
Context {L : Library} {I H : Type}.
Variable observation : Coupon.t I → H → Date → result Observation.

Lemma initialize_contents (c : Coupon.t I) (p : Pricer.t H) :
  let ds := dates (Coupon.observationsSchedule c) in
  let results := Pricer.additionalResults (Pricer.initialize observation c p).1 in
  is_Ok (Pricer.initialize observation c p).2 →
  (∀ k, is_Some (results !! k) →
        k = "daysInRange" ∨ k = "observationDays"
        ∨ ∃ d, d ∈ ds ∧ k ∈ Derived.per_date_keys (iso_date d))
  ∧ (NoDup (iso_date <$> ds) → size results = (4 * length ds + 2)%nat).
Proof.
  intros ds results Hok. split.
  - intros k. by apply initialize_keys.
  - intros Hnd. apply initialize_size; [by apply initialize_ok_inv | done].
Qed.

End Contents.

(** ** An empty volatility handle *)

Section EmptyHandle.
Context {L : Library}.

Lemma Fx_observation_empty_handle (c : Fx.Coupon) d :
  Described.has_fixing c d →
  Fx.observation c None d = Throw "empty Handle cannot be dereferenced".
Proof.
  unfold Described.has_fixing, Fx.observation.
  by destruct (fixing (Coupon.index_ c) d).
Qed.

Lemma Cms_observation_empty_handle (c : Cms.Coupon) d :
  Described.has_fixing c d →
  Cms.observation c None d = Throw "empty Handle cannot be dereferenced".
Proof.
  unfold Described.has_fixing, Cms.observation.
  by destruct (fixing (Coupon.index_ c) d).
Qed.

End EmptyHandle.

Section EmptyHandleOfTheCoupon.
Context {L : Library} {I V O : Type} {Idx : Index I} {D : Diagnostics O}.
Variable observation : Coupon.t I → Handle V → Date → result O.
Hypothesis observation_const : ∀ c b market d,
  observation (Coupon.set_calculated b c) market d = observation c market d.

Lemma accessors_empty_handle (c : Coupon.t I) pricers l p d ds msg :
  Coupon.calculated_ c = false →
  Coupon.pricer_ c = Some l →
  pricers !! l = Some p →
  Pricer.market_ p = None →
  dates (Coupon.observationsSchedule c) = d :: ds →
  observation c None d = Throw msg →
  let p' := Pricer.mk None (Pricer.rangeAccrual_ p) ∅ in
  RangeAccrualFixedCoupon.rangeAccrual observation (c, pricers)
  = ((c, <[l := p']> pricers), Throw msg)
  ∧ RangeAccrualFixedCoupon.amount observation (c, pricers)
    = ((c, <[l := p']> pricers), Throw msg).
Proof.
  intros Hc Hp Hl Hm Hds Hd p'. unfold p'. clear p'.
  destruct p as [market fraction results]. simpl in Hm. subst market.
  rewrite rangeAccrual_calculate, amount_calculate.
  by rewrite (calculate_priced_throw observation observation_const
                c pricers l (Pricer.mk None fraction results) [] d ds msg).
Qed.

End EmptyHandleOfTheCoupon.

(** ** The stand-ins of the market with live volatilities *)

Lemma Live_Phi_monotone (x y : Real) :
  x ≤ y → Phi (Library:=Live.library) x ≤ Phi (Library:=Live.library) y.
Proof.
  intros Hle. simpl.
  destruct (decide (x < 0)) as [Hx|Hx], (decide (y < 0)) as [Hy|Hy]; try done.
  destruct Hx. by apply (Qcle_lt_trans _ y).
Qed.

Lemma Live_Phi_range (x : Real) :
  0 ≤ Phi (Library:=Live.library) x ∧ Phi (Library:=Live.library) x ≤ 1.
Proof. simpl. by destruct (decide (x < 0)). Qed.

Lemma Live_log_monotone (x y : Real) :
  0 < x → x ≤ y →
  std_log (Library:=Live.library) x ≤ std_log (Library:=Live.library) y.
Proof. intros _ Hle. simpl. by apply Qcminus_le_compat_r. Qed.

Lemma Live_sqrt_floored (x : Real) :
  0 ≤ x → std_sqrt (Library:=Live.library) x = std_sqrt (Library:=Live.library') x.
Proof.
  intros Hx. simpl. apply Qcle_not_lt in Hx. by rewrite decide_False.
Qed.

(** * Further properties, stated *)

(** X1. For every reachable FX or CMS coupon that has no pricer bound, whose
    observation schedule is not empty and whose index has a fixing for every
    date of it, [rangeAccrual()] returns a number between 0 and 1. *)
Theorem fallback_fraction_lies_in_the_unit_interval {L : Library} :
  (∀ w : Fx.World,
     Described.reachable Fx.observation w →
     Coupon.pricer_ w.1 = None →
     dates (Coupon.observationsSchedule w.1) ≠ [] →
     Forall (Described.has_fixing w.1) (dates (Coupon.observationsSchedule w.1)) →
     ∃ r, (Fx.rangeAccrual w).2 = Ok r ∧ 0 ≤ r ∧ r ≤ 1)
  ∧ (∀ w : Cms.World,
     Described.reachable Cms.observation w →
     Coupon.pricer_ w.1 = None →
     dates (Coupon.observationsSchedule w.1) ≠ [] →
     Forall (Described.has_fixing w.1) (dates (Coupon.observationsSchedule w.1)) →
     ∃ r, (Cms.rangeAccrual w).2 = Ok r ∧ 0 ≤ r ∧ r ≤ 1).
Proof.
  split; intros w.
  - exact (fallback_fraction_bounds Fx.observation w).
  - exact (fallback_fraction_bounds Cms.observation w).
Qed.

Lemma fallback_fraction_lies_in_the_unit_interval_witness :
  let w := Scenario.fx_world
             (Scenario.fx_coupon Scenario.five_days (lit 125 100) (lit 1251 1000)) in
  ∃ r, (Fx.rangeAccrual (L:=Scenario.library) w).2 = Ok r ∧ 0 ≤ r ∧ r ≤ 1.
Proof.
  intros w.
  apply (proj1 (fallback_fraction_lies_in_the_unit_interval (L:=Scenario.library)) w).
  - apply Described.reach_constructed.
  - reflexivity.
  - vm_compute. discriminate.
  - by_evaluation.
Defined.

(** X2. For every reachable FX or CMS coupon that has no pricer bound and whose
    observation schedule is not empty: when every date has a fixing inside
    the closed band [rangeAccrual()] returns 1, and when every date has a
    fixing and none of them lies inside the closed band it returns 0. *)
Theorem fallback_fraction_at_the_extremes {L : Library} :
  (∀ w : Fx.World,
     let ds := dates (Coupon.observationsSchedule w.1) in
     Described.reachable Fx.observation w →
     Coupon.pricer_ w.1 = None →
     ds ≠ [] →
     (Forall (λ d, Described.fixing_in_band w.1 d = true) ds →
      (Fx.rangeAccrual w).2 = Ok 1)
     ∧ (Forall (Described.has_fixing w.1) ds →
        Forall (λ d, Described.fixing_in_band w.1 d = false) ds →
        (Fx.rangeAccrual w).2 = Ok 0))
  ∧ (∀ w : Cms.World,
     let ds := dates (Coupon.observationsSchedule w.1) in
     Described.reachable Cms.observation w →
     Coupon.pricer_ w.1 = None →
     ds ≠ [] →
     (Forall (λ d, Described.fixing_in_band w.1 d = true) ds →
      (Cms.rangeAccrual w).2 = Ok 1)
     ∧ (Forall (Described.has_fixing w.1) ds →
        Forall (λ d, Described.fixing_in_band w.1 d = false) ds →
        (Cms.rangeAccrual w).2 = Ok 0)).
Proof.
  split; intros w.
  - exact (fallback_fraction_extremes Fx.observation w).
  - exact (fallback_fraction_extremes Cms.observation w).
Qed.

(** Fixings 1.248, ..., 1.252: all of them inside [1.2, 1.3], none of them
    inside [1.3, 1.4]. *)
Lemma fallback_fraction_at_the_extremes_witness :
  let inside := Scenario.fx_world
                  (Scenario.fx_coupon Scenario.five_days (lit 12 10) (lit 13 10)) in
  let outside := Scenario.fx_world
                   (Scenario.fx_coupon Scenario.five_days (lit 13 10) (lit 14 10)) in
  (Fx.rangeAccrual (L:=Scenario.library) inside).2 = Ok 1
  ∧ (Fx.rangeAccrual (L:=Scenario.library) outside).2 = Ok 0.
Proof.
  intros inside outside. split.
  - refine (proj1 (proj1 (fallback_fraction_at_the_extremes (L:=Scenario.library))
                     inside _ _ _) _).
    + apply Described.reach_constructed.
    + reflexivity.
    + vm_compute. discriminate.
    + by_evaluation.
  - refine (proj2 (proj1 (fallback_fraction_at_the_extremes (L:=Scenario.library))
                     outside _ _ _) _ _).
    + apply Described.reach_constructed.
    + reflexivity.
    + vm_compute. discriminate.
    + by_evaluation.
    + by_evaluation.
Defined.

(** X3. An FX or CMS coupon without a pricer never consults the store of
    pricers: [rangeAccrual()] and [amount()] leave the store as it is, and
    the coupon they leave and the outcome they return are the same whatever
    the store holds. *)
Theorem evaluation_without_pricer_ignores_the_store {L : Library} :
  (∀ (c : Fx.Coupon) pricers pricers',
     Coupon.pricer_ c = None →
     ((Fx.rangeAccrual (c, pricers)).1.2 = pricers
      ∧ (Fx.rangeAccrual (c, pricers)).1.1 = (Fx.rangeAccrual (c, pricers')).1.1
      ∧ (Fx.rangeAccrual (c, pricers)).2 = (Fx.rangeAccrual (c, pricers')).2)
     ∧ ((Fx.amount (c, pricers)).1.2 = pricers
        ∧ (Fx.amount (c, pricers)).1.1 = (Fx.amount (c, pricers')).1.1
        ∧ (Fx.amount (c, pricers)).2 = (Fx.amount (c, pricers')).2))
  ∧ (∀ (c : Cms.Coupon) pricers pricers',
     Coupon.pricer_ c = None →
     ((Cms.rangeAccrual (c, pricers)).1.2 = pricers
      ∧ (Cms.rangeAccrual (c, pricers)).1.1 = (Cms.rangeAccrual (c, pricers')).1.1
      ∧ (Cms.rangeAccrual (c, pricers)).2 = (Cms.rangeAccrual (c, pricers')).2)
     ∧ ((Cms.amount (c, pricers)).1.2 = pricers
        ∧ (Cms.amount (c, pricers)).1.1 = (Cms.amount (c, pricers')).1.1
        ∧ (Cms.amount (c, pricers)).2 = (Cms.amount (c, pricers')).2)).
Proof.
  split; intros c pricers pricers'.
  - exact (accessors_without_pricer Fx.observation c pricers pricers').
  - exact (accessors_without_pricer Cms.observation c pricers pricers').
Qed.

Lemma evaluation_without_pricer_ignores_the_store_witness :
  let c := Scenario.fx_coupon Scenario.five_days (lit 125 100) (lit 1251 1000) in
  let pricers : gmap loc Fx.Pricer := {[ 1%positive := Scenario.fx_pricer ]} in
  (Fx.rangeAccrual (L:=Scenario.library) (c, pricers)).1.2 = pricers
  ∧ (Fx.rangeAccrual (L:=Scenario.library) (c, pricers)).1.1
    = (Fx.rangeAccrual (L:=Scenario.library) (c, ∅)).1.1
  ∧ (Fx.rangeAccrual (L:=Scenario.library) (c, pricers)).2
    = (Fx.rangeAccrual (L:=Scenario.library) (c, ∅)).2.
Proof.
  intros c pricers.
  apply (proj1 (proj1 (evaluation_without_pricer_ignores_the_store
                         (L:=Scenario.library)) c pricers ∅ eq_refl)).
Defined.

(** X4. Once [rangeAccrual()] has returned a value on an FX or CMS coupon, a
    further [rangeAccrual()] returns the same value and a further [amount()]
    that value times the base amount, and neither changes the coupon or any
    pricer: nothing is calculated again. *)
Theorem accessors_answer_from_the_cache {L : Library} :
  (∀ (w : Fx.World) r,
     (Fx.rangeAccrual w).2 = Ok r →
     let w' := (Fx.rangeAccrual w).1 in
     Fx.rangeAccrual w' = (w', Ok r)
     ∧ Fx.amount w' = (w', Ok (r * FixedRateCoupon_amount (Coupon.base w.1))))
  ∧ (∀ (w : Cms.World) r,
     (Cms.rangeAccrual w).2 = Ok r →
     let w' := (Cms.rangeAccrual w).1 in
     Cms.rangeAccrual w' = (w', Ok r)
     ∧ Cms.amount w' = (w', Ok (r * FixedRateCoupon_amount (Coupon.base w.1)))).
Proof.
  split; intros w r.
  - exact (accessors_cache_hit Fx.observation w r).
  - exact (accessors_cache_hit Cms.observation w r).
Qed.

Lemma accessors_answer_from_the_cache_witness :
  let w := Scenario.fx_world
             (Scenario.bound
                (Scenario.fx_coupon Scenario.five_days (lit 125 100) (lit 1251 1000))) in
  let w' := (Fx.rangeAccrual (L:=Scenario.library) w).1 in
  Fx.rangeAccrual (L:=Scenario.library) w' = (w', Ok (lit 2 5))
  ∧ Fx.amount (L:=Scenario.library) w'
    = (w', Ok (lit 2 5 * FixedRateCoupon_amount (Coupon.base w.1))).
Proof.
  intros w.
  apply (proj1 (accessors_answer_from_the_cache (L:=Scenario.library)) w (lit 2 5)).
  by_evaluation.
Defined.

(** X5. Whatever state an FX or CMS coupon is in, Calculated or not, bound or
    not: after [setPricer(pricer)] with a pricer whose [initialize] succeeds
    for the coupon, the next [rangeAccrual()] returns the fraction that
    [initialize] computes, leaves the pricer in the store as [initialize]
    left it, and the coupon's additional results are the pricer's. *)
Theorem setPricer_takes_effect_on_the_next_access {L : Library} :
  (∀ (c : Fx.Coupon) pricers l p,
     pricers !! l = Some p →
     is_Ok (Fx.initialize c p).2 →
     let w := (Fx.setPricer (Some l) (c, pricers)).1 in
     let p' := (Fx.initialize c p).1 in
     (Fx.rangeAccrual w).2 = Ok (Pricer.rangeAccrual p')
     ∧ (Fx.rangeAccrual w).1.2 = <[l := p']> pricers
     ∧ Coupon.additionalResults (Fx.rangeAccrual w).1.1 = Pricer.additionalResults p')
  ∧ (∀ (c : Cms.Coupon) pricers l p,
     pricers !! l = Some p →
     is_Ok (Cms.initialize c p).2 →
     let w := (Cms.setPricer (Some l) (c, pricers)).1 in
     let p' := (Cms.initialize c p).1 in
     (Cms.rangeAccrual w).2 = Ok (Pricer.rangeAccrual p')
     ∧ (Cms.rangeAccrual w).1.2 = <[l := p']> pricers
     ∧ Coupon.additionalResults (Cms.rangeAccrual w).1.1 = Pricer.additionalResults p')
  ∧ (∀ (c : Cms.Coupon) pricers l p,
     pricers !! l = Some p →
     is_Ok (CmsHagan.initialize c p).2 →
     let w := (CmsHagan.setPricer (Some l) (c, pricers)).1 in
     let p' := (CmsHagan.initialize c p).1 in
     (CmsHagan.rangeAccrual w).2 = Ok (Pricer.rangeAccrual p')
     ∧ (CmsHagan.rangeAccrual w).1.2 = <[l := p']> pricers
     ∧ Coupon.additionalResults (CmsHagan.rangeAccrual w).1.1
       = Pricer.additionalResults p').
Proof.
  split; [|split]; intros c pricers l p.
  - exact (setPricer_takes_effect Fx.observation Fx_observation_const
             Fx_observation_unbound c pricers l p).
  - exact (setPricer_takes_effect Cms.observation Cms_observation_const
             Cms_observation_unbound c pricers l p).
  - exact (setPricer_takes_effect CmsHagan.observation CmsHagan_observation_const
             CmsHagan_observation_unbound c pricers l p).
Qed.

(** A coupon that has cached the count-based fraction 2/5 under the band
    [1.25, 1.251] is bound to the pricer at address 1. *)
Lemma setPricer_takes_effect_on_the_next_access_witness :
  let c := (Fx.rangeAccrual (L:=Scenario.library)
              (Scenario.fx_world
                 (Scenario.fx_coupon Scenario.five_days (lit 125 100) (lit 1251 1000)))).1.1 in
  let pricers : gmap loc Fx.Pricer := {[ 1%positive := Scenario.fx_pricer ]} in
  let w := (Fx.setPricer (Some 1%positive) (c, pricers)).1 in
  let p' := (Fx.initialize (L:=Scenario.library) c Scenario.fx_pricer).1 in
  (Fx.rangeAccrual (L:=Scenario.library) w).2 = Ok (Pricer.rangeAccrual p')
  ∧ (Fx.rangeAccrual (L:=Scenario.library) w).1.2 = <[1%positive := p']> pricers
  ∧ Coupon.additionalResults (Fx.rangeAccrual (L:=Scenario.library) w).1.1
    = Pricer.additionalResults p'.
Proof.
  intros c pricers.
  apply (proj1 (setPricer_takes_effect_on_the_next_access (L:=Scenario.library))
           c pricers 1%positive Scenario.fx_pricer).
  - apply lookup_singleton_eq.
  - by_evaluation.
Defined.

(** X6. When every observation date of a non-empty schedule lies on or before
    the reference date of the volatility and has a fixing, an FX coupon (with
    the pricer of [ql/cashflows/fxrangeaccrualfixed.cpp]) or CMS coupon (with
    the Bachelier pricer) due for recalculation returns from [rangeAccrual()]
    the count of fixings in the closed band over the number of dates: the
    value it returns after [setPricer] of a null pointer. *)
Theorem priced_past_schedule_is_the_fallback_count {L : Library} :
  (∀ (c : Fx.Coupon) pricers l p vol,
     let ds := dates (Coupon.observationsSchedule c) in
     Coupon.calculated_ c = false →
     Coupon.pricer_ c = Some l →
     pricers !! l = Some p →
     Pricer.market_ p = Some vol →
     ds ≠ [] →
     Forall (λ d, (d ≤ Fx.referenceDate vol)%Z) ds →
     Forall (Described.has_fixing c) ds →
     (Fx.rangeAccrual (c, pricers)).2
     = Ok (of_size (Described.count_in_band c) / of_size (length ds))
     ∧ (Fx.rangeAccrual (Fx.setPricer None (c, pricers)).1).2
       = (Fx.rangeAccrual (c, pricers)).2)
  ∧ (∀ (c : Cms.Coupon) pricers l p vol,
     let ds := dates (Coupon.observationsSchedule c) in
     Coupon.calculated_ c = false →
     Coupon.pricer_ c = Some l →
     pricers !! l = Some p →
     Pricer.market_ p = Some vol →
     ds ≠ [] →
     Forall (λ d, (d ≤ Cms.referenceDate vol)%Z) ds →
     Forall (Described.has_fixing c) ds →
     (Cms.rangeAccrual (c, pricers)).2
     = Ok (of_size (Described.count_in_band c) / of_size (length ds))
     ∧ (Cms.rangeAccrual (Cms.setPricer None (c, pricers)).1).2
       = (Cms.rangeAccrual (c, pricers)).2).
Proof.
  split; intros c pricers l [market fraction results] vol ds Hc Hp Hl Hm _ Hpast Hfix;
    simpl in Hm; subst market.
  - apply (past_schedule_fallback Fx.observation Fx_observation_const
             c pricers l _ Hc Hp Hl); [|done].
    by apply Fx_past_indicators.
  - apply (past_schedule_fallback Cms.observation Cms_observation_const
             c pricers l _ Hc Hp Hl); [|done].
    by apply Cms_past_indicators.
Qed.

Lemma priced_past_schedule_is_the_fallback_count_witness :
  let c := Scenario.bound
             (Scenario.fx_coupon Scenario.five_days (lit 125 100) (lit 1251 1000)) in
  let w := Scenario.fx_world c in
  (Fx.rangeAccrual (L:=Scenario.library) w).2
  = Ok (of_size (Described.count_in_band c)
        / of_size (length (dates (Coupon.observationsSchedule c))))
  ∧ (Fx.rangeAccrual (L:=Scenario.library) (Fx.setPricer None w).1).2
    = (Fx.rangeAccrual (L:=Scenario.library) w).2.
Proof.
  intros c w.
  apply (proj1 (priced_past_schedule_is_the_fallback_count (L:=Scenario.library))
           c w.2 1%positive Scenario.fx_pricer Scenario.volTs).
  - reflexivity.
  - reflexivity.
  - apply lookup_singleton_eq.
  - reflexivity.
  - vm_compute. discriminate.
  - by_evaluation.
  - by_evaluation.
Defined.

(** X7. When every observation date of a non-empty schedule lies on or before
    the reference date of the volatility and has a fixing, and
    [lowerTrigger <= upperTrigger], [initialize] of the FX pricer with smile
    adjustment and of the replicating CMS pricer succeeds and sets the
    fraction to the number of dates whose fixing [x] satisfies
    [lowerTrigger <= x < upperTrigger] over the number of dates: a fixing on
    the upper trigger does not count. *)
Theorem separate_boundaries_count_the_half_open_band {L : Library} :
  (∀ (c : Fx.Coupon) (p : FxSmile.Pricer) vol,
     let ds := dates (Coupon.observationsSchedule c) in
     Pricer.market_ p = Some vol →
     Coupon.lowerTrigger c ≤ Coupon.upperTrigger c →
     ds ≠ [] →
     Forall (λ d, (d ≤ FxSmile.referenceDate vol)%Z) ds →
     Forall (Described.has_fixing c) ds →
     (FxSmile.initialize c p).2 = Ok tt
     ∧ Pricer.rangeAccrual (FxSmile.initialize c p).1
       = of_size (Derived.count_in_half_open_band c) / of_size (length ds))
  ∧ (∀ (c : Cms.Coupon) (p : CmsHagan.Pricer) vol,
     let ds := dates (Coupon.observationsSchedule c) in
     CmsHagan.swaptionVolatility_ (Pricer.market_ p) = Some vol →
     Coupon.lowerTrigger c ≤ Coupon.upperTrigger c →
     ds ≠ [] →
     Forall (λ d, (d ≤ Cms.referenceDate vol)%Z) ds →
     Forall (Described.has_fixing c) ds →
     (CmsHagan.initialize c p).2 = Ok tt
     ∧ Pricer.rangeAccrual (CmsHagan.initialize c p).1
       = of_size (Derived.count_in_half_open_band c) / of_size (length ds)).
Proof.
  split.
  - intros c [market fraction results] vol ds Hm Hband _ Hpast Hfix.
    simpl in Hm. subst market.
    apply (initialize_counts FxSmile.observation c).
    by apply FxSmile_past_indicators.
  - intros c [[v hagan] fraction results] vol ds Hm Hband _ Hpast Hfix.
    simpl in Hm. subst v.
    apply (initialize_counts CmsHagan.observation c).
    by apply CmsHagan_past_indicators.
Qed.

(** CMS fixings 3.48%, ..., 3.52% under the band [3.49%, 3.5%]: one day of
    five counts, the fixing of 3.5% does not. *)
Lemma separate_boundaries_count_the_half_open_band_witness :
  let c := Scenario.cms_coupon Scenario.five_days (lit 349 10000) (lit 35 1000) in
  let p := CmsHagan.CmsRangeAccrualFixedCouponPricer (Some Scenario.swaptionVolTs) in
  (CmsHagan.initialize (L:=Scenario.library) c p).2 = Ok tt
  ∧ Pricer.rangeAccrual (CmsHagan.initialize (L:=Scenario.library) c p).1
    = of_size (Derived.count_in_half_open_band c)
      / of_size (length (dates (Coupon.observationsSchedule c))).
Proof.
  intros c p.
  apply (proj2 (separate_boundaries_count_the_half_open_band (L:=Scenario.library))
           c p Scenario.swaptionVolTs).
  - reflexivity.
  - by_evaluation.
  - vm_compute. discriminate.
  - by_evaluation.
  - by_evaluation.
Defined.

(** X8. After an [initialize] whose loop body succeeds on every date of a
    schedule whose dates print differently, the additional results of the FX
    pricer and of both CMS pricers hold, for every date of the schedule,
    what the loop body found for that date under the four keys
    [indexObservation_<date>], [standardDevLow_<date>],
    [standardDevUpp_<date>] and [inRangeProbability_<date>]. *)
Theorem initialize_records_every_date {L : Library} :
  (∀ (c : Fx.Coupon) (p : Fx.Pricer) d o,
     let ds := dates (Coupon.observationsSchedule c) in
     let results := Pricer.additionalResults (Fx.initialize c p).1 in
     Forall (λ d, is_Ok (Fx.observation c (Pricer.market_ p) d)) ds →
     NoDup (iso_date <$> ds) →
     d ∈ ds →
     Fx.observation c (Pricer.market_ p) d = Ok o →
     results !! ("indexObservation_" +:+ iso_date d) = Some (indexObservation o)
     ∧ results !! ("standardDevLow_" +:+ iso_date d) = Some (standardDevLow o)
     ∧ results !! ("standardDevUpp_" +:+ iso_date d) = Some (standardDevUpp o)
     ∧ results !! ("inRangeProbability_" +:+ iso_date d)
       = Some (inRangeProbability o))
  ∧ (∀ (c : Cms.Coupon) (p : Cms.Pricer) d o,
     let ds := dates (Coupon.observationsSchedule c) in
     let results := Pricer.additionalResults (Cms.initialize c p).1 in
     Forall (λ d, is_Ok (Cms.observation c (Pricer.market_ p) d)) ds →
     NoDup (iso_date <$> ds) →
     d ∈ ds →
     Cms.observation c (Pricer.market_ p) d = Ok o →
     results !! ("indexObservation_" +:+ iso_date d) = Some (indexObservation o)
     ∧ results !! ("standardDevLow_" +:+ iso_date d) = Some (standardDevLow o)
     ∧ results !! ("standardDevUpp_" +:+ iso_date d) = Some (standardDevUpp o)
     ∧ results !! ("inRangeProbability_" +:+ iso_date d)
       = Some (inRangeProbability o))
  ∧ (∀ (c : Cms.Coupon) (p : CmsHagan.Pricer) d o,
     let ds := dates (Coupon.observationsSchedule c) in
     let results := Pricer.additionalResults (CmsHagan.initialize c p).1 in
     Forall (λ d, is_Ok (CmsHagan.observation c (Pricer.market_ p) d)) ds →
     NoDup (iso_date <$> ds) →
     d ∈ ds →
     CmsHagan.observation c (Pricer.market_ p) d = Ok o →
     results !! ("indexObservation_" +:+ iso_date d) = Some (indexObservation o)
     ∧ results !! ("standardDevLow_" +:+ iso_date d) = Some (standardDevLow o)
     ∧ results !! ("standardDevUpp_" +:+ iso_date d) = Some (standardDevUpp o)
     ∧ results !! ("inRangeProbability_" +:+ iso_date d)
       = Some (inRangeProbability o)).
Proof.
  split; [|split]; intros c p d o.
  - exact (initialize_written Fx.observation c p d o).
  - exact (initialize_written Cms.observation c p d o).
  - exact (initialize_written CmsHagan.observation c p d o).
Qed.

(** The third of the five days, whose fixing is 1.25. *)
Lemma initialize_records_every_date_witness :
  let c := Scenario.fx_coupon Scenario.five_days (lit 125 100) (lit 1251 1000) in
  let d := (Scenario.jan_1_2015 + 250)%Z in
  let results :=
    Pricer.additionalResults
      (Fx.initialize (L:=Scenario.library) c Scenario.fx_pricer).1 in
  results !! ("indexObservation_" +:+ iso_date (Library:=Scenario.library) d)
  = Some (lit 125 100)
  ∧ results !! ("standardDevLow_" +:+ iso_date (Library:=Scenario.library) d)
    = Some 0
  ∧ results !! ("standardDevUpp_" +:+ iso_date (Library:=Scenario.library) d)
    = Some 0
  ∧ results !! ("inRangeProbability_" +:+ iso_date (Library:=Scenario.library) d)
    = Some 1.
Proof.
  intros c d.
  apply (proj1 (initialize_records_every_date (L:=Scenario.library))
           c Scenario.fx_pricer d (Build_Observation (lit 125 100) 0 0 1)).
  - by_evaluation.
  - by_evaluation.
  - by_evaluation.
  - by_evaluation.
Defined.

(** X9. After a successful [initialize] the additional results of the FX pricer
    and of both CMS pricers hold no key but ["daysInRange"],
    ["observationDays"] and the four keys of the dates of the schedule; when
    the dates print differently they hold exactly four entries per date and
    the two summaries. *)
Theorem initialize_leaves_the_entries_of_its_schedule {L : Library} :
  (∀ (c : Fx.Coupon) (p : Fx.Pricer),
     let ds := dates (Coupon.observationsSchedule c) in
     let results := Pricer.additionalResults (Fx.initialize c p).1 in
     is_Ok (Fx.initialize c p).2 →
     (∀ k, is_Some (results !! k) →
           k = "daysInRange" ∨ k = "observationDays"
           ∨ ∃ d, d ∈ ds ∧ k ∈ Derived.per_date_keys (iso_date d))
     ∧ (NoDup (iso_date <$> ds) → size results = (4 * length ds + 2)%nat))
  ∧ (∀ (c : Cms.Coupon) (p : Cms.Pricer),
     let ds := dates (Coupon.observationsSchedule c) in
     let results := Pricer.additionalResults (Cms.initialize c p).1 in
     is_Ok (Cms.initialize c p).2 →
     (∀ k, is_Some (results !! k) →
           k = "daysInRange" ∨ k = "observationDays"
           ∨ ∃ d, d ∈ ds ∧ k ∈ Derived.per_date_keys (iso_date d))
     ∧ (NoDup (iso_date <$> ds) → size results = (4 * length ds + 2)%nat))
  ∧ (∀ (c : Cms.Coupon) (p : CmsHagan.Pricer),
     let ds := dates (Coupon.observationsSchedule c) in
     let results := Pricer.additionalResults (CmsHagan.initialize c p).1 in
     is_Ok (CmsHagan.initialize c p).2 →
     (∀ k, is_Some (results !! k) →
           k = "daysInRange" ∨ k = "observationDays"
           ∨ ∃ d, d ∈ ds ∧ k ∈ Derived.per_date_keys (iso_date d))
     ∧ (NoDup (iso_date <$> ds) → size results = (4 * length ds + 2)%nat)).
Proof.
  split; [|split]; intros c p.
  - exact (initialize_contents Fx.observation c p).
  - exact (initialize_contents Cms.observation c p).
  - exact (initialize_contents CmsHagan.observation c p).
Qed.

(** Five dates: twenty-two entries. *)
Lemma initialize_leaves_the_entries_of_its_schedule_witness :
  let c := Scenario.fx_coupon Scenario.five_days (lit 125 100) (lit 1251 1000) in
  size (Pricer.additionalResults
          (Fx.initialize (L:=Scenario.library) c Scenario.fx_pricer).1)
  = (4 * length (dates (Coupon.observationsSchedule c)) + 2)%nat.
Proof.
  intros c.
  refine (proj2 (proj1 (initialize_leaves_the_entries_of_its_schedule
                          (L:=Scenario.library)) c Scenario.fx_pricer _) _).
  - by_evaluation.
  - by_evaluation.
Defined.

(** X10. The loop body of the replicating CMS pricer built from a volatility
    handle alone, without a Hagan pricer, fails on a date exactly when and as
    the loop body of the Bachelier pricer fails on it, and when both boundary
    standard deviations are at or above [minStd] the two find the same
    observation. *)
Theorem pricer_without_hagan_is_the_Bachelier_pricer {L : Library} :
  ∀ (c : Cms.Coupon) vol d,
    let market := Pricer.market_ (CmsHagan.CmsRangeAccrualFixedCouponPricer vol) in
    (∀ msg, CmsHagan.observation c market d = Throw msg
            ↔ Cms.observation c vol d = Throw msg)
    ∧ (CmsHagan.observation c market d = Undefined
       ↔ Cms.observation c vol d = Undefined)
    ∧ (∀ o, Cms.observation c vol d = Ok o →
            Cms.minStd ≤ standardDevLow o →
            Cms.minStd ≤ standardDevUpp o →
            CmsHagan.observation c market d = Ok o).
Proof. intros c vol d. exact (observation_without_hagan c vol d). Qed.

(** A fixing of 3.5% under the band [3.49%, 3.5%], both standard deviations
    at 1%. *)
Lemma pricer_without_hagan_is_the_Bachelier_pricer_witness :
  let c := Scenario.cms_coupon Scenario.five_days (lit 349 10000) (lit 35 1000) in
  let vol := Some Live.flatSwaptionVolTs in
  let market := Pricer.market_ (CmsHagan.CmsRangeAccrualFixedCouponPricer vol) in
  CmsHagan.observation (L:=Live.library) c market (Scenario.jan_1_2015 + 250)%Z
  = Ok (Build_Observation (lit 35 1000) (lit 1 100) (lit 1 100) 1).
Proof.
  intros c vol market.
  apply (proj2 (proj2 (pricer_without_hagan_is_the_Bachelier_pricer
                         (L:=Live.library) c vol (Scenario.jan_1_2015 + 250)%Z))).
  - by_evaluation.
  - by_evaluation.
  - by_evaluation.
Defined.

(** X11. When the Hagan pricer prices the auxiliary coupon, the index has a
    fixing on the exercise date, the spread width is positive, and the
    caplet and floorlet rates at [optionStrike - spreadWidth / 2] and
    [optionStrike + spreadWidth / 2] move with the strike as option prices
    do (the caplet rate falls and the floorlet rate rises from the lower to
    the upper strike, neither by more than the spread width), [cmsPutOption]
    returns a number between 0 and 1, whichever of its two branches is
    taken. *)
Theorem cmsPutOption_returns_a_probability :
  ∀ (hagan : CmsHagan.HaganPricer) cmsIndex exerciseDate paymentDate
    optionStrike spreadWidth rates swapRate calPlus calMins putPlus putMins,
    0 < spreadWidth →
    CmsHagan.priced hagan cmsIndex exerciseDate paymentDate = Ok rates →
    fixing cmsIndex exerciseDate = Ok swapRate →
    CmsHagan.capletRate rates (optionStrike + lit 1 2 * spreadWidth) = Ok calPlus →
    CmsHagan.capletRate rates (optionStrike - lit 1 2 * spreadWidth) = Ok calMins →
    CmsHagan.floorletRate rates (optionStrike + lit 1 2 * spreadWidth) = Ok putPlus →
    CmsHagan.floorletRate rates (optionStrike - lit 1 2 * spreadWidth) = Ok putMins →
    calPlus ≤ calMins →
    calMins - calPlus ≤ spreadWidth →
    putMins ≤ putPlus →
    putPlus - putMins ≤ spreadWidth →
    ∃ putSprd,
      CmsHagan.cmsPutOption (Some hagan) cmsIndex exerciseDate paymentDate
        optionStrike spreadWidth = Ok putSprd
      ∧ 0 ≤ putSprd ∧ putSprd ≤ 1.
Proof. exact cmsPutOption_range. Qed.

(** A fixing of 3.5% and a strike of 4%: the call spread branch is taken, both
    caplets are worthless, the floorlets are worth 0.505% and 0.495%. *)
Lemma cmsPutOption_returns_a_probability_witness :
  ∃ putSprd,
    CmsHagan.cmsPutOption (Some Live.intrinsicHagan) Scenario.swapIndex
      (Scenario.jan_1_2015 + 250)%Z Scenario.sep_30_2015 (lit 4 100) (lit 1 10000)
    = Ok putSprd
    ∧ 0 ≤ putSprd ∧ putSprd ≤ 1.
Proof.
  refine (cmsPutOption_returns_a_probability Live.intrinsicHagan
            Scenario.swapIndex (Scenario.jan_1_2015 + 250)%Z Scenario.sep_30_2015
            (lit 4 100) (lit 1 10000) _ (lit 35 1000)
            0 0 (lit 505 100000) (lit 495 100000) _ _ _ _ _ _ _ _ _ _ _).
  - by_evaluation.
  - reflexivity.
  - by_evaluation.
  - by_evaluation.
  - by_evaluation.
  - by_evaluation.
  - by_evaluation.
  - by_evaluation.
  - by_evaluation.
  - by_evaluation.
  - by_evaluation.
Defined.

(** X12. The constructor of the replicating CMS pricer from a
    [CmsCouponPricer]: given a Hagan pricer it returns a pricer holding
    [Null<Real>()] and no additional results, which values every boundary
    whose standard deviation is at or above [minStd] with [cmsPutOption]; given a
    pricer that is no Hagan pricer it throws; given a null pointer it reads
    through it before any check. The pricer constructed from a volatility
    handle values every such boundary with the Bachelier formula. *)
Theorem constructor_decides_the_valuation {L : Library} :
  (∀ cmsCouponPricer hagan,
     CmsHagan.as_HaganPricer cmsCouponPricer = Some hagan →
     ∃ p, CmsHagan.CmsRangeAccrualFixedCouponPricer_hagan (Some cmsCouponPricer) = Ok p
          ∧ Pricer.rangeAccrual p = Null_Real
          ∧ Pricer.additionalResults p = ∅
          ∧ CmsHagan.swaptionVolatility_ (Pricer.market_ p)
            = CmsHagan.swaptionVolatility cmsCouponPricer
          ∧ ∀ (c : Cms.Coupon) d x standardDev strike,
              CmsHagan.minStd ≤ standardDev →
              CmsHagan.put c (Pricer.market_ p) d x standardDev strike
              = CmsHagan.cmsPutOption (Some hagan) (Coupon.index_ c) d
                  (Coupon.date c) strike CmsHagan.spreadWidth_default)
  ∧ (∀ cmsCouponPricer,
       CmsHagan.as_HaganPricer cmsCouponPricer = None →
       CmsHagan.CmsRangeAccrualFixedCouponPricer_hagan (Some cmsCouponPricer)
       = Throw "Cannot down-cast cmsCouponPricer to HaganPricer.")
  ∧ CmsHagan.CmsRangeAccrualFixedCouponPricer_hagan None = Undefined
  ∧ (∀ vol (c : Cms.Coupon) d x standardDev strike,
       CmsHagan.minStd ≤ standardDev →
       CmsHagan.put c
         (Pricer.market_ (CmsHagan.CmsRangeAccrualFixedCouponPricer vol))
         d x standardDev strike
       = Ok (Phi ((strike - x) / standardDev))).
Proof.
  split; [|split; [|split]].
  - intros [vol cast] hagan Hcast. simpl in Hcast. subst cast.
    eexists. split; [reflexivity|]. repeat split.
    intros c d x standardDev strike Hs. by apply put_with_hagan.
  - intros [vol cast] Hcast. simpl in Hcast. by subst cast.
  - reflexivity.
  - intros vol c d x standardDev strike Hs. cbn [Pricer.market_ Pricer.create
      CmsHagan.CmsRangeAccrualFixedCouponPricer].
    rewrite put_without_hagan. apply Qcle_not_lt in Hs. by rewrite decide_False.
Qed.

Lemma constructor_decides_the_valuation_witness :
  ∃ p, CmsHagan.CmsRangeAccrualFixedCouponPricer_hagan
         (Some (CmsHagan.Build_CmsCouponPricer (Some Live.flatSwaptionVolTs)
                  (Some Live.intrinsicHagan))) = Ok p
       ∧ Pricer.rangeAccrual p = Null_Real
       ∧ Pricer.additionalResults p = ∅
       ∧ CmsHagan.swaptionVolatility_ (Pricer.market_ p) = Some Live.flatSwaptionVolTs
       ∧ ∀ (c : Cms.Coupon) d x standardDev strike,
           CmsHagan.minStd ≤ standardDev →
           CmsHagan.put (L:=Live.library) c (Pricer.market_ p) d x standardDev strike
           = CmsHagan.cmsPutOption (Some Live.intrinsicHagan) (Coupon.index_ c) d
               (Coupon.date c) strike CmsHagan.spreadWidth_default.
Proof.
  apply (proj1 (constructor_decides_the_valuation (L:=Live.library))
           (CmsHagan.Build_CmsCouponPricer (Some Live.flatSwaptionVolTs)
              (Some Live.intrinsicHagan)) Live.intrinsicHagan).
  reflexivity.
Defined.

(** X13. When the distribution function is monotone with values between 0 and
    1, the band is ordered and both boundaries have the same standard
    deviation, the in-range probability the Bachelier CMS pricer records for
    a date lies between 0 and 1; so does that of the FX pricer of
    [ql/cashflows/fxrangeaccrualfixed.cpp] when moreover the logarithm is
    monotone, the lower trigger is positive and the fixing is positive. *)
Theorem flat_standard_deviation_gives_a_probability {L : Library} :
  (∀ x y, x ≤ y → Phi x ≤ Phi y) →
  (∀ x, 0 ≤ Phi x ∧ Phi x ≤ 1) →
  (∀ (c : Cms.Coupon) vol d o,
     Coupon.lowerTrigger c ≤ Coupon.upperTrigger c →
     Cms.observation c vol d = Ok o →
     standardDevLow o = standardDevUpp o →
     0 ≤ inRangeProbability o ∧ inRangeProbability o ≤ 1)
  ∧ (∀ (c : Fx.Coupon) vol d o,
     (∀ x y, 0 < x → x ≤ y → std_log x ≤ std_log y) →
     0 < Coupon.lowerTrigger c →
     Coupon.lowerTrigger c ≤ Coupon.upperTrigger c →
     Fx.observation c vol d = Ok o →
     0 < indexObservation o →
     standardDevLow o = standardDevUpp o →
     0 ≤ inRangeProbability o ∧ inRangeProbability o ≤ 1).
Proof.
  intros Hmono Hrange. split.
  - intros c vol d o. by apply Cms_flat_probability.
  - intros c vol d o Hlog. by apply Fx_flat_probability.
Qed.

(** A fixing of 3.5% under the band [3.49%, 3.5%] with a standard deviation
    of 1% at both boundaries; a fixing of 1.25 under the band [1.249, 1.25]
    with a standard deviation of 1% at both boundaries. *)
Lemma flat_standard_deviation_gives_a_probability_witness :
  let o := Build_Observation (lit 35 1000) (lit 1 100) (lit 1 100) 1 in
  let o' := Build_Observation (lit 125 100) (lit 1 100) (lit 1 100) 1 in
  (0 ≤ inRangeProbability o ∧ inRangeProbability o ≤ 1)
  ∧ (0 ≤ inRangeProbability o' ∧ inRangeProbability o' ≤ 1).
Proof.
  intros o o'. split.
  - apply (proj1 (flat_standard_deviation_gives_a_probability (L:=Live.library)
                    Live_Phi_monotone Live_Phi_range)
             (Scenario.cms_coupon Scenario.five_days (lit 349 10000) (lit 35 1000))
             (Some Live.flatSwaptionVolTs) (Scenario.jan_1_2015 + 250)%Z o).
    + by_evaluation.
    + by_evaluation.
    + reflexivity.
  - apply (proj2 (flat_standard_deviation_gives_a_probability (L:=Live.library)
                    Live_Phi_monotone Live_Phi_range)
             (Scenario.fx_coupon Scenario.five_days (lit 1249 1000) (lit 125 100))
             (Some Live.flatVolTs) (Scenario.jan_1_2015 + 250)%Z o').
    + exact Live_log_monotone.
    + by_evaluation.
    + by_evaluation.
    + by_evaluation.
    + by_evaluation.
    + reflexivity.
Defined.

(** X14. When an FX or CMS coupon due for recalculation is bound to a pricer
    whose volatility handle is empty, and the first date of its schedule has
    a fixing, [rangeAccrual()] and [amount()] throw the failure of
    dereferencing the handle; the coupon is as before, the pricer keeps its
    fraction, and its additional results have been cleared. *)
Theorem empty_volatility_handle_fails_at_the_first_date {L : Library} :
  (∀ (c : Fx.Coupon) pricers l p d ds,
     Coupon.calculated_ c = false →
     Coupon.pricer_ c = Some l →
     pricers !! l = Some p →
     Pricer.market_ p = None →
     dates (Coupon.observationsSchedule c) = d :: ds →
     Described.has_fixing c d →
     let p' := Pricer.mk None (Pricer.rangeAccrual_ p) ∅ in
     let failure := Throw "empty Handle cannot be dereferenced" in
     Fx.rangeAccrual (c, pricers) = ((c, <[l := p']> pricers), failure)
     ∧ Fx.amount (c, pricers) = ((c, <[l := p']> pricers), failure))
  ∧ (∀ (c : Cms.Coupon) pricers l p d ds,
     Coupon.calculated_ c = false →
     Coupon.pricer_ c = Some l →
     pricers !! l = Some p →
     Pricer.market_ p = None →
     dates (Coupon.observationsSchedule c) = d :: ds →
     Described.has_fixing c d →
     let p' := Pricer.mk None (Pricer.rangeAccrual_ p) ∅ in
     let failure := Throw "empty Handle cannot be dereferenced" in
     Cms.rangeAccrual (c, pricers) = ((c, <[l := p']> pricers), failure)
     ∧ Cms.amount (c, pricers) = ((c, <[l := p']> pricers), failure)).
Proof.
  split; intros c pricers l p d ds Hc Hp Hl Hm Hds Hd p' failure.
  - apply (accessors_empty_handle Fx.observation Fx_observation_const
             c pricers l p d ds); try done.
    by apply Fx_observation_empty_handle.
  - apply (accessors_empty_handle Cms.observation Cms_observation_const
             c pricers l p d ds); try done.
    by apply Cms_observation_empty_handle.
Qed.

Lemma empty_volatility_handle_fails_at_the_first_date_witness :
  let c := Scenario.bound
             (Scenario.fx_coupon Scenario.five_days (lit 125 100) (lit 1251 1000)) in
  let p := Fx.FxRangeAccrualFixedCouponPricer None in
  let pricers : gmap loc Fx.Pricer := {[ 1%positive := p ]} in
  let p' := Pricer.mk None (Pricer.rangeAccrual_ p) ∅ in
  let failure := Throw "empty Handle cannot be dereferenced" in
  Fx.rangeAccrual (L:=Scenario.library) (c, pricers)
  = ((c, <[1%positive := p']> pricers), failure)
  ∧ Fx.amount (L:=Scenario.library) (c, pricers)
    = ((c, <[1%positive := p']> pricers), failure).
Proof.
  intros c p pricers.
  apply (proj1 (empty_volatility_handle_fails_at_the_first_date (L:=Scenario.library))
           c pricers 1%positive p (Scenario.jan_1_2015 + 248)%Z
           (seqZ (Scenario.jan_1_2015 + 249) 4)).
  - reflexivity.
  - reflexivity.
  - apply lookup_singleton_eq.
  - reflexivity.
  - reflexivity.
  - by_evaluation.
Defined.

(** X15. On a date after the reference date, when the volatility surface
    answers the same volatility at every strike, the FX pricer with smile
    adjustment finds both skews zero and the same standard deviation at both
    boundaries, and when that standard deviation is at or above [minStd] the
    probability it records is the plain spread of Black digital puts
    [Phi(-d2(upperTrigger)) - Phi(-d2(lowerTrigger))]: nothing is added for
    the smile. *)
Theorem flat_smile_needs_no_adjustment {L : Library} :
  ∀ (c : Fx.Coupon) (vol : FxSmile.BlackVolTermStructure) d x sigma,
    0 < Coupon.lowerTrigger c →
    Coupon.lowerTrigger c < Coupon.upperTrigger c →
    (FxSmile.referenceDate vol < d)%Z →
    fixing (Coupon.index_ c) d = Ok x →
    (∀ strike, FxSmile.blackVol vol d strike true = Ok sigma) →
    let s := std_max sigma 0 * std_sqrt (FxSmile.timeFromReference vol d) in
    let d2 strike := std_log (x / strike) / s + lit 1 2 * s - s in
    ∃ o,
      FxSmile.observation c (Some vol) d = Ok o
      ∧ FxSmile.skewLow o = 0 ∧ FxSmile.skewUpp o = 0
      ∧ FxSmile.standardDevLow o = s ∧ FxSmile.standardDevUpp o = s
      ∧ (FxSmile.minStd ≤ s →
         FxSmile.inRangeProbability o
         = Phi (- d2 (Coupon.upperTrigger c)) - Phi (- d2 (Coupon.lowerTrigger c))).
Proof. intros c vol d x sigma _ _. exact (FxSmile_flat c vol d x sigma). Qed.

Lemma flat_smile_needs_no_adjustment_witness :
  let c := Scenario.fx_coupon Scenario.five_days (lit 1249 1000) (lit 125 100) in
  let vol := Live.flatSmileTs in
  let d := (Scenario.jan_1_2015 + 250)%Z in
  let x := lit 125 100 in
  let s := std_max (lit 1 10) 0
           * std_sqrt (Library:=Live.library) (FxSmile.timeFromReference vol d) in
  let d2 strike :=
    std_log (Library:=Live.library) (x / strike) / s + lit 1 2 * s - s in
  ∃ o,
    FxSmile.observation (L:=Live.library) c (Some vol) d = Ok o
    ∧ FxSmile.skewLow o = 0 ∧ FxSmile.skewUpp o = 0
    ∧ FxSmile.standardDevLow o = s ∧ FxSmile.standardDevUpp o = s
    ∧ (FxSmile.minStd ≤ s →
       FxSmile.inRangeProbability o
       = Phi (Library:=Live.library) (- d2 (Coupon.upperTrigger c))
         - Phi (Library:=Live.library) (- d2 (Coupon.lowerTrigger c))).
Proof.
  intros c vol d x.
  apply (flat_smile_needs_no_adjustment (L:=Live.library) c vol d x (lit 1 10)).
  - by_evaluation.
  - by_evaluation.
  - by_evaluation.
  - by_evaluation.
  - intros strike. reflexivity.
Defined.

(** X16. The loop bodies of the FX pricer of
    [ql/cashflows/fxrangeaccrualfixed.cpp] and of the Bachelier CMS pricer
    take the square root of variances floored at zero only: what they find
    for a date does not depend on what the square root answers below zero. *)
Theorem square_root_sees_floored_variances_only (L L' : Library) :
  (∀ x, 0 ≤ x → std_sqrt (Library:=L) x = std_sqrt (Library:=L') x) →
  (∀ x, std_log (Library:=L) x = std_log (Library:=L') x) →
  (∀ x, Phi (Library:=L) x = Phi (Library:=L') x) →
  (∀ (c : Fx.Coupon) market d,
     Fx.observation (L:=L) c market d = Fx.observation (L:=L') c market d)
  ∧ (∀ (c : Cms.Coupon) market d,
     Cms.observation (L:=L) c market d = Cms.observation (L:=L') c market d).
Proof.
  intros Hsqrt Hlog HPhi. split; intros c market d.
  - by apply Fx_observation_sqrt.
  - by apply Cms_observation_sqrt.
Qed.

(** A surface that answers a variance of -1. *)
Lemma square_root_sees_floored_variances_only_witness :
  let c := Scenario.fx_coupon Scenario.five_days (lit 1249 1000) (lit 125 100) in
  let d := (Scenario.jan_1_2015 + 250)%Z in
  Fx.observation (L:=Live.library) c (Some Live.negativeVolTs) d
  = Fx.observation (L:=Live.library') c (Some Live.negativeVolTs) d.
Proof.
  intros c d.
  apply (proj1 (square_root_sees_floored_variances_only Live.library Live.library'
                  Live_sqrt_floored (λ _, eq_refl) (λ _, eq_refl))).
Defined.

(** X17. In the FX pricer of [ql/cashflows/fxrangeaccrualfixed.cpp] and the
    Bachelier CMS pricer the standard deviation at the lower trigger alone
    decides: when it is below [minStd] the probability recorded for the date
    is 1 for a fixing in the closed band and 0 otherwise, whatever the
    standard deviation at the upper trigger. *)
Theorem lower_standard_deviation_gates_both_boundaries {L : Library} :
  (∀ (c : Fx.Coupon) market d o,
     Fx.observation c market d = Ok o →
     standardDevLow o < Fx.minStd →
     inRangeProbability o
     = (if Described.in_band (Coupon.lowerTrigger c) (Coupon.upperTrigger c)
             (indexObservation o) then 1 else 0))
  ∧ (∀ (c : Cms.Coupon) market d o,
     Cms.observation c market d = Ok o →
     standardDevLow o < Cms.minStd →
     inRangeProbability o
     = (if Described.in_band (Coupon.lowerTrigger c) (Coupon.upperTrigger c)
             (indexObservation o) then 1 else 0)).
Proof.
  split; intros c market d o.
  - exact (Fx_intrinsic c market d o).
  - exact (Cms_intrinsic c market d o).
Qed.

(** No variance at the lower trigger 1.249, a variance of 1 at the upper
    trigger 1.25, a fixing of 1.25. *)
Lemma lower_standard_deviation_gates_both_boundaries_witness :
  let c := Scenario.fx_coupon Scenario.five_days (lit 1249 1000) (lit 125 100) in
  let o := Build_Observation (lit 125 100) 0 1 1 in
  Fx.minStd ≤ standardDevUpp o
  ∧ inRangeProbability o
    = (if Described.in_band (Coupon.lowerTrigger c) (Coupon.upperTrigger c)
            (indexObservation o) then 1 else 0).
Proof.
  intros c o. split; [by_evaluation|].
  apply (proj1 (lower_standard_deviation_gates_both_boundaries (L:=Live.library))
           c (Some Live.stepVolTs) (Scenario.jan_1_2015 + 250)%Z o).
  - by_evaluation.
  - by_evaluation.
Defined.

(** ** One pricer shared by several coupons *)

Section SharedPricer.
Context {L : Library} {I H O : Type} {Idx : Index I} {D : Diagnostics O}.
Variable observation : Coupon.t I → H → Date → result O.
Hypothesis observation_const : ∀ c b market d,
  observation (Coupon.set_calculated b c) market d = observation c market d.

Local Abbreviation calculate := (RangeAccrualFixedCoupon.calculate observation).
Local Abbreviation rangeAccrual := (RangeAccrualFixedCoupon.rangeAccrual observation).
Local Abbreviation initialize := (Pricer.initialize observation).

(** Whatever its outcome, evaluating a bound coupon leaves its pricer in the
    store as [initialize] leaves it. *)
Lemma calculate_priced_store (c : Coupon.t I) pricers l p :
  Coupon.calculated_ c = false →
  Coupon.pricer_ c = Some l →
  pricers !! l = Some p →
  (calculate (c, pricers)).1.2 = <[l := (initialize c p).1]> pricers.
Proof.
  intros Hc Hp Hl. rewrite calculate_stale by done.
  rewrite (performCalculations_priced observation _ _ l p) by done.
  rewrite (initialize_const observation observation_const).
  by destruct (initialize c p) as [p' [[]| |]].
Qed.

(** The coupon and the outcome depend on the pricer through its market
    handles only. *)
Lemma calculate_priced_from (c : Coupon.t I) pricers l p q :
  Coupon.calculated_ c = false →
  Coupon.pricer_ c = Some l →
  pricers !! l = Some p →
  Pricer.market_ q = Pricer.market_ p →
  (calculate (c, <[l := q]> pricers)).1.1 = (calculate (c, pricers)).1.1
  ∧ (calculate (c, <[l := q]> pricers)).2 = (calculate (c, pricers)).2.
Proof.
  intros Hc Hp Hl Hm. rewrite !calculate_stale by done.
  rewrite (performCalculations_priced observation
             (Coupon.set_calculated true c) pricers l p) by done.
  rewrite (performCalculations_priced observation
             (Coupon.set_calculated true c) (<[l := q]> pricers) l q)
    by (try done; apply lookup_insert_eq).
  rewrite !(initialize_const observation observation_const).
  rewrite (initialize_from observation c q p Hm).
  by destruct (initialize c p) as [p' [[]| |]].
Qed.

Lemma shared_pricer_isolation (c1 c2 : Coupon.t I) pricers l p :
  Coupon.calculated_ c1 = false →
  Coupon.pricer_ c1 = Some l →
  Coupon.calculated_ c2 = false →
  Coupon.pricer_ c2 = Some l →
  pricers !! l = Some p →
  let pricers' := (rangeAccrual (c1, pricers)).1.2 in
  (rangeAccrual (c2, pricers')).1.1 = (rangeAccrual (c2, pricers)).1.1
  ∧ (rangeAccrual (c2, pricers')).2 = (rangeAccrual (c2, pricers)).2.
Proof.
  intros Hc1 Hp1 Hc2 Hp2 Hl pricers'. unfold pricers'.
  rewrite (rangeAccrual_state observation (c1, pricers)).
  rewrite (calculate_priced_store c1 pricers l p) by done.
  destruct (calculate_priced_from c2 pricers l p (initialize c1 p).1 Hc2 Hp2 Hl
              (initialize_market observation c1 p)) as [Hs Hr].
  rewrite !rangeAccrual_calculate.
  destruct (calculate (c2, <[l := (initialize c1 p).1]> pricers)) as [[ca psa] ra].
  destruct (calculate (c2, pricers)) as [[cb psb] rb].
  simpl in *. subst. by destruct rb as [[]| |].
Qed.

End SharedPricer.

(** ** Widening the band *)

Lemma filter_length_mono {A} (f g : A → bool) (l : list A) :
  (∀ a, f a = true → g a = true) →
  (length (List.filter f l) ≤ length (List.filter g l))%nat.
Proof.
  intros Himp. induction l as [|a l IH]; simpl; [done|].
  destruct (f a) eqn:Ef.
  - rewrite (Himp a Ef). simpl. lia.
  - destruct (g a); simpl; lia.
Qed.

Section Widening.
Context {L : Library} {I H O : Type} {Idx : Index I} {D : Diagnostics O}.
Variable observation : Coupon.t I → H → Date → result O.

Local Abbreviation rangeAccrual := (RangeAccrualFixedCoupon.rangeAccrual observation).

Lemma fixing_in_band_widened (c c' : Coupon.t I) d :
  Coupon.index_ c' = Coupon.index_ c →
  Coupon.lowerTrigger c' ≤ Coupon.lowerTrigger c →
  Coupon.upperTrigger c ≤ Coupon.upperTrigger c' →
  Described.fixing_in_band c d = true → Described.fixing_in_band c' d = true.
Proof.
  intros Hi Hl Hu. unfold Described.fixing_in_band. rewrite Hi.
  destruct (fixing (Coupon.index_ c) d) as [x| |]; [|done|done].
  rewrite !in_band_true. intros [Hlx Hxu]. split.
  - by apply (Qcle_trans _ (Coupon.lowerTrigger c)).
  - by apply (Qcle_trans _ (Coupon.upperTrigger c)).
Qed.

Lemma fallback_fraction_monotone (w w' : RangeAccrualFixedCoupon.World (I:=I) (H:=H)) :
  let ds := dates (Coupon.observationsSchedule w.1) in
  Described.reachable observation w →
  Described.reachable observation w' →
  Coupon.pricer_ w.1 = None →
  Coupon.pricer_ w'.1 = None →
  Coupon.index_ w'.1 = Coupon.index_ w.1 →
  Coupon.observationsSchedule w'.1 = Coupon.observationsSchedule w.1 →
  Coupon.lowerTrigger w'.1 ≤ Coupon.lowerTrigger w.1 →
  Coupon.upperTrigger w.1 ≤ Coupon.upperTrigger w'.1 →
  ds ≠ [] →
  Forall (Described.has_fixing w.1) ds →
  ∃ r r', (rangeAccrual w).2 = Ok r ∧ (rangeAccrual w').2 = Ok r' ∧ r ≤ r'.
Proof.
  intros ds Hr Hr' Hp Hp' Hi Hs Hl Hu Hne Hfix.
  eexists _, _. split; [|split].
  - exact (rangeAccrual_fallback observation w Hr Hp Hfix).
  - apply (rangeAccrual_fallback observation w' Hr' Hp').
    rewrite Hs. unfold Described.has_fixing in *. by rewrite Hi.
  - unfold Described.count_in_band. rewrite Hs. fold ds.
    apply Qcdiv_le_compat_r.
    + apply of_size_positive. by destruct ds.
    + apply of_size_le, filter_length_mono. intros d.
      by apply fixing_in_band_widened.
Qed.

End Widening.

(** ** The fraction of the priced coupon on a surface flat in the strike *)

Section Averages.
Context {L : Library} {I H O : Type} {D : Diagnostics O}.
Variable observation : Coupon.t I → H → Date → result O.

Lemma sum_within (c : Coupon.t I) market ds :
  Forall (λ d, ∃ o, observation c market d = Ok o
                    ∧ 0 ≤ probability o ∧ probability o ≤ 1) ds →
  Forall (λ d, is_Ok (observation c market d)) ds
  ∧ 0 ≤ Described.sum_of_probabilities observation c market ds
  ∧ Described.sum_of_probabilities observation c market ds ≤ of_size (length ds).
Proof.
  induction 1 as [|d ds (o & Ho & H0 & H1) _ (IHok & IH0 & IH1)]; simpl.
  - split; [done|]. rewrite of_size_0. by split.
  - split; [constructor; [by rewrite Ho | done]|].
    unfold Described.probability_on. rewrite Ho. split.
    + pose proof (Qcplus_le_compat _ _ _ _ H0 IH0) as Hsum.
      by rewrite Qcplus_0_l in Hsum.
    + rewrite of_size_S, Qcplus_comm. by apply Qcplus_le_compat.
Qed.

Lemma initialize_within (c : Coupon.t I) (p : Pricer.t H) :
  let ds := dates (Coupon.observationsSchedule c) in
  ds ≠ [] →
  Forall (λ d, ∃ o, observation c (Pricer.market_ p) d = Ok o
                    ∧ 0 ≤ probability o ∧ probability o ≤ 1) ds →
  (Pricer.initialize observation c p).2 = Ok tt
  ∧ 0 ≤ Pricer.rangeAccrual (Pricer.initialize observation c p).1
  ∧ Pricer.rangeAccrual (Pricer.initialize observation c p).1 ≤ 1.
Proof.
  intros ds Hne Hds. destruct (sum_within c _ ds Hds) as (Hok & H0 & H1).
  destruct (initialize_average observation c p Hok) as (Hrun & Hfraction & _).
  split; [exact Hrun|]. rewrite Hfraction. fold ds.
  apply Qcdiv_unit_interval; [done | done |].
  apply of_size_positive. by destruct ds.
Qed.

End Averages.

Section FlatSurfaces.
Context {L : Library}.
Hypothesis Phi_monotone : ∀ x y, x ≤ y → Phi x ≤ Phi y.
Hypothesis Phi_range : ∀ x, 0 ≤ Phi x ∧ Phi x ≤ 1.

Lemma Cms_flat_surface (c : Cms.Coupon) (vol : Cms.SwaptionVolatilityStructure) d o :
  (∀ d swapTenor strike strike',
     Cms.blackVariance vol d swapTenor strike true
     = Cms.blackVariance vol d swapTenor strike' true) →
  Cms.observation c (Some vol) d = Ok o →
  standardDevLow o = standardDevUpp o.
Proof.
  intros Hflat Hobs. unfold Cms.observation in Hobs.
  apply bind_Ok_inv in Hobs as (x & _ & Hobs).
  apply bind_Ok_inv in Hobs as ([sl su] & Hsd & Hobs).
  injection Hobs as <-. simpl. unfold Cms.standardDevs in Hsd.
  cbn [mbind result_bind deref] in Hsd.
  destruct (Cms.referenceDate vol <? d)%Z; [|by injection Hsd as <- <-].
  rewrite (Hflat d _ (Coupon.lowerTrigger c) (Coupon.upperTrigger c)) in Hsd.
  destruct (Cms.blackVariance vol d _ (Coupon.upperTrigger c) true) as [v| |];
    [|done|done].
  by injection Hsd as <- <-.
Qed.

Lemma Fx_flat_surface (c : Fx.Coupon) (vol : Fx.BlackVolTermStructure) d o :
  (∀ d strike strike',
     Fx.blackVariance vol d strike true = Fx.blackVariance vol d strike' true) →
  Fx.observation c (Some vol) d = Ok o →
  standardDevLow o = standardDevUpp o.
Proof.
  intros Hflat Hobs. unfold Fx.observation in Hobs.
  apply bind_Ok_inv in Hobs as (x & _ & Hobs).
  cbn [mbind result_bind deref] in Hobs.
  apply bind_Ok_inv in Hobs as ([sl su] & Hsd & Hobs).
  injection Hobs as <-. simpl.
  destruct (Fx.referenceDate vol <? d)%Z; [|by injection Hsd as <- <-].
  rewrite (Hflat d (Coupon.lowerTrigger c) (Coupon.upperTrigger c)) in Hsd.
  destruct (Fx.blackVariance vol d (Coupon.upperTrigger c) true) as [v| |];
    [|done|done].
  by injection Hsd as <- <-.
Qed.

Lemma Cms_flat_fraction (c : Cms.Coupon) (p : Cms.Pricer) vol :
  let ds := dates (Coupon.observationsSchedule c) in
  Pricer.market_ p = Some vol →
  (∀ d swapTenor strike strike',
     Cms.blackVariance vol d swapTenor strike true
     = Cms.blackVariance vol d swapTenor strike' true) →
  Coupon.lowerTrigger c ≤ Coupon.upperTrigger c →
  ds ≠ [] →
  Forall (λ d, is_Ok (Cms.observation c (Some vol) d)) ds →
  (Cms.initialize c p).2 = Ok tt
  ∧ 0 ≤ Pricer.rangeAccrual (Cms.initialize c p).1
  ∧ Pricer.rangeAccrual (Cms.initialize c p).1 ≤ 1.
Proof.
  intros ds Hm Hflat Hband Hne Hok.
  apply (initialize_within Cms.observation c p Hne). rewrite Hm.
  eapply Forall_impl; [exact Hok|]. intros d Hd. simpl in Hd.
  destruct (Cms.observation c (Some vol) d) as [o| |] eqn:Ho; [|done|done].
  exists o. split; [done|].
  apply (Cms_flat_probability c (Some vol) d o); try done.
  by apply (Cms_flat_surface c vol d).
Qed.

Lemma Fx_flat_fraction (c : Fx.Coupon) (p : Fx.Pricer) vol :
  let ds := dates (Coupon.observationsSchedule c) in
  (∀ x y, 0 < x → x ≤ y → std_log x ≤ std_log y) →
  Pricer.market_ p = Some vol →
  (∀ d strike strike',
     Fx.blackVariance vol d strike true = Fx.blackVariance vol d strike' true) →
  0 < Coupon.lowerTrigger c →
  Coupon.lowerTrigger c ≤ Coupon.upperTrigger c →
  ds ≠ [] →
  Forall (λ d, Derived.fixing_positive c d = true) ds →
  Forall (λ d, is_Ok (Fx.observation c (Some vol) d)) ds →
  (Fx.initialize c p).2 = Ok tt
  ∧ 0 ≤ Pricer.rangeAccrual (Fx.initialize c p).1
  ∧ Pricer.rangeAccrual (Fx.initialize c p).1 ≤ 1.
Proof.
  intros ds Hlog Hm Hflat Hlower Hband Hne Hpos Hok.
  apply (initialize_within Fx.observation c p Hne). rewrite Hm.
  rewrite Forall_forall in Hpos, Hok. apply Forall_forall. intros d Hd.
  specialize (Hpos d Hd). specialize (Hok d Hd). simpl in Hok.
  destruct (Fx.observation c (Some vol) d) as [o| |] eqn:Ho; [|done|done].
  exists o. split; [done|].
  apply (Fx_flat_probability c (Some vol) d o); try done.
  - unfold Derived.fixing_positive in Hpos. unfold Fx.observation in Ho.
    destruct (fixing (Coupon.index_ c) d) as [x| |]; [|done|done].
    cbn [mbind result_bind deref] in Ho.
    apply bind_Ok_inv in Ho as ([sl su] & _ & Ho). injection Ho as <-. simpl.
    by apply bool_decide_eq_true in Hpos.
  - by apply (Fx_flat_surface c vol d).
Qed.

End FlatSurfaces.

(** X18. A pricer shared by two coupons carries nothing over from one to the
    other: after a first coupon bound to the pricer has been evaluated,
    whatever the outcome, [rangeAccrual()] on a second coupon bound to the
    same pricer leaves that coupon and returns that outcome which it leaves
    and returns when the first coupon has never been evaluated. FX and both
    CMS revisions. *)
Theorem shared_pricer_carries_nothing_over {L : Library} :
  (∀ (c1 c2 : Fx.Coupon) pricers l p,
     Coupon.calculated_ c1 = false →
     Coupon.pricer_ c1 = Some l →
     Coupon.calculated_ c2 = false →
     Coupon.pricer_ c2 = Some l →
     pricers !! l = Some p →
     let pricers' := (Fx.rangeAccrual (c1, pricers)).1.2 in
     (Fx.rangeAccrual (c2, pricers')).1.1 = (Fx.rangeAccrual (c2, pricers)).1.1
     ∧ (Fx.rangeAccrual (c2, pricers')).2 = (Fx.rangeAccrual (c2, pricers)).2)
  ∧ (∀ (c1 c2 : Cms.Coupon) pricers l p,
     Coupon.calculated_ c1 = false →
     Coupon.pricer_ c1 = Some l →
     Coupon.calculated_ c2 = false →
     Coupon.pricer_ c2 = Some l →
     pricers !! l = Some p →
     let pricers' := (Cms.rangeAccrual (c1, pricers)).1.2 in
     (Cms.rangeAccrual (c2, pricers')).1.1 = (Cms.rangeAccrual (c2, pricers)).1.1
     ∧ (Cms.rangeAccrual (c2, pricers')).2 = (Cms.rangeAccrual (c2, pricers)).2)
  ∧ (∀ (c1 c2 : Cms.Coupon) pricers l p,
     Coupon.calculated_ c1 = false →
     Coupon.pricer_ c1 = Some l →
     Coupon.calculated_ c2 = false →
     Coupon.pricer_ c2 = Some l →
     pricers !! l = Some p →
     let pricers' := (CmsHagan.rangeAccrual (c1, pricers)).1.2 in
     (CmsHagan.rangeAccrual (c2, pricers')).1.1
     = (CmsHagan.rangeAccrual (c2, pricers)).1.1
     ∧ (CmsHagan.rangeAccrual (c2, pricers')).2
       = (CmsHagan.rangeAccrual (c2, pricers)).2).
Proof.
  split; [|split]; intros c1 c2 pricers l p.
  - exact (shared_pricer_isolation Fx.observation Fx_observation_const
             c1 c2 pricers l p).
  - exact (shared_pricer_isolation Cms.observation Cms_observation_const
             c1 c2 pricers l p).
  - exact (shared_pricer_isolation CmsHagan.observation CmsHagan_observation_const
             c1 c2 pricers l p).
Qed.

(** The first coupon observes a date without a fixing and fails, the second
    observes the five days. *)
Lemma shared_pricer_carries_nothing_over_witness :
  let c1 := Scenario.bound
              (Scenario.fx_coupon Scenario.gap_days (lit 125 100) (lit 1251 1000)) in
  let c2 := Scenario.bound
              (Scenario.fx_coupon Scenario.five_days (lit 125 100) (lit 1251 1000)) in
  let pricers : gmap loc Fx.Pricer := {[ 1%positive := Scenario.fx_pricer ]} in
  let pricers' := (Fx.rangeAccrual (L:=Scenario.library) (c1, pricers)).1.2 in
  (Fx.rangeAccrual (L:=Scenario.library) (c2, pricers')).1.1
  = (Fx.rangeAccrual (L:=Scenario.library) (c2, pricers)).1.1
  ∧ (Fx.rangeAccrual (L:=Scenario.library) (c2, pricers')).2
    = (Fx.rangeAccrual (L:=Scenario.library) (c2, pricers)).2.
Proof.
  intros c1 c2 pricers.
  apply (proj1 (shared_pricer_carries_nothing_over (L:=Scenario.library))
           c1 c2 pricers 1%positive Scenario.fx_pricer).
  - reflexivity.
  - reflexivity.
  - reflexivity.
  - reflexivity.
  - apply lookup_singleton_eq.
Defined.

(** X19. Widening the band never lowers the count-based fraction: of two
    reachable FX or CMS coupons without a pricer that observe the same index
    on the same non-empty schedule, all of whose fixings are there, the one
    whose lower trigger is not higher and whose upper trigger is not lower
    returns from [rangeAccrual()] a fraction that is not smaller. *)
Theorem widening_the_band_never_lowers_the_fraction {L : Library} :
  (∀ w w' : Fx.World,
     let ds := dates (Coupon.observationsSchedule w.1) in
     Described.reachable Fx.observation w →
     Described.reachable Fx.observation w' →
     Coupon.pricer_ w.1 = None →
     Coupon.pricer_ w'.1 = None →
     Coupon.index_ w'.1 = Coupon.index_ w.1 →
     Coupon.observationsSchedule w'.1 = Coupon.observationsSchedule w.1 →
     Coupon.lowerTrigger w'.1 ≤ Coupon.lowerTrigger w.1 →
     Coupon.upperTrigger w.1 ≤ Coupon.upperTrigger w'.1 →
     ds ≠ [] →
     Forall (Described.has_fixing w.1) ds →
     ∃ r r', (Fx.rangeAccrual w).2 = Ok r ∧ (Fx.rangeAccrual w').2 = Ok r' ∧ r ≤ r')
  ∧ (∀ w w' : Cms.World,
     let ds := dates (Coupon.observationsSchedule w.1) in
     Described.reachable Cms.observation w →
     Described.reachable Cms.observation w' →
     Coupon.pricer_ w.1 = None →
     Coupon.pricer_ w'.1 = None →
     Coupon.index_ w'.1 = Coupon.index_ w.1 →
     Coupon.observationsSchedule w'.1 = Coupon.observationsSchedule w.1 →
     Coupon.lowerTrigger w'.1 ≤ Coupon.lowerTrigger w.1 →
     Coupon.upperTrigger w.1 ≤ Coupon.upperTrigger w'.1 →
     ds ≠ [] →
     Forall (Described.has_fixing w.1) ds →
     ∃ r r', (Cms.rangeAccrual w).2 = Ok r ∧ (Cms.rangeAccrual w').2 = Ok r'
             ∧ r ≤ r').
Proof.
  split; intros w w'.
  - exact (fallback_fraction_monotone Fx.observation w w').
  - exact (fallback_fraction_monotone Cms.observation w w').
Qed.

(** The band [1.25, 1.251] widened to [1.249, 1.252]. *)
Lemma widening_the_band_never_lowers_the_fraction_witness :
  let w := Scenario.fx_world
             (Scenario.fx_coupon Scenario.five_days (lit 125 100) (lit 1251 1000)) in
  let w' := Scenario.fx_world
              (Scenario.fx_coupon Scenario.five_days (lit 1249 1000) (lit 1252 1000)) in
  ∃ r r', (Fx.rangeAccrual (L:=Scenario.library) w).2 = Ok r
          ∧ (Fx.rangeAccrual (L:=Scenario.library) w').2 = Ok r' ∧ r ≤ r'.
Proof.
  intros w w'.
  apply (proj1 (widening_the_band_never_lowers_the_fraction (L:=Scenario.library))
           w w').
  - apply Described.reach_constructed.
  - apply Described.reach_constructed.
  - reflexivity.
  - reflexivity.
  - reflexivity.
  - reflexivity.
  - by_evaluation.
  - by_evaluation.
  - vm_compute. discriminate.
  - by_evaluation.
Defined.

(** X20. When the distribution function is monotone with values between 0 and
    1, the volatility surface answers the same variance at every strike, the
    band is ordered, the schedule is not empty and the loop body succeeds on
    every date, [initialize] of the Bachelier CMS pricer succeeds and leaves
    a fraction between 0 and 1; so does [initialize] of the FX pricer of
    [ql/cashflows/fxrangeaccrualfixed.cpp] when moreover the logarithm is
    monotone, the lower trigger is positive and the fixings are positive. *)
Theorem flat_surface_gives_a_fraction {L : Library} :
  (∀ x y, x ≤ y → Phi x ≤ Phi y) →
  (∀ x, 0 ≤ Phi x ∧ Phi x ≤ 1) →
  (∀ (c : Cms.Coupon) (p : Cms.Pricer) vol,
     let ds := dates (Coupon.observationsSchedule c) in
     Pricer.market_ p = Some vol →
     (∀ d swapTenor strike strike',
        Cms.blackVariance vol d swapTenor strike true
        = Cms.blackVariance vol d swapTenor strike' true) →
     Coupon.lowerTrigger c ≤ Coupon.upperTrigger c →
     ds ≠ [] →
     Forall (λ d, is_Ok (Cms.observation c (Some vol) d)) ds →
     (Cms.initialize c p).2 = Ok tt
     ∧ 0 ≤ Pricer.rangeAccrual (Cms.initialize c p).1
     ∧ Pricer.rangeAccrual (Cms.initialize c p).1 ≤ 1)
  ∧ (∀ (c : Fx.Coupon) (p : Fx.Pricer) vol,
     let ds := dates (Coupon.observationsSchedule c) in
     (∀ x y, 0 < x → x ≤ y → std_log x ≤ std_log y) →
     Pricer.market_ p = Some vol →
     (∀ d strike strike',
        Fx.blackVariance vol d strike true = Fx.blackVariance vol d strike' true) →
     0 < Coupon.lowerTrigger c →
     Coupon.lowerTrigger c ≤ Coupon.upperTrigger c →
     ds ≠ [] →
     Forall (λ d, Derived.fixing_positive c d = true) ds →
     Forall (λ d, is_Ok (Fx.observation c (Some vol) d)) ds →
     (Fx.initialize c p).2 = Ok tt
     ∧ 0 ≤ Pricer.rangeAccrual (Fx.initialize c p).1
     ∧ Pricer.rangeAccrual (Fx.initialize c p).1 ≤ 1).
Proof.
  intros Hmono Hrange. split.
  - intros c p vol. exact (Cms_flat_fraction Hmono Hrange c p vol).
  - intros c p vol. exact (Fx_flat_fraction Hmono Hrange c p vol).
Qed.

(** Five days after the reference date, a variance of 1/100 at every
    strike. *)
Lemma flat_surface_gives_a_fraction_witness :
  let c := Scenario.cms_coupon Scenario.five_days (lit 349 10000) (lit 35 1000) in
  let p := Cms.CmsRangeAccrualFixedCouponPricer (Some Live.flatSwaptionVolTs) in
  let c' := Scenario.fx_coupon Scenario.five_days (lit 1249 1000) (lit 125 100) in
  let p' := Fx.FxRangeAccrualFixedCouponPricer (Some Live.flatVolTs) in
  ((Cms.initialize (L:=Live.library) c p).2 = Ok tt
   ∧ 0 ≤ Pricer.rangeAccrual (Cms.initialize (L:=Live.library) c p).1
   ∧ Pricer.rangeAccrual (Cms.initialize (L:=Live.library) c p).1 ≤ 1)
  ∧ ((Fx.initialize (L:=Live.library) c' p').2 = Ok tt
     ∧ 0 ≤ Pricer.rangeAccrual (Fx.initialize (L:=Live.library) c' p').1
     ∧ Pricer.rangeAccrual (Fx.initialize (L:=Live.library) c' p').1 ≤ 1).
Proof.
  intros c p c' p'. split.
  - apply (proj1 (flat_surface_gives_a_fraction (L:=Live.library)
                    Live_Phi_monotone Live_Phi_range) c p Live.flatSwaptionVolTs).
    + reflexivity.
    + intros d swapTenor strike strike'. reflexivity.
    + by_evaluation.
    + vm_compute. discriminate.
    + by_evaluation.
  - apply (proj2 (flat_surface_gives_a_fraction (L:=Live.library)
                    Live_Phi_monotone Live_Phi_range) c' p' Live.flatVolTs).
    + exact Live_log_monotone.
    + reflexivity.
    + intros d strike strike'. reflexivity.
    + by_evaluation.
    + by_evaluation.
    + vm_compute. discriminate.
    + by_evaluation.
    + by_evaluation.
Defined.

(** ** Adjacent bands *)

Lemma filter_length_split {A} (f g h : A → bool) (l : list A) :
  (∀ a, h a = f a || g a) →
  (∀ a, f a && g a = false) →
  length (List.filter h l)
  = (length (List.filter f l) + length (List.filter g l))%nat.
Proof.
  intros Hunion Hapart. induction l as [|a l IH]; simpl; [done|].
  rewrite Hunion. specialize (Hapart a).
  destruct (f a), (g a); simpl in *; try done; rewrite IH; lia.
Qed.

Lemma half_open_split (lower middle upper x : Real) :
  lower ≤ middle → middle ≤ upper →
  bool_decide (lower ≤ x ∧ x < upper)
  = bool_decide (lower ≤ x ∧ x < middle) || bool_decide (middle ≤ x ∧ x < upper)
  ∧ bool_decide (lower ≤ x ∧ x < middle) && bool_decide (middle ≤ x ∧ x < upper)
    = false.
Proof.
  intros Hlm Hmu. destruct (Qclt_le_dec x middle) as [Hx|Hx].
  - rewrite (bool_decide_eq_false_2 (middle ≤ x ∧ x < upper))
      by (intros [Hle _]; by apply Qcle_not_lt in Hle).
    rewrite orb_false_r, andb_false_r. split; [|done].
    apply bool_decide_ext. split; intros [Hl _]; (split; [done|]); [done|].
    by apply (Qclt_le_trans _ middle).
  - rewrite (bool_decide_eq_false_2 (lower ≤ x ∧ x < middle))
      by (intros [_ Hlt]; by apply Qcle_not_lt in Hx).
    split; [|done]. rewrite orb_false_l.
    apply bool_decide_ext. split; intros [Hl Hu]; (split; [|done]); [done|].
    by apply (Qcle_trans _ middle).
Qed.

Section AdjacentBands.
Context {I : Type} {Idx : Index I}.
Variables (b : FixedRateCoupon) (schedule : Schedule) (index : I).
Variables (lower middle upper : Real).

Local Abbreviation below := (Coupon.init b schedule index lower middle).
Local Abbreviation above := (Coupon.init b schedule index middle upper).
Local Abbreviation whole := (Coupon.init b schedule index lower upper).

Lemma count_adjacent :
  lower ≤ middle → middle ≤ upper →
  Derived.count_in_half_open_band whole
  = (Derived.count_in_half_open_band below
     + Derived.count_in_half_open_band above)%nat.
Proof.
  intros Hlm Hmu. unfold Derived.count_in_half_open_band.
  cbn [Coupon.observationsSchedule Coupon.observationsSchedule_ Coupon.init].
  apply filter_length_split; intros d; unfold Derived.fixing_in_half_open_band;
    cbn [Coupon.init Coupon.index_ Coupon.lowerTrigger Coupon.upperTrigger
         Coupon.lowerTrigger_ Coupon.upperTrigger_];
    destruct (fixing index d) as [x| |]; try done;
    by apply half_open_split.
Qed.

End AdjacentBands.

Section DaysCounted.
Context {L : Library} {I H O : Type} {D : Diagnostics O}.
Variable observation : Coupon.t I → H → Date → result O.

Lemma initialize_days_counted (c : Coupon.t I) (p : Pricer.t H) (f : Date → bool) :
  let ds := dates (Coupon.observationsSchedule c) in
  Forall (λ d, ∃ o, observation c (Pricer.market_ p) d = Ok o
                    ∧ probability o = if f d then 1 else 0) ds →
  Pricer.additionalResults (Pricer.initialize observation c p).1 !! "daysInRange"
  = Some (of_size (length (List.filter f ds))).
Proof.
  intros ds Hds. destruct (sum_of_indicators observation c _ f ds Hds) as [Hok Hsum].
  destruct (initialize_average observation c p Hok) as (_ & _ & Hdays & _).
  rewrite Hdays. fold ds. by rewrite Hsum.
Qed.

End DaysCounted.

(** X21. On a schedule whose dates lie on or before the reference date of the
    volatility and have fixings, the FX pricer with smile adjustment and the
    replicating CMS pricer count adjacent bands without overlap: for three
    coupons as the constructors leave them, alike but for their triggers,
    with [lower <= middle <= upper] and bands [lower, middle],
    [middle, upper] and [lower, upper], the entry ["daysInRange"] that
    [initialize] leaves is for each of them the whole number of dates whose
    fixing lies in its band closed below and open above, and the number for
    [lower, upper] is the sum of the numbers for the other two. *)
Theorem adjacent_bands_add_up {L : Library} :
  (∀ b schedule fxIndex lower middle upper (p : FxSmile.Pricer) vol,
     let below : Fx.Coupon := Coupon.init b schedule fxIndex lower middle in
     let above : Fx.Coupon := Coupon.init b schedule fxIndex middle upper in
     let whole : Fx.Coupon := Coupon.init b schedule fxIndex lower upper in
     let daysInRange c :=
       Pricer.additionalResults (FxSmile.initialize c p).1 !! "daysInRange" in
     Pricer.market_ p = Some vol →
     lower ≤ middle →
     middle ≤ upper →
     Forall (λ d, (d ≤ FxSmile.referenceDate vol)%Z) (dates schedule) →
     Forall (Described.has_fixing whole) (dates schedule) →
     daysInRange below = Some (of_size (Derived.count_in_half_open_band below))
     ∧ daysInRange above = Some (of_size (Derived.count_in_half_open_band above))
     ∧ daysInRange whole = Some (of_size (Derived.count_in_half_open_band whole))
     ∧ Derived.count_in_half_open_band whole
       = (Derived.count_in_half_open_band below
          + Derived.count_in_half_open_band above)%nat)
  ∧ (∀ b schedule cmsIndex lower middle upper (p : CmsHagan.Pricer) vol,
     let below : Cms.Coupon := Coupon.init b schedule cmsIndex lower middle in
     let above : Cms.Coupon := Coupon.init b schedule cmsIndex middle upper in
     let whole : Cms.Coupon := Coupon.init b schedule cmsIndex lower upper in
     let daysInRange c :=
       Pricer.additionalResults (CmsHagan.initialize c p).1 !! "daysInRange" in
     CmsHagan.swaptionVolatility_ (Pricer.market_ p) = Some vol →
     lower ≤ middle →
     middle ≤ upper →
     Forall (λ d, (d ≤ Cms.referenceDate vol)%Z) (dates schedule) →
     Forall (Described.has_fixing whole) (dates schedule) →
     daysInRange below = Some (of_size (Derived.count_in_half_open_band below))
     ∧ daysInRange above = Some (of_size (Derived.count_in_half_open_band above))
     ∧ daysInRange whole = Some (of_size (Derived.count_in_half_open_band whole))
     ∧ Derived.count_in_half_open_band whole
       = (Derived.count_in_half_open_band below
          + Derived.count_in_half_open_band above)%nat).
Proof.
  split.
  - intros b schedule fxIndex lower middle upper [market fraction results] vol
      below above whole daysInRange Hm Hlm Hmu Hpast Hfix.
    simpl in Hm. subst market.
    assert (lower ≤ upper) as Hlu by by apply (Qcle_trans _ middle).
    repeat split.
    + apply (initialize_days_counted FxSmile.observation below).
      by apply FxSmile_past_indicators.
    + apply (initialize_days_counted FxSmile.observation above).
      by apply FxSmile_past_indicators.
    + apply (initialize_days_counted FxSmile.observation whole).
      by apply FxSmile_past_indicators.
    + by apply count_adjacent.
  - intros b schedule cmsIndex lower middle upper [[v hagan] fraction results] vol
      below above whole daysInRange Hm Hlm Hmu Hpast Hfix.
    simpl in Hm. subst v.
    assert (lower ≤ upper) as Hlu by by apply (Qcle_trans _ middle).
    repeat split.
    + apply (initialize_days_counted CmsHagan.observation below).
      by apply CmsHagan_past_indicators.
    + apply (initialize_days_counted CmsHagan.observation above).
      by apply CmsHagan_past_indicators.
    + apply (initialize_days_counted CmsHagan.observation whole).
      by apply CmsHagan_past_indicators.
    + by apply count_adjacent.
Qed.

(** Fixings 3.48%, ..., 3.52% under [3.48%, 3.5%], [3.5%, 3.52%] and
    [3.48%, 3.52%]: two, two and four days of five. *)
Lemma adjacent_bands_add_up_witness :
  let p := CmsHagan.CmsRangeAccrualFixedCouponPricer (Some Scenario.swaptionVolTs) in
  let below := Scenario.cms_coupon Scenario.five_days (lit 348 10000) (lit 35 1000) in
  let above := Scenario.cms_coupon Scenario.five_days (lit 35 1000) (lit 352 10000) in
  let whole := Scenario.cms_coupon Scenario.five_days (lit 348 10000) (lit 352 10000) in
  let daysInRange c :=
    Pricer.additionalResults (CmsHagan.initialize (L:=Scenario.library) c p).1
      !! "daysInRange" in
  daysInRange below = Some (of_size (Derived.count_in_half_open_band below))
  ∧ daysInRange above = Some (of_size (Derived.count_in_half_open_band above))
  ∧ daysInRange whole = Some (of_size (Derived.count_in_half_open_band whole))
  ∧ Derived.count_in_half_open_band whole
    = (Derived.count_in_half_open_band below
       + Derived.count_in_half_open_band above)%nat.
Proof.
  intros p.
  apply (proj2 (adjacent_bands_add_up (L:=Scenario.library)) Scenario.base
           Scenario.five_days Scenario.swapIndex (lit 348 10000) (lit 35 1000)
           (lit 352 10000) p Scenario.swaptionVolTs).
  - reflexivity.
  - by_evaluation.
  - by_evaluation.
  - by_evaluation.
  - by_evaluation.
Defined.
